(** * ForecastKPI: the lag-based KPI forecasting pipeline of
    [forecast_service.py], embedded in Rocq.

    The embedding follows the source function by function:
    - [extract_date_from_filename] (the Filename Date Resolver),
    - the filter/group/mean/sort prefix of [forecast_kpi] (the Series
      Extractor),
    - [create_features], [shift] and [dropna] (the Feature Builder),
    - the fit/seed/predict loop (the Forecast Engine),
    - [forecast_kpi] and [run_forecast_pipeline] with their [try]/[except]
      handlers.

    Modelling conventions.
    - A Python [str] is a list of characters ([list ascii]); the model is
      exact for names whose code points are below 256, where the regular
      expression classes [[A-Za-z]] and [\d] select exactly the ASCII letters
      and digits.  Literals are written [lit "..."].
    - A number read from a sheet is a float64, written as the rational ([Q])
      it represents; a float64 that pandas or the regressor computes is a
      [Float], finite or infinite; a missing value (NaN) is [None].  What
      float64 arithmetic makes of the mean of several numbers is left to the
      collaborator [float_mean].
    - A raised Python [Exception] is a value [Raise e] of the monad [Exc];
      [try]/[except Exception] is [handle].
    - XGBoost, plotly, the archive and spreadsheet decoders are collaborators:
      they are the fields of the class [Collaborators] and may return or
      raise on any input; so is what pandas infers about a header row.  The
      temporary directory itself is created and removed without error.
    - Stripping the headers can give two columns one label.  The model
      follows pandas where one of the four dimension labels is repeated (the
      mask of lines 30-35 then raises); any other label is taken to head one
      column. *)

From Stdlib Require Import String Ascii Bool Arith ZArith QArith Lia.
From Stdlib Require Import List Sorted.
Import ListNotations.


Close Scope Q_scope.
Close Scope Z_scope.
Open Scope nat_scope.
Open Scope list_scope.

(** Python [str] values that the code inspects character by character. *)
Definition str := list ascii.
Definition lit (x : string) : str := list_ascii_of_string x.

(** [a == b] on [str]. *)
Definition str_eqb (a b : str) : bool :=
  String.eqb (string_of_list_ascii a) (string_of_list_ascii b).

(** Truthiness of a [str]: the empty string is falsy. *)
Definition truthy (p : str) : bool := match p with [] => false | _ => true end.

(** [sep.join(parts)]. *)
Fixpoint join (sep : str) (parts : list str) : str :=
  match parts with
  | [] => []
  | [x] => x
  | x :: tl => x ++ sep ++ join sep tl
  end.

(* ================================================================== *)
(** * Filename Date Resolver *)
(* ================================================================== *)

Module Resolver.

(** [s.rfind(c)]: the index of the last occurrence, [None] for Python's -1. *)
Fixpoint rfind (c : ascii) (p : str) : option nat :=
  match p with
  | [] => None
  | x :: tl =>
      match rfind c tl with
      | Some i => Some (S i)
      | None => if Ascii.eqb x c then Some 0 else None
      end
  end.

(** [os.path.basename] (posixpath): [p[p.rfind('/')+1:]]. *)
Definition basename (p : str) : str :=
  match rfind "/" p with
  | Some i => skipn (S i) p
  | None => p
  end.

(** [os.path.splitext] (genericpath._splitext with sep='/', extsep='.'):
    split at the last dot, unless only dots precede it in the last path
    component. *)
Definition splitext (p : str) : str * str :=
  let filenameIndex := match rfind "/" p with Some i => S i | None => 0 end in
  match rfind "." p with
  | None => (p, [])
  | Some dotIndex =>
      if (filenameIndex <=? dotIndex)
      then if existsb (fun c => negb (Ascii.eqb c "."))
                      (firstn (dotIndex - filenameIndex) (skipn filenameIndex p))
           then (firstn dotIndex p, skipn dotIndex p)
           else (p, [])
      else (p, [])
  end.

Definition is_upper (c : ascii) : bool :=
  (65 <=? nat_of_ascii c) && (nat_of_ascii c <=? 90).
Definition is_lower (c : ascii) : bool :=
  (97 <=? nat_of_ascii c) && (nat_of_ascii c <=? 122).
(** The class [[A-Za-z]]. *)
Definition is_alpha (c : ascii) : bool := is_upper c || is_lower c.
(** The class [\d]. *)
Definition is_digit (c : ascii) : bool :=
  (48 <=? nat_of_ascii c) && (nat_of_ascii c <=? 57).

(** An anchored match of [([A-Za-z]{3})(\d{4})] at the head of [p]. *)
Definition match_at (p : str) : option (str * str) :=
  match p with
  | a :: b :: c :: d1 :: d2 :: d3 :: d4 :: _ =>
      if is_alpha a && is_alpha b && is_alpha c
         && is_digit d1 && is_digit d2 && is_digit d3 && is_digit d4
      then Some ([a; b; c], [d1; d2; d3; d4])
      else None
  | _ => None
  end.

(** [Series.str.extract(pat)] on a one-element Series: the groups of the
    leftmost match, [None] for the all-NaN row. *)
Fixpoint regex_search (p : str) : option (str * str) :=
  match match_at p with
  | Some r => Some r
  | None =>
      match p with
      | [] => None
      | _ :: tl => regex_search tl
      end
  end.

Definition upper (c : ascii) : ascii :=
  if is_lower c then ascii_of_nat (nat_of_ascii c - 32) else c.
Definition lower (c : ascii) : ascii :=
  if is_upper c then ascii_of_nat (nat_of_ascii c + 32) else c.

(** [str.capitalize] (applied by the code to three ASCII letters). *)
Definition capitalize (p : str) : str :=
  match p with
  | [] => []
  | c :: tl => upper c :: map lower tl
  end.

(** [calendar.month_abbr] (C locale); index 0 is the empty string. *)
Definition month_abbr : list str :=
  map lit [""; "Jan"; "Feb"; "Mar"; "Apr"; "May"; "Jun";
         "Jul"; "Aug"; "Sep"; "Oct"; "Nov"; "Dec"]%string.

Definition digit_char (d : nat) : ascii := ascii_of_nat (48 + d).

(** [f"{i:02d}"] for [i < 100]. *)
Definition fmt_02d (i : nat) : str := [digit_char (i / 10); digit_char (i mod 10)].

Fixpoint enumerate_from {A} (i : nat) (l : list A) : list (nat * A) :=
  match l with
  | [] => []
  | x :: tl => (i, x) :: enumerate_from (S i) tl
  end.

(** [month_map = {abbr: f"{i:02d}" for i, abbr in enumerate(month_abbr) if abbr}] *)
Definition month_map : list (str * str) :=
  map (fun ia => (snd ia, fmt_02d (fst ia)))
      (filter (fun ia => negb (str_eqb (snd ia) []))
              (enumerate_from 0 month_abbr)).

(** [dict.get]. *)
Fixpoint dict_get (k : str) (d : list (str * str)) : option str :=
  match d with
  | [] => None
  | (k', v) :: tl => if str_eqb k k' then Some v else dict_get k tl
  end.

(** The stem the regular expression is run on. *)
Definition stem (filename : str) : str := fst (splitext (basename filename)).

Definition extract_date_from_filename (filename : str) : option str :=
  let name := basename filename in
  let base := fst (splitext name) in
  match regex_search base with
  | Some (mon, year) =>
      match dict_get (capitalize mon) month_map with
      | Some mm => if truthy mm then Some (year ++ lit "-" ++ mm ++ lit "-01") else None
      | None => None
      end
  | None => None
  end.

End Resolver.


Import Resolver.

(* ================================================================== *)
(** * Exceptions *)
(* ================================================================== *)

(** The exceptions ([Exception] subclasses) of the modelled code paths;
    [External] is anything a collaborator raises. *)
Inductive Exn : Type :=
| KeyError (key : str)
| IndexError (msg : str)
| ValueError (msg : str)
| TypeError (msg : str)
| AttributeError (msg : str)
| OutOfBoundsDatetime (msg : str)
| External (msg : str).

(** [str(e)] as interpolated by [f"...{e}"]. *)
Definition exn_str (e : Exn) : str :=
  match e with
  | KeyError key => lit "'" ++ key ++ lit "'"
  | IndexError msg | ValueError msg | TypeError msg | AttributeError msg
  | OutOfBoundsDatetime msg | External msg => msg
  end.

Inductive Exc (A : Type) : Type :=
| Ok (a : A)
| Raise (e : Exn).
Arguments Ok {A} a.
Arguments Raise {A} e.

Definition bind {A B} (m : Exc A) (k : A -> Exc B) : Exc B :=
  match m with
  | Ok a => k a
  | Raise e => Raise e
  end.

Notation "x <- m ;; k" := (bind m (fun x => k))
  (at level 61, m at next level, right associativity).

(** [try: body / except Exception as e: handler(e)]. *)
Definition handle {A} (body : Exc A) (handler : Exn -> A) : A :=
  match body with
  | Ok a => a
  | Raise e => handler e
  end.

Fixpoint mapM {A B} (f : A -> Exc B) (l : list A) : Exc (list B) :=
  match l with
  | [] => Ok []
  | x :: tl => y <- f x ;; ys <- mapM f tl ;; Ok (y :: ys)
  end.

(* ================================================================== *)
(** * Timestamps *)
(* ================================================================== *)

(** A [pd.Timestamp] at midnight: a calendar date. *)
Record Timestamp : Type := mkTs { ts_year : Z; ts_month : Z; ts_day : Z }.

Definition ts_compare (a b : Timestamp) : comparison :=
  match Z.compare (ts_year a) (ts_year b) with
  | Eq => match Z.compare (ts_month a) (ts_month b) with
          | Eq => Z.compare (ts_day a) (ts_day b)
          | c => c
          end
  | c => c
  end.

Definition ts_ltb (a b : Timestamp) : bool :=
  match ts_compare a b with Lt => true | _ => false end.
Definition ts_eqb (a b : Timestamp) : bool :=
  match ts_compare a b with Eq => true | _ => false end.
Definition ts_lt (a b : Timestamp) : Prop := ts_ltb a b = true.

(** The first day of the month after [t]'s month. *)
Definition next_month_start (t : Timestamp) : Timestamp :=
  if (ts_month t =? 12)%Z
  then mkTs (ts_year t + 1) 1 1
  else mkTs (ts_year t) (ts_month t + 1) 1.

(** [t + pd.offsets.MonthBegin()]: forward to the next month start, whether
    or not [t] is one. *)
Definition add_MonthBegin (t : Timestamp) : Timestamp := next_month_start t.

Fixpoint month_starts_from (t : Timestamp) (n : nat) : list Timestamp :=
  match n with
  | O => []
  | S k => t :: month_starts_from (next_month_start t) k
  end.

(* ================================================================== *)
(** * Unified dataset *)
(* ================================================================== *)

(** A spreadsheet cell: text, a number, or missing (NaN). *)
Inductive Cell : Type :=
| CStr (v : str)
| CNum (v : Q)
| CNaN.

(** A row of the unified dataset: the report date attached by the pipeline
    ([df['Date'] = ...]) and the other cells by column name; a column the
    row's file did not have reads as NaN, as after [pd.concat]. *)
Record Row : Type := mkRow { Date : Timestamp; cells : list (str * Cell) }.

Record DataFrame : Type := mkDF { columns : list str; rows : list Row }.

Fixpoint assoc {V} (k : str) (l : list (str * V)) : option V :=
  match l with
  | [] => None
  | (k', v) :: tl => if str_eqb k k' then Some v else assoc k tl
  end.

Definition cell (c : str) (r : Row) : Cell :=
  match assoc c (cells r) with
  | Some v => v
  | None => CNaN
  end.

(** [c in df.columns]. *)
Definition has_column (df : DataFrame) (c : str) : bool :=
  existsb (str_eqb c) (columns df).

(** [df[c]]: the column as a Series when one column carries the label, a
    DataFrame of the columns that carry it when several do, [KeyError] when
    none does. *)
Inductive Selection : Type :=
| ASeries (col : list Cell)
| AFrame.

Definition getitem (df : DataFrame) (c : str) : Exc Selection :=
  match filter (str_eqb c) (columns df) with
  | [] => Raise (KeyError c)
  | [_] => Ok (ASeries (map (cell c) (rows df)))
  | _ => Ok AFrame
  end.

(** [cell == v] for a [str] [v]: exact, case-sensitive; a number or NaN is
    never equal to a string. *)
Definition cell_eq (v : str) (c : Cell) : bool :=
  match c with
  | CStr x => str_eqb x v
  | _ => false
  end.

(** A boolean mask: a Series, or the DataFrame that comparing a DataFrame
    gives. *)
Inductive Mask : Type :=
| SeriesMask (m : list bool)
| FrameMask.

(** [df[c] == v]. *)
Definition eq_mask (sel : Selection) (v : str) : Mask :=
  match sel with
  | ASeries col => SeriesMask (map (cell_eq v) col)
  | AFrame => FrameMask
  end.

(** What pandas raises when it has to reindex an axis that repeats a
    label. *)
Definition duplicate_labels : Exn :=
  ValueError (lit "cannot reindex on an axis with duplicate labels").

(** [a & b]: two Series combine entry by entry and two frames column by
    column; a Series and a frame have to be aligned on the frame's columns,
    which repeat a label. *)
Definition and_mask (a b : Mask) : Exc Mask :=
  match a, b with
  | SeriesMask x, SeriesMask y =>
      Ok (SeriesMask (map (fun p => fst p && snd p) (combine x y)))
  | FrameMask, FrameMask => Ok FrameMask
  | _, _ => Raise duplicate_labels
  end.

(** [df[mask]]: the rows a Series mask selects; a frame mask has to be
    reindexed on the columns of [df], which repeat a label. *)
Definition boolean_index (rs : list Row) (mask : Mask) : Exc (list Row) :=
  match mask with
  | SeriesMask m => Ok (map fst (filter snd (combine rs m)))
  | FrameMask => Raise duplicate_labels
  end.

(** Lines 30-35 of [forecast_kpi]: the four-dimension filter, in Python's
    order of evaluation of [((a & b) & c) & d]. *)
Definition select_dims (df : DataFrame) (country tech zone kpi : str)
  : Exc (list Row) :=
  c1 <- getitem df (lit "Country") ;;
  c2 <- getitem df (lit "Technology") ;;
  m2 <- and_mask (eq_mask c1 country) (eq_mask c2 tech) ;;
  c3 <- getitem df (lit "Zone") ;;
  m3 <- and_mask m2 (eq_mask c3 zone) ;;
  c4 <- getitem df (lit "KPI") ;;
  mask <- and_mask m3 (eq_mask c4 kpi) ;;
  boolean_index (rows df) mask.

(** The row predicate the four masks compute. *)
Definition matches (country tech zone kpi : str) (r : Row) : bool :=
  cell_eq country (cell (lit "Country") r)
  && cell_eq tech (cell (lit "Technology") r)
  && cell_eq zone (cell (lit "Zone") r)
  && cell_eq kpi (cell (lit "KPI") r).

Definition value_col : str := lit "Actual Value MAPS Networks".

Definition msg_no_data : str := lit "No data available for the selected inputs".
Definition msg_missing_column : str :=
  lit "Expected column '" ++ value_col ++ lit "' not found".

(* ================================================================== *)
(** * Floats and collaborators *)
(* ================================================================== *)

(** A float64 that is not NaN: a finite number or an infinity. *)
Inductive Float : Type :=
| Fin (q : Q)
| Inf (negative : bool).

(** The feature vector [(month, year, y_lag_1, y_lag_2, y_lag_3)]. *)
Record FeatureVec : Type := mkVec {
  x_month : Z; x_year : Z; x_lag_1 : Float; x_lag_2 : Float; x_lag_3 : Float }.

Record ForecastPoint : Type := mkPoint { p_ds : Timestamp; yhat : Float }.

(** The label [pd.read_excel] gives a column: the text of its header cell,
    or a label that is not a string (a number, a date). *)
Inductive Header : Type :=
| HText (s : str)
| HOther.

(** What [pd.read_excel] returns: header and rows of cells. *)
Record RawTable : Type := mkRaw { raw_columns : list Header; raw_rows : list (list Cell) }.

Class Collaborators : Type := {
  (** a fitted [XGBRegressor] *)
  Model : Type;
  (** a plotly [Figure] *)
  Fig : Type;
  (** a decoded JSON object *)
  Payload : Type;
  (** [XGBRegressor(n_estimators=100).fit(X, y)] *)
  xgb_fit : list FeatureVec -> list Float -> Exc Model;
  (** [model.predict(pd.DataFrame([features]))[0]] *)
  xgb_predict : Model -> FeatureVec -> Exc Float;
  (** [go.Figure([Scatter Actual, Scatter Forecast])] and [update_layout],
      from the two series and kpi, zone, tech, country *)
  go_figure : list (Timestamp * Float) -> list (Timestamp * Float) ->
              str -> str -> str -> str -> Exc Fig;
  (** [json.loads(fig.to_json())] *)
  fig_to_json : Fig -> Exc Payload;
  (** [f"{v:.2f}"] *)
  format_2f : Float -> str;
  (** [traceback.format_exc()] *)
  format_exc : Exn -> str;
  (** the range of representable [pd.Timestamp]s *)
  in_bounds : Timestamp -> bool;
  (** the float64 mean that [groupby().mean()] computes of two or more
      numbers, in their order: the sum over the count as floating point
      makes it, rounded, or infinite when the sum overflows *)
  float_mean : list Q -> option Float;
  (** whether the [.str] accessor of [df.columns] accepts the header row:
      pandas refuses one that it infers to hold no string, such as a row of
      numbers or of dates *)
  str_accessor : list Header -> bool;
  (** lines 102-112: write the buffer, [extractall], [os.walk]: every
      [(root, fn)] under the temporary directory *)
  unzip_walk : list Byte.byte -> Exc (list (str * str));
  (** [pd.read_excel(path)] *)
  read_excel : str -> Exc RawTable
}.

(* ================================================================== *)
(** * Series Extractor: group by date, mean, sort *)
(* ================================================================== *)

(** An entry of the value column as a number: a text cell makes the
    aggregation raise. *)
Definition numeric (c : Cell) : Exc (option Q) :=
  match c with
  | CNum q => Ok (Some q)
  | CNaN => Ok None
  | CStr _ => Raise (TypeError (lit "agg function failed [how->mean,dtype->object]"))
  end.

(** The non-missing entries, in order. *)
Fixpoint present {A} (l : list (option A)) : list A :=
  match l with
  | [] => []
  | Some q :: tl => q :: present tl
  | None :: tl => present tl
  end.

Definition Qsum (l : list Q) : Q := fold_left Qplus l 0%Q.

(** The exact arithmetic mean of a non-empty list of numbers. *)
Definition Qmean (l : list Q) : Q := (Qsum l / inject_Z (Z.of_nat (length l)))%Q.

Section Extractor.
Context {C : Collaborators}.

(** [mean()] of a group: NaN entries are skipped (skipna), an all-NaN
    group gives NaN, a single number is its own mean, and the mean of
    several is the float64 that pandas computes. *)
Definition mean (l : list (option Q)) : option Float :=
  match present l with
  | [] => None
  | [v] => Some (Fin v)
  | vs => float_mean vs
  end.

(** The sorted distinct group keys. *)
Fixpoint insert_key (d : Timestamp) (ks : list Timestamp) : list Timestamp :=
  match ks with
  | [] => [d]
  | k :: tl =>
      if ts_ltb d k then d :: ks
      else if ts_eqb d k then ks
      else k :: insert_key d tl
  end.

Definition group_keys (ds : list Timestamp) : list Timestamp :=
  fold_right insert_key [] ds.

(** The entries of the rows of one group. *)
Definition group_values (d : Timestamp) (keyed : list (Timestamp * option Q))
  : list (option Q) :=
  map snd (filter (fun kv => ts_eqb (fst kv) d) keyed).

(** A Series: [(ds, y)] pairs. *)
Definition Series : Type := list (Timestamp * option Float).

(** [filtered.groupby('Date')[value_col].mean().reset_index()]. *)
Definition groupby_mean (filtered : list Row) : Exc Series :=
  vals <- mapM numeric (map (cell value_col) filtered) ;;
  let keyed := combine (map Date filtered) vals in
  Ok (map (fun d => (d, mean (group_values d keyed)))
          (group_keys (map Date filtered))).

(** [ts.sort_values('ds')]: a stable sort on the date. *)
Fixpoint insert_by_ds (x : Timestamp * option Float) (l : Series) : Series :=
  match l with
  | [] => [x]
  | y :: tl => if ts_ltb (fst y) (fst x) then y :: insert_by_ds x tl else x :: l
  end.

Definition sort_values (l : Series) : Series := fold_right insert_by_ds [] l.

(** What lines 30-49 leave: an early error return or the sorted Series. *)
Inductive Extracted : Type :=
| Rejected (msg : str)
| Extract (ts : Series).

Definition series_extractor (df : DataFrame) (country tech zone kpi : str)
  : Exc Extracted :=
  filtered <- select_dims df country tech zone kpi ;;
  match filtered with
  | [] => Ok (Rejected msg_no_data)
  | _ =>
      if negb (has_column df value_col) then Ok (Rejected msg_missing_column)
      else
        ts <- groupby_mean filtered ;;
        Ok (Extract (sort_values ts))
  end.

End Extractor.

(* ================================================================== *)
(** * Feature Builder *)
(* ================================================================== *)

(** A row of [ts] once [create_features] and the lag loop have run. *)
Record TsRow : Type := mkTsRow {
  ds : Timestamp; y : option Float; month : Z; year : Z;
  y_lag_1 : option Float; y_lag_2 : option Float; y_lag_3 : option Float }.

(** A row that survives [dropna]: nothing missing. *)
Record FeatureRow : Type := mkFeatureRow {
  f_ds : Timestamp; f_y : Float; f_month : Z; f_year : Z;
  f_lag_1 : Float; f_lag_2 : Float; f_lag_3 : Float }.

(** [df['month'] = df['ds'].dt.month; df['year'] = df['ds'].dt.year]. *)
Definition create_features (ts : Series) : list (Timestamp * option Float * Z * Z) :=
  map (fun p => (fst p, snd p, ts_month (fst p), ts_year (fst p))) ts.

(** [col.shift(k)]: [k] NaNs in front, the last [k] entries dropped. *)
Definition shift (k : nat) (col : list (option Float)) : list (option Float) :=
  firstn (length col) (repeat None k ++ col).

(** [for lag in range(1, 4): ts[f'y_lag_{lag}'] = ts['y'].shift(lag)]. *)
Definition add_lags (ts : list (Timestamp * option Float * Z * Z)) : list TsRow :=
  let ycol := map (fun r => snd (fst (fst r))) ts in
  map (fun q =>
         match q with
         | ((((d, v, m, yr), l1), l2), l3) => mkTsRow d v m yr l1 l2 l3
         end)
      (combine (combine (combine ts (shift 1 ycol)) (shift 2 ycol)) (shift 3 ycol)).

Definition complete (r : TsRow) : option FeatureRow :=
  match y r, y_lag_1 r, y_lag_2 r, y_lag_3 r with
  | Some v, Some l1, Some l2, Some l3 =>
      Some (mkFeatureRow (ds r) v (month r) (year r) l1 l2 l3)
  | _, _, _, _ => None
  end.

(** [ts.dropna(inplace=True)]: rows with any missing entry go. *)
Fixpoint dropna (l : list TsRow) : list FeatureRow :=
  match l with
  | [] => []
  | r :: tl =>
      match complete r with
      | Some f => f :: dropna tl
      | None => dropna tl
      end
  end.

(** Lines 50-54. *)
Definition feature_builder (ts : Series) : list FeatureRow :=
  dropna (add_lags (create_features ts)).

(* ================================================================== *)
(** * Forecast Engine *)
(* ================================================================== *)

Definition features (r : FeatureRow) : FeatureVec :=
  mkVec (f_month r) (f_year r) (f_lag_1 r) (f_lag_2 r) (f_lag_3 r).

(** [ts.iloc[-1]]. *)
Fixpoint iloc_last {A} (l : list A) : Exc A :=
  match l with
  | [] => Raise (IndexError (lit "single positional indexer is out-of-bounds"))
  | [x] => Ok x
  | _ :: tl => iloc_last tl
  end.

Definition ts_max (a b : Timestamp) : Timestamp := if ts_ltb a b then b else a.

(** [ts['ds'].max()]; [None] is NaT, for an empty column. *)
Definition max_ds (ts : list FeatureRow) : option Timestamp :=
  match ts with
  | [] => None
  | r :: tl => Some (fold_left ts_max (map f_ds tl) (f_ds r))
  end.

Definition on_offset (t : Timestamp) : bool := (ts_day t =? 1)%Z.

Definition out_of_bounds : Exn :=
  OutOfBoundsDatetime (lit "Out of bounds nanosecond timestamp").

(** [prev_lags[i]]. *)
Definition item (l : list Float) (i : nat) : Exc Float :=
  match nth_error l i with
  | Some v => Ok v
  | None => Raise (IndexError (lit "list index out of range"))
  end.

(** Line 67: the seed of the recursion. *)
Definition seed_lags (last_row : FeatureRow) : list Float :=
  [f_lag_1 last_row; f_lag_2 last_row; f_lag_3 last_row].

Section WithCollaborators.
Context {C : Collaborators}.

(** [ts['ds'].max() + pd.offsets.MonthBegin()]. *)
Definition forecast_start (ts : list FeatureRow) : Exc Timestamp :=
  match max_ds ts with
  | None => Raise (ValueError (lit "Neither `start` nor `end` can be NaT"))
  | Some m =>
      let t := add_MonthBegin m in
      if in_bounds t then Ok t else Raise out_of_bounds
  end.

(** [pd.date_range(start=start, periods=periods, freq='MS')]: [periods]
    month starts from [start] on, none when [periods] is zero or negative. *)
Definition date_range (start : Timestamp) (periods : Z) : Exc (list Timestamp) :=
  let first := if on_offset start then start else next_month_start start in
  let dates := month_starts_from first (Z.to_nat periods) in
  if forallb in_bounds dates then Ok dates else Raise out_of_bounds.

(** Lines 68-78: the autoregressive loop. *)
Fixpoint forecast_loop (model : Model) (future_dates : list Timestamp)
         (prev_lags : list Float) : Exc (list ForecastPoint) :=
  match future_dates with
  | [] => Ok []
  | date :: rest =>
      l1 <- item prev_lags 0 ;;
      l2 <- item prev_lags 1 ;;
      l3 <- item prev_lags 2 ;;
      pred <- xgb_predict model (mkVec (ts_month date) (ts_year date) l1 l2 l3) ;;
      forecasts <- forecast_loop model rest (pred :: firstn 2 prev_lags) ;;
      Ok (mkPoint date pred :: forecasts)
  end.

(** Lines 56-78. *)
Definition forecast_engine (ts : list FeatureRow) (forecast_months : Z)
  : Exc (list ForecastPoint) :=
  model <- xgb_fit (map features ts) (map f_y ts) ;;
  last_row <- iloc_last ts ;;
  start <- forecast_start ts ;;
  future_dates <- date_range start forecast_months ;;
  forecast_loop model future_dates (seed_lags last_row).

(* ================================================================== *)
(** * Result Packager *)
(* ================================================================== *)

Definition nl : str := [ascii_of_nat 10].

(** [f"{n:04d}"] for [n < 10000]. *)
Definition fmt_04d (n : nat) : str :=
  [digit_char (n / 1000); digit_char ((n / 100) mod 10);
   digit_char ((n / 10) mod 10); digit_char (n mod 10)].

(** [str(t.date())]: YYYY-MM-DD. *)
Definition format_date (t : Timestamp) : str :=
  fmt_04d (Z.to_nat (ts_year t)) ++ lit "-" ++ fmt_02d (Z.to_nat (ts_month t))
  ++ lit "-" ++ fmt_02d (Z.to_nat (ts_day t)).

Definition summary_line (p : ForecastPoint) : str :=
  format_date (p_ds p) ++ lit ": " ++ format_2f (yhat p).

(** Lines 80-93.  [pd.DataFrame([])] has no column, so [forecast_df['ds']]
    raises when nothing was forecast. *)
Definition package (ts : list FeatureRow) (forecasts : list ForecastPoint)
           (country tech zone kpi : str) : Exc (Fig * str) :=
  match forecasts with
  | [] => Raise (KeyError (lit "ds"))
  | _ =>
      fig <- go_figure (map (fun r => (f_ds r, f_y r)) ts)
                       (map (fun p => (p_ds p, yhat p)) forecasts)
                       kpi zone tech country ;;
      Ok (fig, join nl (map summary_line forecasts))
  end.

(* ================================================================== *)
(** * forecast_kpi *)
(* ================================================================== *)

Definition forecast_kpi (df : DataFrame) (country tech zone kpi : str)
           (forecast_months : Z) : option Fig * option str * option str :=
  handle
    (ex <- series_extractor df country tech zone kpi ;;
     match ex with
     | Rejected msg => Ok (None, None, Some msg)
     | Extract series =>
         let ts := feature_builder series in
         forecasts <- forecast_engine ts forecast_months ;;
         packed <- package ts forecasts country tech zone kpi ;;
         Ok (Some (fst packed), Some (snd packed), None)
     end)
    (fun e => (None, None,
               Some (lit "Forecast failed: " ++ exn_str e ++ nl ++ format_exc e))).

End WithCollaborators.

(* ================================================================== *)
(** * Record Aggregator and run_forecast_pipeline *)
(* ================================================================== *)

(** [p.endswith(suffix)]. *)
Definition endswith (p suffix : str) : bool :=
  (length suffix <=? length p)
  && str_eqb (skipn (length p - length suffix) p) suffix.

(** [fn.lower().endswith((".xlsx", ".xls"))]. *)
Definition is_excel (fn : str) : bool :=
  endswith (map lower fn) (lit ".xlsx") || endswith (map lower fn) (lit ".xls").

(** [os.path.join(root, fn)] (posixpath). *)
Definition path_join (root fn : str) : str :=
  match fn with
  | "/"%char :: _ => fn
  | _ =>
      match root with
      | [] => fn
      | _ => if endswith root (lit "/") then root ++ fn else root ++ lit "/" ++ fn
      end
  end.

(** Whitespace of [str.strip] among the code points below 256. *)
Definition is_space (c : ascii) : bool :=
  let n := nat_of_ascii c in
  ((9 <=? n) && (n <=? 13)) || ((28 <=? n) && (n <=? 32))
  || (n =? 133) || (n =? 160).

Fixpoint lstrip (p : str) : str :=
  match p with
  | [] => []
  | c :: tl => if is_space c then lstrip tl else p
  end.

Definition strip (p : str) : str := rev (lstrip (rev (lstrip p))).

Definition digit_val (c : ascii) : Z := Z.of_nat (nat_of_ascii c - 48).

Definition number (digits : str) : Z :=
  fold_left (fun acc c => (acc * 10 + digit_val c)%Z) digits 0%Z.

(** The date a string of the shape [YYYY-MM-DD] denotes. *)
Definition parse_iso_date (d : str) : option Timestamp :=
  match d with
  | [y1; y2; y3; y4; "-"%char; m1; m2; "-"%char; d1; d2] =>
      if forallb is_digit [y1; y2; y3; y4; m1; m2; d1; d2]
      then Some (mkTs (number [y1; y2; y3; y4]) (number [m1; m2]) (number [d1; d2]))
      else None
  | _ => None
  end.

(** [df['Date'] = ...] / [df['source_file'] = ...]: replace the column or
    append it. *)
Definition set_column (cols : list str) (c : str) : list str :=
  if existsb (str_eqb c) cols then cols else cols ++ [c].

(** [pd.concat(records, ignore_index=True)]: the columns of the first frame
    and then, frame after frame, the columns with a label not met before;
    the rows appended. *)
Definition union_columns (a b : list str) : list str :=
  a ++ filter (fun c => negb (existsb (str_eqb c) a)) b.

Definition concat (records : list DataFrame) : DataFrame :=
  mkDF (fold_left union_columns (map columns records) [])
       (flat_map rows records).

(** Lines 110-114: the paths of the spreadsheet files among what [os.walk]
    lists. *)
Definition find_excel_files (walked : list (str * str)) : list str :=
  map (fun rf => path_join (fst rf) (snd rf))
      (filter (fun rf => is_excel (snd rf)) walked).

(** [s.strip()] on one label as [Index.str.strip] applies it: NaN
    ([None]) for a label that is not a string. *)
Definition str_strip (h : Header) : option str :=
  match h with
  | HText s => Some (strip s)
  | HOther => None
  end.

(** The cells of a sheet row under the names of their columns. *)
Fixpoint labelled (labels : list (option str)) (r : list Cell) : list (str * Cell) :=
  match labels, r with
  | Some c :: ls, v :: vs => (c, v) :: labelled ls vs
  | None :: ls, _ :: vs => labelled ls vs
  | _, _ => []
  end.

Section Pipeline.
Context {C : Collaborators}.

(** [pd.to_datetime(date_str)] on the resolver's output. *)
Definition to_datetime (date_str : str) : Exc Timestamp :=
  match parse_iso_date date_str with
  | Some t => if in_bounds t then Ok t else Raise out_of_bounds
  | None => Raise (ValueError (lit "Unknown datetime string format"))
  end.

(** [df.columns.str.strip()] (line 123): the accessor raises when it
    refuses the header row. *)
Definition strip_columns (header : list Header) : Exc (list (option str)) :=
  if str_accessor header then Ok (map str_strip header)
  else Raise (AttributeError (lit "Can only use .str accessor with string values!")).

(** The body of the per-file [try] (lines 122-128): [None] when the file
    name resolves to no date.  The frame lists the columns that have a name;
    a column whose label became NaN is left out, no lookup of the code
    reaching it. *)
Definition load_file (path : str) : Exc (option DataFrame) :=
  df <- read_excel path ;;
  labels <- strip_columns (raw_columns df) ;;
  let cols := present labels in
  match extract_date_from_filename path with
  | Some date_str =>
      if truthy date_str then
        date <- to_datetime date_str ;;
        let source_file := (lit "source_file", CStr (basename path)) in
        Ok (Some (mkDF (set_column (set_column cols (lit "Date")) (lit "source_file"))
                       (map (fun r => mkRow date (source_file :: labelled labels r))
                            (raw_rows df))))
      else Ok None
  | None => Ok None
  end.

(** Lines 119-130: a file that raises or has no date contributes nothing. *)
Fixpoint load_records (excel_files : list str) : list DataFrame :=
  match excel_files with
  | [] => []
  | path :: rest =>
      match load_file path with
      | Ok (Some df) => df :: load_records rest
      | Ok None | Raise _ => load_records rest
      end
  end.

(** [if err:] on an optional message. *)
Definition is_err (err : option str) : bool :=
  match err with
  | Some msg => truthy msg
  | None => false
  end.

Definition run_forecast_pipeline (zip_buffer : list Byte.byte)
           (country tech zone kpi : str) (forecast_months : Z)
  : option Payload * option str * option str :=
  handle
    (walked <- unzip_walk zip_buffer ;;
     let excel_files := find_excel_files walked in
     match excel_files with
     | [] => Ok (None, None, Some (lit "No Excel files found in ZIP archive"))
     | _ =>
         match load_records excel_files with
         | [] => Ok (None, None, Some (lit "No valid data found in Excel files"))
         | records =>
             let df_all := concat records in
             match forecast_kpi df_all country tech zone kpi forecast_months with
             | (fig, summary, err) =>
                 if is_err err then Ok (None, None, err)
                 else
                   match fig with
                   | Some f =>
                       plot_json <- fig_to_json f ;;
                       Ok (Some plot_json, summary, None)
                   | None =>
                       Raise (AttributeError
                                (lit "'NoneType' object has no attribute 'to_json'"))
                   end
             end
         end
     end)
    (fun e => (None, None,
               Some (lit "Pipeline error: " ++ exn_str e ++ nl ++ format_exc e))).

End Pipeline.

(* ================================================================== *)
(** * Specification-side vocabulary for the Resolver *)
(* ================================================================== *)

(** Case-insensitive equality of two names. *)
Definition eq_ci (a b : str) : bool := str_eqb (map lower a) (map lower b).

Fixpoint find_month (m : str) (i : nat) (abbrs : list str) : option nat :=
  match abbrs with
  | [] => None
  | a :: rest => if eq_ci m a then Some i else find_month m (S i) rest
  end.

(** The month number (1..12) of a month abbreviation written in any letter
    case; [None] for anything else. *)
Definition month_number (m : str) : option nat := find_month m 1 (tl month_abbr).

(** The date string [Y-mm-01]. *)
Definition month_start_string (y : str) (i : nat) : str :=
  y ++ lit "-" ++ fmt_02d i ++ lit "-01".

(** A month abbreviation immediately followed by a 4-digit year at the head
    of [q]: its month number and year. *)
Definition month_year_here (q : str) : option (nat * str) :=
  match q with
  | a :: b :: c :: d1 :: d2 :: d3 :: d4 :: _ =>
      if forallb is_digit [d1; d2; d3; d4]
      then option_map (fun i => (i, [d1; d2; d3; d4])) (month_number [a; b; c])
      else None
  | _ => None
  end.

(** ... at position [k] of [p]. *)
Definition month_year_at (p : str) (k : nat) : option (nat * str) :=
  month_year_here (skipn k p).

(** Position [k] holds the leftmost month+year substring of [p]. *)
Definition leftmost_month_year (p : str) (k i : nat) (y : str) : Prop :=
  month_year_at p k = Some (i, y) /\
  forall k', k' < k -> month_year_at p k' = None.

(** Claim C3 as the specification words it, for one file name. *)
Definition resolves_leftmost_month_year (filename : str) : Prop :=
  forall k i y,
    leftmost_month_year (stem filename) k i y ->
    extract_date_from_filename filename = Some (month_start_string y i).

(* ================================================================== *)
(** * Specification-side vocabulary for the Series and the features *)
(* ================================================================== *)

(** The number in a cell of the value column, if there is one. *)
Definition as_number (c : Cell) : option Q :=
  match c with
  | CNum q => Some q
  | _ => None
  end.

(** The value-column entries of the rows that carry date [d]. *)
Definition entries (d : Timestamp) (filtered : list Row) : list (option Q) :=
  map (fun r => as_number (cell value_col r))
      (filter (fun r => ts_eqb (Date r) d) filtered).




(** A Series without missing values, from its [(date, value)] pairs. *)
Definition known (dvs : list (Timestamp * Float)) : Series :=
  map (fun p => (fst p, Some (snd p))) dvs.

(** A calendar-month start. *)
Definition month_start (t : Timestamp) : Prop :=
  (1 <= ts_month t <= 12)%Z /\ ts_day t = 1%Z.

(** Months since year 0, for a month start. *)
Definition month_index (t : Timestamp) : Z := (ts_year t * 12 + (ts_month t - 1))%Z.

(* ================================================================== *)
(** * A concrete set of collaborators *)
(* ================================================================== *)

Definition scenario_root : str := lit "/tmp/tmpk3".

Definition scenario_table (v : Q) : RawTable :=
  mkRaw [HText (lit "Country "); HText (lit "Technology"); HText (lit " Zone");
         HText (lit "KPI"); HText (lit "Actual Value MAPS Networks")]
        [[CStr (lit "France"); CStr (lit "4G"); CStr (lit "ZoneA");
          CStr (lit "Availability"); CNum v]].

(** The midnights a nanosecond [pd.Timestamp] represents: 1677-09-22 to
    2262-04-11. *)
Definition nanosecond_range (t : Timestamp) : bool :=
  negb (ts_ltb t (mkTs 1677 9 22)) && negb (ts_ltb (mkTs 2262 4 11) t).

Definition is_text (h : Header) : bool :=
  match h with HText _ => true | HOther => false end.

(** A header row with a string in it, or an empty one. *)
Definition some_text (header : list Header) : bool :=
  match header with [] => true | _ => existsb is_text header end.

(** The exact mean, for numbers whose mean float64 represents. *)
Definition exact_mean (vs : list Q) : option Float := Some (Fin (Qred (Qmean vs))).

(** Collaborators for worked examples: a regressor that always fits and
    predicts the last value it is shown, a figure that is its two series,
    timestamps in pandas' nanosecond range, means that come out exact, and
    an archive holding the given spreadsheets, each with one (France, 4G,
    ZoneA, Availability) row of the given value. *)
Definition archive (files : list (str * Q)) : Collaborators := {|
  Model := unit;
  Fig := list (Timestamp * Float) * list (Timestamp * Float);
  Payload := list (Timestamp * Float) * list (Timestamp * Float);
  xgb_fit := fun _ _ => Ok tt;
  xgb_predict := fun _ x => Ok (x_lag_1 x);
  go_figure := fun actual forecast _ _ _ _ => Ok (actual, forecast);
  fig_to_json := fun f => Ok f;
  format_2f := fun _ => lit "0.00";
  format_exc := fun _ => lit "Traceback (most recent call last): ...";
  in_bounds := nanosecond_range;
  float_mean := exact_mean;
  str_accessor := some_text;
  unzip_walk := fun _ =>
    Ok ((scenario_root, lit "upload.zip")
          :: map (fun f => (scenario_root, fst f)) files);
  read_excel := fun path =>
    match assoc (basename path) files with
    | Some v => Ok (scenario_table v)
    | None => Raise (External (lit "No such file"))
    end
|}.

(** The archive of [Jan2024.xlsx] and [Feb2024.xlsx], of values 10 and 12. *)
Definition scenario : Collaborators :=
  archive [(lit "Jan2024.xlsx", 10%Q); (lit "Feb2024.xlsx", 12%Q)].

(** Five consecutive months. *)
Definition five_months : Collaborators :=
  archive [(lit "kpi_Jan2024.xlsx", 10%Q); (lit "kpi_Feb2024.xlsx", 12%Q);
           (lit "kpi_Mar2024.xlsx", 11%Q); (lit "kpi_Apr2024.xlsx", 13%Q);
           (lit "kpi_May2024.XLS", 15%Q)].

(* ================================================================== *)
(** * Example datasets *)
(* ================================================================== *)

Definition dimension_columns : list str :=
  [lit "Country"; lit "Technology"; lit "Zone"; lit "KPI"].

(** A row of (France, 4G, ZoneA, Availability) with value cell [v]. *)
Definition kpi_row (d : Timestamp) (v : Cell) : Row :=
  mkRow d [(lit "Country", CStr (lit "France")); (lit "Technology", CStr (lit "4G"));
           (lit "Zone", CStr (lit "ZoneA")); (lit "KPI", CStr (lit "Availability"));
           (value_col, v)].

(** A dataset with the value column ... *)
Definition dataset (rs : list Row) : DataFrame :=
  mkDF (dimension_columns ++ [value_col; lit "Date"; lit "source_file"]) rs.

(** ... and one without it. *)
Definition dataset_without_values (rs : list Row) : DataFrame :=
  mkDF (dimension_columns ++ [lit "Target"; lit "Date"; lit "source_file"]) rs.

Definition jan24 : Timestamp := mkTs 2024 1 1.
Definition feb24 : Timestamp := mkTs 2024 2 1.
Definition mar24 : Timestamp := mkTs 2024 3 1.
Definition apr24 : Timestamp := mkTs 2024 4 1.


(** Rows out of date order, with a duplicated date. *)
Definition df_mixed : DataFrame :=
  dataset [kpi_row mar24 (CNum 7); kpi_row jan24 (CNum 4); kpi_row mar24 (CNum 9);
           kpi_row feb24 CNaN].

(* ================================================================== *)
(** * Closed forms used by the proofs about the Feature Builder *)
(* ================================================================== *)

(** Entry [i] of [col.shift(k)]. *)
Definition lag_at (ycol : list (option Float)) (k i : nat) : option Float :=
  if i <? k then None else nth (i - k) ycol None.

(** Row [i] of [ts] after [create_features] and the lag loop. *)
Definition row_at (ts : Series) (i : nat) : TsRow :=
  let p := nth i ts (mkTs 0 0 0, None) in
  mkTsRow (fst p) (snd p) (ts_month (fst p)) (ts_year (fst p))
          (lag_at (map snd ts) 1 i) (lag_at (map snd ts) 2 i) (lag_at (map snd ts) 3 i).

(** The value and date at position [i] of a Series without missing values. *)
Definition value_at (dvs : list (Timestamp * Float)) (i : nat) : Float :=
  snd (nth i dvs (mkTs 0 0 0, Fin 0)).
Definition date_at (dvs : list (Timestamp * Float)) (i : nat) : Timestamp :=
  fst (nth i dvs (mkTs 0 0 0, Fin 0)).

(** The FeatureRow for position [i >= 3]. *)
Definition feature_at (dvs : list (Timestamp * Float)) (i : nat) : FeatureRow :=
  mkFeatureRow (date_at dvs i) (value_at dvs i)
               (ts_month (date_at dvs i)) (ts_year (date_at dvs i))
               (value_at dvs (i - 1)) (value_at dvs (i - 2)) (value_at dvs (i - 3)).

(** [lag_k] of a FeatureRow, for [k] in 1..3. *)
Definition lag (k : nat) (r : FeatureRow) : Float :=
  match k with
  | 1 => f_lag_1 r
  | 2 => f_lag_2 r
  | _ => f_lag_3 r
  end.

(** [m] is the maximum of the dates [ds]. *)
Definition is_max_date (m : Timestamp) (ds : list Timestamp) : Prop :=
  In m ds /\ forall d, In d ds -> ts_ltb m d = false.

(** The forecast is [n] points on consecutive month starts, the first one
    calendar month after [dmax]. *)
Definition consecutive_months_after (dmax : Timestamp) (n : nat)
           (forecasts : list ForecastPoint) : Prop :=
  length forecasts = n
  /\ forall j p, nth_error forecasts j = Some p ->
       month_start (p_ds p)
       /\ month_index (p_ds p) = (month_index dmax + 1 + Z.of_nat j)%Z.

(** Claim C2 as the specification words it: any non-empty Series of month
    starts, any positive horizon; the collaborators are taken to succeed. *)
Definition forecast_months_as_stated : Prop :=
  forall (C : Collaborators) (dvs : list (Timestamp * Float)) (N : Z) (dmax : Timestamp),
    dvs <> [] ->
    StronglySorted ts_lt (map fst dvs) ->
    Forall month_start (map fst dvs) ->
    is_max_date dmax (map fst dvs) ->
    (1 <= N)%Z ->
    (forall X Y, exists model, xgb_fit X Y = Ok model) ->
    (forall model x, exists v, xgb_predict model x = Ok v) ->
    (forall t, in_bounds t = true) ->
    exists forecasts,
      forecast_engine (feature_builder (known dvs)) N = Ok forecasts
      /\ consecutive_months_after dmax (Z.to_nat N) forecasts.

(** Collaborators with unbounded timestamps and a regressor that always
    fits and predicts. *)
Definition permissive : Collaborators := {|
  Model := unit;
  Fig := unit;
  Payload := unit;
  xgb_fit := fun _ _ => Ok tt;
  xgb_predict := fun _ x => Ok (x_lag_1 x);
  go_figure := fun _ _ _ _ _ _ => Ok tt;
  fig_to_json := fun f => Ok f;
  format_2f := fun _ => lit "0.00";
  format_exc := fun _ => lit "";
  in_bounds := fun _ => true;
  float_mean := exact_mean;
  str_accessor := some_text;
  unzip_walk := fun _ => Ok [];
  read_excel := fun _ => Raise (External (lit "No such file"))
|}.

(* ================================================================== *)
(** * Further vocabulary: the forecast loop, dates, names *)
(* ================================================================== *)

(** The values the loop draws its lags from, in time order: the seed, oldest
    first, then the predictions as they are made. *)
Definition lag_history (prev_lags : list Float) (forecasts : list ForecastPoint)
  : list Float :=
  rev prev_lags ++ map yhat forecasts.

(** A date whose fields [format_date] prints in full: a year of at most four
    digits, month and day of at most two. *)
Definition printable_date (t : Timestamp) : Prop :=
  (0 <= ts_year t <= 9999)%Z /\ (0 <= ts_month t <= 99)%Z /\ (0 <= ts_day t <= 99)%Z.

(** No character of [p] is [c]. *)
Definition free_of (c : ascii) (p : str) : Prop :=
  forallb (fun x => negb (Ascii.eqb x c)) p = true.

(** [load_file] adds this file to the records. *)
Definition contributes {C : Collaborators} (path : str) : bool :=
  match load_file path with
  | Ok (Some _) => true
  | _ => false
  end.

(** The four ways a spreadsheet is left out of the records: it does not
    decode, the [.str] accessor refuses its header row, its name holds no
    date, or the date is not a representable timestamp. *)
Inductive left_out {C : Collaborators} (path : str) : Prop :=
| does_not_decode (e : Exn) :
    read_excel path = Raise e -> left_out path
| header_refused (raw : RawTable) :
    read_excel path = Ok raw -> str_accessor (raw_columns raw) = false ->
    left_out path
| no_date_in_name :
    extract_date_from_filename path = None -> left_out path
| date_out_of_range (date_str : str) :
    extract_date_from_filename path = Some date_str ->
    to_datetime date_str = Raise out_of_bounds -> left_out path.

(** The label [c] heads more than one column of [df]. *)
Definition duplicated (df : DataFrame) (c : str) : bool :=
  1 <? length (filter (str_eqb c) (columns df)).

(** The fixed messages of the pipeline, and the two prefixes of the
    handlers. *)
Definition msg_no_excel : str := lit "No Excel files found in ZIP archive".
Definition msg_no_valid_data : str := lit "No valid data found in Excel files".
Definition forecast_failed : str := lit "Forecast failed: ".
Definition pipeline_error : str := lit "Pipeline error: ".

(** The number of distinct dates of a list. *)
Fixpoint distinct_dates (ds : list Timestamp) : nat :=
  match ds with
  | [] => 0
  | d :: rest =>
      if existsb (ts_eqb d) rest then distinct_dates rest
      else S (distinct_dates rest)
  end.

(** Collaborators whose regressor answers with lag1 + lag3, to tell the
    lags apart. *)
Definition additive : Collaborators := {|
  Model := unit;
  Fig := unit;
  Payload := unit;
  xgb_fit := fun _ _ => Ok tt;
  xgb_predict := fun _ x =>
    match x_lag_1 x, x_lag_3 x with
    | Fin a, Fin b => Ok (Fin (Qred (a + b)))
    | _, _ => Raise (External (lit "bad input"))
    end;
  go_figure := fun _ _ _ _ _ _ => Ok tt;
  fig_to_json := fun f => Ok f;
  format_2f := fun _ => lit "0.00";
  format_exc := fun _ => lit "";
  in_bounds := fun _ => true;
  float_mean := exact_mean;
  str_accessor := some_text;
  unzip_walk := fun _ => Ok [];
  read_excel := fun _ => Raise (External (lit "No such file"))
|}.

(** Five monthly rows of (France, 4G, ZoneA, Availability). *)
Definition df_five : DataFrame :=
  dataset [kpi_row jan24 (CNum 10); kpi_row feb24 (CNum 12); kpi_row mar24 (CNum 11);
           kpi_row apr24 (CNum 13); kpi_row (mkTs 2024 5 1) (CNum 15)].

(** The same rows in a frame without the column Zone, and in one where two
    columns are labelled Zone (as after stripping the headers "Zone" and
    "Zone "). *)
Definition df_without_zone : DataFrame :=
  mkDF [lit "Country"; lit "Technology"; lit "KPI"; value_col; lit "Date";
        lit "source_file"] (rows df_five).
Definition df_zone_twice : DataFrame :=
  mkDF [lit "Country"; lit "Technology"; lit "Zone"; lit "Zone"; lit "KPI";
        value_col; lit "Date"; lit "source_file"] (rows df_five).

(** The frame [load_file] builds for [Jan2024.xlsx] of the scenario. *)
Definition jan_frame : DataFrame :=
  Eval vm_compute in
    match load_file (C := scenario) (lit "/tmp/tmpk3/Jan2024.xlsx") with
    | Ok (Some df) => df
    | _ => mkDF [] []
    end.

(** An archive without spreadsheets, and one whose only spreadsheet has no
    date in its name. *)
Definition no_sheets : Collaborators := archive [(lit "readme.txt", 1%Q)].
Definition undated : Collaborators := archive [(lit "report.xlsx", 1%Q)].

(** An archive whose only spreadsheet, [Jan2024.xlsx], has numbers where
    the headers should be. *)
Definition numbered_headers : Collaborators := {|
  Model := unit;
  Fig := unit;
  Payload := unit;
  xgb_fit := fun _ _ => Ok tt;
  xgb_predict := fun _ x => Ok (x_lag_1 x);
  go_figure := fun _ _ _ _ _ _ => Ok tt;
  fig_to_json := fun f => Ok f;
  format_2f := fun _ => lit "0.00";
  format_exc := fun _ => lit "";
  in_bounds := fun _ => true;
  float_mean := exact_mean;
  str_accessor := some_text;
  unzip_walk := fun _ => Ok [(scenario_root, lit "Jan2024.xlsx")];
  read_excel := fun _ => Ok (mkRaw [HOther; HOther] [[CNum 1; CNum 2]])
|}.

(** An archive whose only spreadsheet, [Jan2024.xlsx], has the headers
    "Zone" and "Zone ". *)
Definition twin_zone : Collaborators := {|
  Model := unit;
  Fig := unit;
  Payload := unit;
  xgb_fit := fun _ _ => Ok tt;
  xgb_predict := fun _ x => Ok (x_lag_1 x);
  go_figure := fun _ _ _ _ _ _ => Ok tt;
  fig_to_json := fun f => Ok f;
  format_2f := fun _ => lit "0.00";
  format_exc := fun _ => lit "";
  in_bounds := fun _ => true;
  float_mean := exact_mean;
  str_accessor := some_text;
  unzip_walk := fun _ => Ok [(scenario_root, lit "Jan2024.xlsx")];
  read_excel := fun _ =>
    Ok (mkRaw [HText (lit "Country"); HText (lit "Technology"); HText (lit "Zone");
               HText (lit "Zone "); HText (lit "KPI");
               HText (lit "Actual Value MAPS Networks")]
              [[CStr (lit "France"); CStr (lit "4G"); CStr (lit "ZoneA");
                CStr (lit "ZoneA"); CStr (lit "Availability"); CNum 10]])
|}.

(** A row of (France, 4G, ZoneA, Availability) from a sheet that has a
    column Target and no value column. *)
Definition row_without_value (d : Timestamp) : Row :=
  mkRow d [(lit "Country", CStr (lit "France")); (lit "Technology", CStr (lit "4G"));
           (lit "Zone", CStr (lit "ZoneA")); (lit "KPI", CStr (lit "Availability"));
           (lit "Target", CNum 12)].

(** Collaborators whose regressor refuses every month of 2025. *)
Definition refusing_2025 : Collaborators := {|
  Model := unit;
  Fig := unit;
  Payload := unit;
  xgb_fit := fun _ _ => Ok tt;
  xgb_predict := fun _ x =>
    if (x_year x =? 2025)%Z then Raise (External (lit "bad input"))
    else Ok (x_lag_1 x);
  go_figure := fun _ _ _ _ _ _ => Ok tt;
  fig_to_json := fun f => Ok f;
  format_2f := fun _ => lit "0.00";
  format_exc := fun _ => lit "";
  in_bounds := fun _ => true;
  float_mean := exact_mean;
  str_accessor := some_text;
  unzip_walk := fun _ => Ok [];
  read_excel := fun _ => Raise (External (lit "No such file"))
|}.

(* ================================================================== *)
(** * Facts about characters and names *)
(* ================================================================== *)

Ltac each_char c := destruct c as [[] [] [] [] [] [] [] []]; vm_compute.

Lemma upper_lower (c : ascii) : upper (lower c) = upper c.
Proof. each_char c; reflexivity. Qed.

Lemma lower_upper (c : ascii) : lower (upper c) = lower c.
Proof. each_char c; reflexivity. Qed.

Lemma is_alpha_lower (c : ascii) : is_alpha (lower c) = is_alpha c.
Proof. each_char c; reflexivity. Qed.




Lemma digit_not_dot (c : ascii) : is_digit c = true -> Ascii.eqb c "." = false.
Proof. each_char c; intros; congruence. Qed.

Lemma str_eqb_eq (a b : str) : str_eqb a b = true <-> a = b.
Proof.
  unfold str_eqb. rewrite String.eqb_eq. split; intro H.
  - rewrite <- (list_ascii_of_string_of_list_ascii a),
            <- (list_ascii_of_string_of_list_ascii b), H. reflexivity.
  - now subst.
Qed.

Lemma str_eqb_neq (a b : str) : str_eqb a b = false <-> a <> b.
Proof.
  split; intro H.
  - intro E. apply str_eqb_eq in E. congruence.
  - destruct (str_eqb a b) eqn:E; [apply str_eqb_eq in E; contradiction | reflexivity].
Qed.

(** Capitalising and lower-casing identify the same names. *)
Lemma capitalize_eq_iff (a b : str) :
  capitalize a = capitalize b <-> map lower a = map lower b.
Proof.
  destruct a as [|x a], b as [|z b]; simpl; try (split; congruence).
  split; intro H; injection H as H1 H2; f_equal; auto.
  - rewrite <- (lower_upper x), <- (lower_upper z), H1. reflexivity.
  - rewrite <- (upper_lower x), <- (upper_lower z), H1. reflexivity.
Qed.

Lemma capitalize_eqb (m a : str) :
  capitalize a = a -> str_eqb (capitalize m) a = eq_ci m a.
Proof.
  intro Ha. unfold eq_ci.
  destruct (str_eqb (map lower m) (map lower a)) eqn:E.
  - apply str_eqb_eq. apply str_eqb_eq in E. rewrite <- Ha.
    now apply capitalize_eq_iff.
  - apply str_eqb_neq. apply str_eqb_neq in E. intro H. apply E.
    apply capitalize_eq_iff. now rewrite Ha.
Qed.

(** The table lookup of the code is the month number of the specification. *)
Lemma month_map_month_number (m : str) :
  dict_get (capitalize m) month_map = option_map fmt_02d (month_number m).
Proof.
  unfold month_number.
  change month_map with
    (map (fun ia => (snd ia, fmt_02d (fst ia))) (enumerate_from 1 (tl month_abbr))).
  generalize 1. generalize (eq_refl : forallb (fun a => str_eqb (capitalize a) a)
                                             (tl month_abbr) = true).
  generalize (tl month_abbr) as abbrs.
  induction abbrs as [|a abbrs IH]; intros Hc i; simpl in *.
  - reflexivity.
  - apply andb_prop in Hc as [Ha Hc]. apply str_eqb_eq in Ha.
    rewrite (capitalize_eqb m a Ha).
    destruct (eq_ci m a); [reflexivity | now apply IH].
Qed.

Lemma month_map_truthy (k mm : str) :
  dict_get k month_map = Some mm -> truthy mm = true.
Proof.
  change month_map with
    (map (fun ia => (snd ia, fmt_02d (fst ia))) (enumerate_from 1 (tl month_abbr))).
  generalize 1. generalize (tl month_abbr) as abbrs.
  induction abbrs as [|a abbrs IH]; intros i; simpl.
  - discriminate.
  - destruct (str_eqb k a); [intros [= <-]; reflexivity | apply IH].
Qed.

(* ================================================================== *)
(** * Filename Date Resolver: paths and the regular expression *)
(* ================================================================== *)

Lemma rfind_absent (c : ascii) (p : str) :
  forallb (fun x => negb (Ascii.eqb x c)) p = true -> rfind c p = None.
Proof.
  induction p as [|x p IH]; simpl; [reflexivity|].
  intro H. apply andb_prop in H as [Hx Hp]. rewrite (IH Hp).
  destruct (Ascii.eqb x c); [discriminate | reflexivity].
Qed.

Lemma rfind_last (c : ascii) (a b : str) :
  rfind c b = None -> rfind c (a ++ c :: b) = Some (length a).
Proof.
  intro Hb. induction a as [|x a IH]; simpl.
  - rewrite Hb, Ascii.eqb_refl. reflexivity.
  - rewrite IH. reflexivity.
Qed.





Lemma match_at_Some (q m y : str) :
  match_at q = Some (m, y) ->
  exists rest, q = m ++ y ++ rest /\ length m = 3 /\ length y = 4
               /\ forallb is_alpha m = true /\ forallb is_digit y = true.
Proof.
  destruct q as [|a [|b [|c [|d1 [|d2 [|d3 [|d4 rest]]]]]]]; simpl; try discriminate.
  destruct (is_alpha a) eqn:Ha, (is_alpha b) eqn:Hb, (is_alpha c) eqn:Hc,
    (is_digit d1) eqn:H1, (is_digit d2) eqn:H2, (is_digit d3) eqn:H3,
    (is_digit d4) eqn:H4; simpl; try discriminate.
  intros [= <- <-]. exists rest. simpl. rewrite Ha, Hb, Hc, H1, H2, H3, H4. auto.
Qed.

Lemma match_at_intro (m y rest : str) :
  length m = 3 -> length y = 4 ->
  forallb is_alpha m = true -> forallb is_digit y = true ->
  match_at (m ++ y ++ rest) = Some (m, y).
Proof.
  destruct m as [|a [|b [|c [|? ?]]]]; try discriminate.
  destruct y as [|d1 [|d2 [|d3 [|d4 [|? ?]]]]]; try discriminate.
  intros _ _ Hm Hy. simpl in *.
  repeat (apply andb_prop in Hm as [? Hm]). repeat (apply andb_prop in Hy as [? Hy]).
  repeat match goal with H : _ = true |- _ => rewrite H; clear H end. reflexivity.
Qed.

Lemma regex_search_head (p : str) (r : str * str) :
  match_at p = Some r -> regex_search p = Some r.
Proof. intro H. destruct p; simpl in *; [discriminate | now rewrite H]. Qed.

Lemma regex_search_step (c : ascii) (p : str) :
  match_at (c :: p) = None -> regex_search (c :: p) = regex_search p.
Proof. intro H. cbn [regex_search]. now rewrite H. Qed.

(** The search returns the leftmost anchored match. *)
Lemma regex_search_leftmost (pre p : str) (r : str * str) :
  (forall k, k < length pre -> match_at (skipn k (pre ++ p)) = None) ->
  match_at p = Some r ->
  regex_search (pre ++ p) = Some r.
Proof.
  induction pre as [|c pre IH]; intros Hnone Hp; cbn [app].
  - now apply regex_search_head.
  - rewrite regex_search_step.
    + apply IH; [|assumption]. intros k Hk. apply (Hnone (S k)). simpl. lia.
    + apply (Hnone 0). simpl. lia.
Qed.

Lemma regex_search_Some (p : str) (r : str * str) :
  regex_search p = Some r -> exists k, match_at (skipn k p) = Some r.
Proof.
  induction p as [|c p IH].
  - simpl. discriminate.
  - destruct (match_at (c :: p)) eqn:E.
    + rewrite (regex_search_head _ _ E). intros [= <-]. now exists 0.
    + rewrite (regex_search_step _ _ E). intro H. destruct (IH H) as [k Hk].
      now exists (S k).
Qed.

Lemma regex_search_None (p : str) :
  regex_search p = None -> forall k, match_at (skipn k p) = None.
Proof.
  induction p as [|c p IH]; intros H k.
  - now destruct k.
  - destruct (match_at (c :: p)) eqn:E.
    + rewrite (regex_search_head _ _ E) in H. discriminate.
    + rewrite (regex_search_step _ _ E) in H. destruct k; [assumption | now apply IH].
Qed.

(** What the resolver returns once the search has matched. *)
Lemma resolve_after_search (filename m y : str) :
  regex_search (stem filename) = Some (m, y) ->
  extract_date_from_filename filename
  = option_map (month_start_string y) (month_number m).
Proof.
  intro H. unfold extract_date_from_filename. fold (stem filename). rewrite H.
  rewrite month_map_month_number. destruct (month_number m); reflexivity.
Qed.

Lemma resolve_no_match (filename : str) :
  regex_search (stem filename) = None -> extract_date_from_filename filename = None.
Proof.
  intro H. unfold extract_date_from_filename. fold (stem filename). now rewrite H.
Qed.

(* ================================================================== *)
(** * Filename Date Resolver: the claims *)
(* ================================================================== *)

(** C3, refuted as worded: the stem of [abc1234_Jan2024.xlsx] contains the
    month+year substring [Jan2024] (the leftmost one, at position 8), yet the
    resolver returns no date, because the regular expression first matches
    the letters+digits substring [abc1234], whose letters are no month. *)
Lemma resolver_skips_later_month_year :
  ~ resolves_leftmost_month_year (lit "abc1234_Jan2024.xlsx").
Proof.
  intro H. specialize (H 8 1 (lit "2024")).
  assert (L : leftmost_month_year (stem (lit "abc1234_Jan2024.xlsx")) 8 1 (lit "2024")).
  { split; [reflexivity|]. intros k' Hk.
    do 8 (destruct k' as [|k']; [reflexivity|]). lia. }
  apply H in L. vm_compute in L. discriminate.
Qed.

(** C3 (amended): the resolver uses the leftmost substring of the stem made
    of three ASCII letters immediately followed by four digits.  When its
    letters are a month abbreviation in any letter case, the result is the
    date string year-month-01 of that substring; when they are not, the
    result is no date, whatever follows. *)
Theorem resolver_uses_leftmost_letters_digits (filename pre m y suf : str) :
  stem filename = pre ++ m ++ y ++ suf ->
  length m = 3 -> forallb is_alpha m = true ->
  length y = 4 -> forallb is_digit y = true ->
  (forall k, k < length pre -> match_at (skipn k (stem filename)) = None) ->
  extract_date_from_filename filename
  = option_map (month_start_string y) (month_number m).
Proof.
  intros Hstem Hm Ham Hy Hdy Hleft.
  apply resolve_after_search. rewrite Hstem.
  apply regex_search_leftmost.
  - intros k Hk. rewrite <- Hstem. now apply Hleft.
  - now apply match_at_intro.
Qed.

(** In [kpi_x1_dEC1999.v2.xls] the letters+digits substring [dEC1999] comes
    first. *)
Lemma resolver_uses_leftmost_letters_digits_witness :
  extract_date_from_filename (lit "/data/kpi_x1_dEC1999.v2.xls")
  = Some (lit "1999-12-01").
Proof.
  apply (resolver_uses_leftmost_letters_digits
           (lit "/data/kpi_x1_dEC1999.v2.xls")
           (lit "kpi_x1_") (lit "dEC") (lit "1999") (lit ".v2"));
    try reflexivity.
  intros k Hk. do 7 (destruct k as [|k]; [reflexivity|]). simpl in Hk. lia.
Defined.







(* ================================================================== *)
(** * Timestamps: the order *)
(* ================================================================== *)

Ltac ts_order :=
  unfold ts_lt, ts_ltb, ts_eqb, ts_compare in *;
  repeat match goal with
         | t : Timestamp |- _ => destruct t
         end;
  cbn [ts_year ts_month ts_day] in *;
  repeat match goal with
         | |- context [Z.compare ?a ?b] => destruct (Z.compare_spec a b)
         | H : context [Z.compare ?a ?b] |- _ => destruct (Z.compare_spec a b)
         end;
  subst; try reflexivity; try discriminate; try lia.

Lemma ts_eqb_eq (a b : Timestamp) : ts_eqb a b = true <-> a = b.
Proof.
  split.
  - intro H. ts_order.
  - intros <-. ts_order.
Qed.

Lemma ts_eqb_refl (a : Timestamp) : ts_eqb a a = true.
Proof. now apply ts_eqb_eq. Qed.

Lemma ts_ltb_irrefl (a : Timestamp) : ts_ltb a a = false.
Proof. ts_order. Qed.

Lemma ts_ltb_trans (a b c : Timestamp) :
  ts_ltb a b = true -> ts_ltb b c = true -> ts_ltb a c = true.
Proof. intros H1 H2. ts_order. Qed.

Lemma ts_ltb_asym (a b : Timestamp) : ts_ltb a b = true -> ts_ltb b a = false.
Proof. intros H. ts_order. Qed.

Lemma ts_ltb_total (a b : Timestamp) :
  ts_ltb a b = false -> ts_eqb a b = false -> ts_ltb b a = true.
Proof. intros H1 H2. ts_order. Qed.


(* ================================================================== *)
(** * The four-dimension filter *)
(* ================================================================== *)

Lemma and_map {A} (f g : A -> bool) (l : list A) :
  map (fun p => fst p && snd p) (combine (map f l) (map g l))
  = map (fun x => f x && g x) l.
Proof.
  induction l as [|x l IH]; simpl; [reflexivity | now rewrite IH].
Qed.

Lemma boolean_index_map (f : Row -> bool) (rs : list Row) :
  boolean_index rs (SeriesMask (map f rs)) = Ok (filter f rs).
Proof.
  unfold boolean_index. f_equal.
  induction rs as [|r rs IH]; simpl; [reflexivity|].
  destruct (f r); simpl; now rewrite IH.
Qed.

Lemma filter_nil_existsb {A} (f : A -> bool) (l : list A) :
  filter f l = [] <-> existsb f l = false.
Proof.
  induction l as [|x l IH]; simpl; [tauto|].
  destruct (f x); simpl; [split; discriminate | exact IH].
Qed.

(** [df[c]] is a Series only of the cells under [c]. *)
Lemma getitem_ASeries (df : DataFrame) (c : str) (col : list Cell) :
  getitem df c = Ok (ASeries col) -> col = map (cell c) (rows df).
Proof.
  unfold getitem. destruct (filter (str_eqb c) (columns df)) as [|x [|y l]];
    [discriminate | now intros [= <-] | discriminate].
Qed.

Lemma getitem_absent (df : DataFrame) (c : str) :
  has_column df c = false -> getitem df c = Raise (KeyError c).
Proof.
  unfold has_column, getitem. intro H. apply filter_nil_existsb in H. now rewrite H.
Qed.

Lemma getitem_single (df : DataFrame) (c : str) :
  has_column df c = true -> duplicated df c = false ->
  getitem df c = Ok (ASeries (map (cell c) (rows df))).
Proof.
  unfold has_column, duplicated, getitem. intros H Hd.
  destruct (filter (str_eqb c) (columns df)) as [|x [|y l]] eqn:E.
  - apply filter_nil_existsb in E. congruence.
  - reflexivity.
  - discriminate.
Qed.

(** The conjunction of the four masks, when each is a Series. *)
Lemma series_masks (country tech zone kpi : str) (rs : list Row) :
  map (fun p => fst p && snd p)
      (combine
         (map (fun p => fst p && snd p)
              (combine
                 (map (fun p => fst p && snd p)
                      (combine (map (cell_eq country) (map (cell (lit "Country")) rs))
                               (map (cell_eq tech) (map (cell (lit "Technology")) rs))))
                 (map (cell_eq zone) (map (cell (lit "Zone")) rs))))
         (map (cell_eq kpi) (map (cell (lit "KPI")) rs)))
  = map (matches country tech zone kpi) rs.
Proof. rewrite !map_map, !and_map. reflexivity. Qed.

(** The masks of lines 30-35 select the rows whose four dimension cells
    equal the four requested strings. *)
Lemma select_dims_filter (df : DataFrame) (country tech zone kpi : str)
      (filtered : list Row) :
  select_dims df country tech zone kpi = Ok filtered ->
  filtered = filter (matches country tech zone kpi) (rows df).
Proof.
  unfold select_dims.
  destruct (getitem df (lit "Country")) as [[c1|]|] eqn:H1; cbn [bind];
    [apply getitem_ASeries in H1; subst c1 | |discriminate];
    (destruct (getitem df (lit "Technology")) as [[c2|]|] eqn:H2; cbn [bind];
     [apply getitem_ASeries in H2; subst c2 | |discriminate]);
    cbn [eq_mask and_mask bind]; try discriminate;
    (destruct (getitem df (lit "Zone")) as [[c3|]|] eqn:H3; cbn [bind];
     [apply getitem_ASeries in H3; subst c3 | |discriminate]);
    cbn [eq_mask and_mask bind]; try discriminate;
    (destruct (getitem df (lit "KPI")) as [[c4|]|] eqn:H4; cbn [bind];
     [apply getitem_ASeries in H4; subst c4 | |discriminate]);
    cbn [eq_mask and_mask bind]; try discriminate;
    try (cbn [boolean_index]; discriminate).
  rewrite series_masks, boolean_index_map. now intros [= <-].
Qed.

Lemma select_dims_present (df : DataFrame) (country tech zone kpi : str) :
  has_column df (lit "Country") = true -> has_column df (lit "Technology") = true ->
  has_column df (lit "Zone") = true -> has_column df (lit "KPI") = true ->
  duplicated df (lit "Country") = false -> duplicated df (lit "Technology") = false ->
  duplicated df (lit "Zone") = false -> duplicated df (lit "KPI") = false ->
  select_dims df country tech zone kpi
  = Ok (filter (matches country tech zone kpi) (rows df)).
Proof.
  intros H1 H2 H3 H4 D1 D2 D3 D4. unfold select_dims.
  rewrite (getitem_single df _ H1 D1), (getitem_single df _ H2 D2),
    (getitem_single df _ H3 D3), (getitem_single df _ H4 D4).
  cbn [bind eq_mask and_mask]. rewrite series_masks. apply boolean_index_map.
Qed.

(* ================================================================== *)
(** * forecast_kpi: how each outcome of the extractor is returned *)
(* ================================================================== *)

Section KpiOutcomes.
Context {C : Collaborators}.
Variables (df : DataFrame) (country tech zone kpi : str) (forecast_months : Z).

Lemma extractor_empty :
  select_dims df country tech zone kpi = Ok [] ->
  series_extractor df country tech zone kpi = Ok (Rejected msg_no_data).
Proof. intro H. unfold series_extractor. now rewrite H. Qed.

Lemma extractor_missing_column (r : Row) (filtered : list Row) :
  select_dims df country tech zone kpi = Ok (r :: filtered) ->
  has_column df value_col = false ->
  series_extractor df country tech zone kpi = Ok (Rejected msg_missing_column).
Proof. intros H Hc. unfold series_extractor. rewrite H. simpl. now rewrite Hc. Qed.

Lemma forecast_kpi_rejected (msg : str) :
  series_extractor df country tech zone kpi = Ok (Rejected msg) ->
  forecast_kpi df country tech zone kpi forecast_months = (None, None, Some msg).
Proof. intro H. unfold forecast_kpi. now rewrite H. Qed.

Lemma forecast_kpi_raised (e : Exn) :
  series_extractor df country tech zone kpi = Raise e ->
  forecast_kpi df country tech zone kpi forecast_months
  = (None, None, Some (lit "Forecast failed: " ++ exn_str e ++ nl ++ format_exc e)).
Proof. intro H. unfold forecast_kpi. now rewrite H. Qed.

(** Every return of [forecast_kpi]: a figure with its summary and no error,
    or no figure, no summary and one of the three kinds of message. *)
Lemma forecast_kpi_cases :
  (exists fig summary,
      forecast_kpi df country tech zone kpi forecast_months
      = (Some fig, Some summary, None))
  \/ (exists msg,
         forecast_kpi df country tech zone kpi forecast_months = (None, None, Some msg)
         /\ ((msg = msg_no_data /\ select_dims df country tech zone kpi = Ok [])
             \/ (msg = msg_missing_column
                 /\ exists r filtered,
                      select_dims df country tech zone kpi = Ok (r :: filtered))
             \/ exists detail, msg = lit "Forecast failed: " ++ detail)).
Proof.
  unfold forecast_kpi.
  destruct (series_extractor df country tech zone kpi) as [[msg|series]|e] eqn:E;
    simpl.
  - right. exists msg. split; [reflexivity|].
    unfold series_extractor in E.
    destruct (select_dims df country tech zone kpi) as [[|r filtered]|e'];
      simpl in E; try discriminate.
    + injection E as <-. left. auto.
    + destruct (has_column df value_col); simpl in E.
      * destruct (groupby_mean (r :: filtered)); discriminate.
      * injection E as <-. right; left. split; [reflexivity|]. now exists r, filtered.
  - destruct (forecast_engine (feature_builder series) forecast_months)
      as [forecasts|e]; simpl.
    + destruct (package (feature_builder series) forecasts country tech zone kpi)
        as [packed|e]; simpl.
      * left. now exists (fst packed), (snd packed).
      * right. eexists. split; [reflexivity|]. right; right. eexists. reflexivity.
    + right. eexists. split; [reflexivity|]. right; right. eexists. reflexivity.
  - right. eexists. split; [reflexivity|]. right; right. eexists. reflexivity.
Qed.

End KpiOutcomes.

(* ================================================================== *)
(** * Series Extractor: the error returns *)
(* ================================================================== *)

(** C7: when the four-dimension case-sensitive filter (the rows whose
    Country, Technology, Zone and KPI cells equal the four requested strings)
    yields no row, [forecast_kpi] returns the message "No data available for
    the selected inputs" and no chart; when it yields rows and the column
    'Actual Value MAPS Networks' is not in the schema, it returns a message
    naming that column and no chart. *)
Theorem extractor_error_returns
        {C : Collaborators} (df : DataFrame) (country tech zone kpi : str)
        (forecast_months : Z) (filtered : list Row) :
  select_dims df country tech zone kpi = Ok filtered ->
  filtered = filter (matches country tech zone kpi) (rows df)
  /\ (filtered = [] ->
      forecast_kpi df country tech zone kpi forecast_months
      = (None, None, Some (lit "No data available for the selected inputs")))
  /\ (filtered <> [] -> has_column df (lit "Actual Value MAPS Networks") = false ->
      forecast_kpi df country tech zone kpi forecast_months
      = (None, None,
         Some (lit "Expected column 'Actual Value MAPS Networks' not found"))).
Proof.
  intro H. split; [now apply select_dims_filter|]. split.
  - intros ->. apply forecast_kpi_rejected. now apply extractor_empty.
  - intros Hne Hcol. destruct filtered as [|r filtered]; [contradiction|].
    apply forecast_kpi_rejected.
    now apply (extractor_missing_column df country tech zone kpi r filtered).
Qed.

(** C10: with no matching row and no value column, the message is the
    no-data one, the empty check coming first; and the missing-column message
    is returned only when at least one row matches the filter. *)
Theorem empty_filter_precedes_missing_column
        {C : Collaborators} (df : DataFrame) (country tech zone kpi : str)
        (forecast_months : Z) :
  (select_dims df country tech zone kpi = Ok [] ->
   has_column df (lit "Actual Value MAPS Networks") = false ->
   forecast_kpi df country tech zone kpi forecast_months
   = (None, None, Some (lit "No data available for the selected inputs")))
  /\ (forall fig summary,
         forecast_kpi df country tech zone kpi forecast_months
         = (fig, summary,
            Some (lit "Expected column 'Actual Value MAPS Networks' not found")) ->
         exists r filtered,
           select_dims df country tech zone kpi = Ok (r :: filtered)
           /\ In r (rows df) /\ matches country tech zone kpi r = true).
Proof.
  split.
  - intros H _. apply forecast_kpi_rejected. now apply extractor_empty.
  - intros fig summary H.
    destruct (forecast_kpi_cases df country tech zone kpi forecast_months)
      as [(f & sm & E) | (msg & E & [[-> _] | [[-> (r & filtered & Hsel)] | [detail ->]]])];
      rewrite E in H; try discriminate.
    exists r, filtered. split; [assumption|].
    apply select_dims_filter in Hsel.
    assert (Hin : In r (filter (matches country tech zone kpi) (rows df)))
      by (rewrite <- Hsel; now left).
    now apply filter_In in Hin.
Qed.

(** No row for Spain; and a matching row in a dataset without the value
    column. *)
Lemma extractor_error_returns_witness :
  forecast_kpi (C := scenario) (dataset [kpi_row jan24 (CNum 10)])
               (lit "Spain") (lit "4G") (lit "ZoneA") (lit "Availability") 3
  = (None, None, Some (lit "No data available for the selected inputs"))
  /\ forecast_kpi (C := scenario) (dataset_without_values [kpi_row jan24 (CNum 10)])
                  (lit "France") (lit "4G") (lit "ZoneA") (lit "Availability") 3
     = (None, None, Some (lit "Expected column 'Actual Value MAPS Networks' not found")).
Proof.
  split.
  - apply (extractor_error_returns (C := scenario)
             (dataset [kpi_row jan24 (CNum 10)])
             (lit "Spain") (lit "4G") (lit "ZoneA") (lit "Availability") 3 []);
      reflexivity.
  - apply (extractor_error_returns (C := scenario)
             (dataset_without_values [kpi_row jan24 (CNum 10)])
             (lit "France") (lit "4G") (lit "ZoneA") (lit "Availability") 3
             [kpi_row jan24 (CNum 10)]);
      [reflexivity | discriminate | reflexivity].
Defined.

(** In a dataset without the value column: Spain matches nothing, France
    matches a row. *)
Lemma empty_filter_precedes_missing_column_witness :
  forecast_kpi (C := scenario) (dataset_without_values [kpi_row jan24 (CNum 10)])
               (lit "Spain") (lit "4G") (lit "ZoneA") (lit "Availability") 3
  = (None, None, Some (lit "No data available for the selected inputs"))
  /\ exists r filtered,
       select_dims (dataset_without_values [kpi_row jan24 (CNum 10)])
                   (lit "France") (lit "4G") (lit "ZoneA") (lit "Availability")
       = Ok (r :: filtered)
       /\ In r (rows (dataset_without_values [kpi_row jan24 (CNum 10)]))
       /\ matches (lit "France") (lit "4G") (lit "ZoneA") (lit "Availability") r = true.
Proof.
  split.
  - apply (proj1 (empty_filter_precedes_missing_column (C := scenario)
                    (dataset_without_values [kpi_row jan24 (CNum 10)])
                    (lit "Spain") (lit "4G") (lit "ZoneA") (lit "Availability") 3));
      reflexivity.
  - apply (proj2 (empty_filter_precedes_missing_column (C := scenario)
                    (dataset_without_values [kpi_row jan24 (CNum 10)])
                    (lit "France") (lit "4G") (lit "ZoneA") (lit "Availability") 3)
                 None None).
    reflexivity.
Defined.

(* ================================================================== *)
(** * Series Extractor: grouping, mean and sort *)
(* ================================================================== *)

Lemma insert_key_In (x d : Timestamp) (ks : list Timestamp) :
  In d (insert_key x ks) <-> d = x \/ In d ks.
Proof.
  induction ks as [|k ks IH]; simpl.
  - intuition.
  - destruct (ts_ltb x k) eqn:Hlt; [simpl; intuition|].
    destruct (ts_eqb x k) eqn:Heq.
    + apply ts_eqb_eq in Heq. subst. simpl. intuition.
    + simpl. rewrite IH. intuition.
Qed.

Lemma insert_key_sorted (x : Timestamp) (ks : list Timestamp) :
  StronglySorted ts_lt ks -> StronglySorted ts_lt (insert_key x ks).
Proof.
  induction 1 as [|k ks Hs IH Hk]; simpl.
  - repeat constructor.
  - destruct (ts_ltb x k) eqn:Hlt.
    + constructor; [now constructor|]. constructor; [assumption|].
      rewrite Forall_forall in *. intros t Ht.
      apply (ts_ltb_trans x k t); [assumption | now apply Hk].
    + destruct (ts_eqb x k) eqn:Heq; [now constructor|].
      constructor; [assumption|].
      rewrite Forall_forall in *. intros t Ht. apply insert_key_In in Ht as [-> | Ht].
      * now apply ts_ltb_total.
      * now apply Hk.
Qed.

Lemma group_keys_sorted (ds : list Timestamp) : StronglySorted ts_lt (group_keys ds).
Proof.
  induction ds as [|d ds IH]; simpl; [constructor | now apply insert_key_sorted].
Qed.

Lemma group_keys_In (d : Timestamp) (ds : list Timestamp) :
  In d (group_keys ds) <-> In d ds.
Proof.
  induction ds as [|x ds IH]; simpl; [reflexivity|].
  rewrite insert_key_In, IH. intuition.
Qed.


(** Sorting a strictly increasing Series leaves it as it is. *)
Lemma sort_values_sorted (l : Series) :
  StronglySorted ts_lt (map fst l) -> sort_values l = l.
Proof.
  induction l as [|x l IH]; simpl; [reflexivity|].
  intro H. inversion H as [|? ? Hs Hx]; subst. rewrite (IH Hs).
  destruct l as [|z l]; [reflexivity|]. simpl.
  inversion Hx as [|? ? Hxz _]; subst.
  now rewrite (ts_ltb_asym _ _ Hxz).
Qed.

Lemma mapM_numeric (cs : list Cell) (vals : list (option Q)) :
  mapM numeric cs = Ok vals -> vals = map as_number cs.
Proof.
  revert vals. induction cs as [|c cs IH]; simpl; intros vals.
  - now intros [= <-].
  - destruct c as [v|q|]; simpl; try discriminate;
      destruct (mapM numeric cs) as [vs|e]; simpl; try discriminate;
      intros [= <-]; now rewrite (IH vs eq_refl).
Qed.

(** Numeric or missing value cells make the aggregation succeed. *)
Lemma mapM_numeric_total (cs : list Cell) :
  (forall c, In c cs -> forall v, c <> CStr v) ->
  mapM numeric cs = Ok (map as_number cs).
Proof.
  induction cs as [|c cs IH]; simpl; intro H; [reflexivity|].
  rewrite IH by (intros; apply H; now right).
  destruct c as [v|q|]; simpl; try reflexivity.
  exfalso. now apply (H (CStr v) (or_introl eq_refl) v).
Qed.

Lemma group_values_entries (d : Timestamp) (filtered : list Row) :
  group_values d (combine (map Date filtered)
                          (map as_number (map (cell value_col) filtered)))
  = entries d filtered.
Proof.
  unfold group_values, entries.
  induction filtered as [|r rs IH]; simpl; [reflexivity|].
  destruct (ts_eqb (Date r) d); simpl; now rewrite IH.
Qed.

(** The Series the extractor returns, in closed form. *)
Lemma series_extractor_Extract
      {C : Collaborators} (df : DataFrame) (country tech zone kpi : str)
      (ts : Series) :
  series_extractor df country tech zone kpi = Ok (Extract ts) ->
  ts = map (fun d => (d, mean (entries d (filter (matches country tech zone kpi) (rows df)))))
           (group_keys (map Date (filter (matches country tech zone kpi) (rows df)))).
Proof.
  unfold series_extractor.
  destruct (select_dims df country tech zone kpi) as [filtered|e] eqn:Hsel;
    simpl; [|discriminate].
  apply select_dims_filter in Hsel. rewrite <- Hsel.
  destruct filtered as [|r rs] eqn:Hf; [discriminate|]. rewrite <- Hf. clear Hf.
  destruct (has_column df value_col); simpl; [|discriminate].
  unfold groupby_mean.
  destruct (mapM numeric (map (cell value_col) filtered)) as [vals|e] eqn:Hv;
    simpl; [|discriminate].
  apply mapM_numeric in Hv. subst vals. intros [= <-].
  rewrite sort_values_sorted.
  - apply map_ext. intro d. now rewrite group_values_entries.
  - rewrite map_map. simpl. rewrite map_id. apply group_keys_sorted.
Qed.

(** Distinct labels: none is duplicated. *)
Lemma NoDup_not_duplicated (df : DataFrame) (c : str) :
  NoDup (columns df) -> duplicated df c = false.
Proof.
  unfold duplicated. intro H. apply Nat.ltb_ge.
  induction H as [|x l Hx Hl IH]; cbn [filter length]; [lia|].
  destruct (str_eqb c x) eqn:E; [|exact IH].
  apply str_eqb_eq in E. subst x.
  assert (Hn : filter (str_eqb c) l = []).
  { apply filter_nil_existsb. destruct (existsb (str_eqb c) l) eqn:Ex; [|reflexivity].
    apply existsb_exists in Ex as (y & Hy & Hcy). apply str_eqb_eq in Hcy. now subst y. }
  rewrite Hn. cbn [length]. lia.
Qed.

(** The extractor returns a Series whenever the labels of the frame are
    distinct, the dimension and value columns exist, some row matches and no
    matching row has text in the value column. *)
Lemma series_extractor_total
      {C : Collaborators} (df : DataFrame) (country tech zone kpi : str) :
  NoDup (columns df) ->
  has_column df (lit "Country") = true -> has_column df (lit "Technology") = true ->
  has_column df (lit "Zone") = true -> has_column df (lit "KPI") = true ->
  has_column df value_col = true ->
  filter (matches country tech zone kpi) (rows df) <> [] ->
  (forall r v, In r (filter (matches country tech zone kpi) (rows df)) ->
               cell value_col r <> CStr v) ->
  exists ts, series_extractor df country tech zone kpi = Ok (Extract ts).
Proof.
  intros Hnd H1 H2 H3 H4 Hv Hne Hnum. unfold series_extractor.
  rewrite (select_dims_present df country tech zone kpi H1 H2 H3 H4
             (NoDup_not_duplicated df _ Hnd) (NoDup_not_duplicated df _ Hnd)
             (NoDup_not_duplicated df _ Hnd) (NoDup_not_duplicated df _ Hnd)).
  cbn [bind].
  destruct (filter (matches country tech zone kpi) (rows df)) as [|r rs] eqn:Hf;
    [contradiction|].
  rewrite Hv. cbn [negb]. unfold groupby_mean.
  rewrite mapM_numeric_total.
  - cbn [bind]. eexists. reflexivity.
  - intros c Hc v. apply in_map_iff in Hc as (r' & <- & Hr'). now apply Hnum.
Qed.




(* ================================================================== *)
(** * Feature Builder *)
(* ================================================================== *)

Lemma length_shift (k : nat) (col : list (option Float)) :
  length (shift k col) = length col.
Proof.
  unfold shift. rewrite length_firstn, length_app, repeat_length. lia.
Qed.

Lemma nth_shift (k i : nat) (col : list (option Float)) :
  i < length col -> nth i (shift k col) None = lag_at col k i.
Proof.
  intro Hi. unfold shift, lag_at. rewrite nth_firstn.
  apply Nat.ltb_lt in Hi as Hi'. rewrite Hi'.
  destruct (i <? k) eqn:Hk.
  - apply Nat.ltb_lt in Hk. rewrite app_nth1 by (rewrite repeat_length; lia).
    apply nth_repeat.
  - apply Nat.ltb_ge in Hk. rewrite app_nth2 by (rewrite repeat_length; lia).
    now rewrite repeat_length.
Qed.

(** The frame before [dropna], row by row. *)
Lemma add_lags_rows (ts : Series) :
  add_lags (create_features ts) = map (row_at ts) (seq 0 (length ts)).
Proof.
  unfold add_lags, create_features. rewrite map_map. cbn [fst snd].
  set (ycol := map (fun x => snd x) ts).
  assert (Hy : ycol = map snd ts) by reflexivity.
  assert (Hl : length ycol = length ts) by (subst ycol; apply length_map).
  apply (nth_ext _ _ (mkTsRow (mkTs 0 0 0) None 0 0 None None None) (row_at ts 0)).
  - rewrite !length_map, !length_combine, !length_shift, length_map, length_seq. lia.
  - intros i Hi.
    rewrite !length_map, !length_combine, !length_shift, length_map in Hi.
    assert (Hi' : i < length ts) by lia.
    rewrite (map_nth (row_at ts)), seq_nth by assumption. cbn [plus].
    change (mkTsRow (mkTs 0 0 0) None 0 0 None None None)
      with ((fun q : Timestamp * option Float * Z * Z * option Float * option Float * option Float =>
               match q with
               | ((((d, v, m, yr), l1), l2), l3) => mkTsRow d v m yr l1 l2 l3
               end) (mkTs 0 0 0, None, 0%Z, 0%Z, None, None, None)).
    rewrite map_nth.
    rewrite !combine_nth
      by (rewrite ?length_combine, ?length_shift, ?length_map; lia).
    rewrite !nth_shift by lia.
    change (mkTs 0 0 0, None, 0%Z, 0%Z)
      with ((fun p : Timestamp * option Float =>
               (fst p, snd p, ts_month (fst p), ts_year (fst p)))
              (mkTs 0 0 0, None)) at 1.
    rewrite map_nth. unfold row_at. rewrite <- Hy. reflexivity.
Qed.

Lemma dropna_app (a b : list TsRow) : dropna (a ++ b) = dropna a ++ dropna b.
Proof.
  induction a as [|r a IH]; simpl; [reflexivity|].
  destruct (complete r); simpl; now rewrite IH.
Qed.

Lemma dropna_map_none (f : nat -> TsRow) (l : list nat) :
  (forall i, In i l -> complete (f i) = None) -> dropna (map f l) = [].
Proof.
  induction l as [|i l IH]; simpl; intro H; [reflexivity|].
  rewrite (H i) by now left. apply IH. intros; apply H; now right.
Qed.

Lemma dropna_map_some (f : nat -> TsRow) (g : nat -> FeatureRow) (l : list nat) :
  (forall i, In i l -> complete (f i) = Some (g i)) -> dropna (map f l) = map g l.
Proof.
  induction l as [|i l IH]; simpl; intro H; [reflexivity|].
  rewrite (H i) by now left. f_equal. apply IH. intros; apply H; now right.
Qed.

Lemma complete_first_rows (ts : Series) (i : nat) : i < 3 -> complete (row_at ts i) = None.
Proof.
  intro Hi. unfold complete, row_at. cbn [y y_lag_1 y_lag_2 y_lag_3].
  assert (H3 : lag_at (map snd ts) 3 i = None).
  { unfold lag_at. apply Nat.ltb_lt in Hi. now rewrite Hi. }
  rewrite H3.
  destruct (snd (nth i ts (mkTs 0 0 0, None))), (lag_at (map snd ts) 1 i),
    (lag_at (map snd ts) 2 i); reflexivity.
Qed.

(** The first three rows never survive [dropna]. *)
Lemma feature_builder_tail (ts : Series) :
  feature_builder ts = dropna (map (row_at ts) (seq 3 (length ts - 3))).
Proof.
  unfold feature_builder. rewrite add_lags_rows.
  destruct (Nat.le_gt_cases 3 (length ts)) as [H|H].
  - replace (length ts) with (3 + (length ts - 3)) at 1 by lia.
    rewrite seq_app, map_app, dropna_app.
    rewrite dropna_map_none; [reflexivity|].
    intros i Hi. apply in_seq in Hi. apply complete_first_rows. lia.
  - replace (length ts - 3) with 0 by lia. cbn [seq map dropna].
    apply dropna_map_none. intros i Hi. apply in_seq in Hi.
    apply complete_first_rows. lia.
Qed.

(** A Series of at most three points leaves no usable row. *)
Lemma feature_builder_short (ts : Series) : length ts <= 3 -> feature_builder ts = [].
Proof.
  intro H. rewrite feature_builder_tail. now replace (length ts - 3) with 0 by lia.
Qed.

Lemma nth_known (dvs : list (Timestamp * Float)) (i : nat) :
  i < length dvs ->
  nth i (known dvs) (mkTs 0 0 0, None) = (date_at dvs i, Some (value_at dvs i)).
Proof.
  intro Hi. unfold known, date_at, value_at.
  rewrite (nth_indep _ _ (mkTs 0 0 0, Some (Fin 0))) by now rewrite length_map.
  exact (map_nth (fun p : Timestamp * Float => (fst p, Some (snd p))) dvs
                 (mkTs 0 0 0, Fin 0) i).
Qed.

Lemma lag_at_known (dvs : list (Timestamp * Float)) (k i : nat) :
  k <= i -> i < length dvs ->
  lag_at (map snd (known dvs)) k i = Some (value_at dvs (i - k)).
Proof.
  intros Hk Hi. unfold lag_at. apply Nat.ltb_ge in Hk as Hk'. rewrite Hk'.
  change (@None Float) with (snd (mkTs 0 0 0, @None Float)).
  rewrite map_nth, nth_known by lia. reflexivity.
Qed.

(** The Feature Builder on a Series without missing values, in closed form. *)
Lemma feature_builder_known (dvs : list (Timestamp * Float)) :
  feature_builder (known dvs) = map (feature_at dvs) (seq 3 (length dvs - 3)).
Proof.
  rewrite feature_builder_tail.
  assert (Hl : length (known dvs) = length dvs) by apply length_map.
  rewrite Hl. apply dropna_map_some. intros i Hi. apply in_seq in Hi.
  unfold complete, row_at. cbn [y y_lag_1 y_lag_2 y_lag_3 ds month year].
  rewrite nth_known by lia. cbn [fst snd].
  rewrite !lag_at_known by lia. reflexivity.
Qed.

Lemma nth_error_nth_value (dvs : list (Timestamp * Float)) (i : nat) :
  i < length dvs -> nth_error (map snd dvs) i = Some (value_at dvs i).
Proof.
  intro Hi. unfold value_at. rewrite nth_error_map.
  rewrite (nth_error_nth' dvs (mkTs 0 0 0, Fin 0)) by assumption. reflexivity.
Qed.

(** C5: a Series of length [L] without missing values yields exactly
    max(0, L-3) FeatureRows; the row for position [i] (the positions 3..L-1,
    the first three being dropped) has the date and value of position [i] and
    lag_k equal to the Series value at position [i-k], for k = 1, 2, 3. *)
Theorem feature_builder_count_and_lags (dvs : list (Timestamp * Float)) :
  Z.of_nat (length (feature_builder (known dvs)))
  = Z.max 0 (Z.of_nat (length dvs) - 3)
  /\ forall i, 3 <= i < length dvs ->
       exists row,
         nth_error (feature_builder (known dvs)) (i - 3) = Some row
         /\ nth_error dvs i = Some (f_ds row, f_y row)
         /\ forall k, 1 <= k <= 3 ->
              nth_error (map snd dvs) (i - k) = Some (lag k row).
Proof.
  rewrite feature_builder_known. split.
  - rewrite length_map, length_seq. lia.
  - intros i Hi. exists (feature_at dvs i). split; [|split].
    + rewrite nth_error_map, nth_error_seq.
      assert (Hlt : (i - 3 <? length dvs - 3) = true) by (apply Nat.ltb_lt; lia).
      rewrite Hlt. cbn [option_map]. do 2 f_equal. lia.
    + cbn [feature_at f_ds f_y]. unfold date_at, value_at.
      rewrite (nth_error_nth' dvs (mkTs 0 0 0, Fin 0)) by lia.
      now destruct (nth i dvs _).
    + intros k Hk. rewrite nth_error_nth_value by lia.
      destruct k as [|[|[|[|k]]]]; try lia; reflexivity.
Qed.

(** Five points: the row of position 4 has the values of positions 3, 2, 1
    as its lags. *)
Lemma feature_builder_count_and_lags_witness :
  exists row,
    nth_error (feature_builder
                 (known [(jan24, Fin 10); (feb24, Fin 20); (mar24, Fin 30);
                         (apr24, Fin 40); (mkTs 2024 5 1, Fin 50)])) 1 = Some row
    /\ (f_y row, f_lag_1 row, f_lag_2 row, f_lag_3 row) = (Fin 50, Fin 40, Fin 30, Fin 20).
Proof.
  destruct (proj2 (feature_builder_count_and_lags
                     [(jan24, Fin 10); (feb24, Fin 20); (mar24, Fin 30);
                      (apr24, Fin 40); (mkTs 2024 5 1, Fin 50)]) 4)
    as (row & Hrow & _ & _).
  - simpl. lia.
  - exists row. split; [exact Hrow|]. simpl in Hrow. now injection Hrow as <-.
Defined.

(* ================================================================== *)
(** * Forecast Engine: the seed of the recursion *)
(* ================================================================== *)

Lemma iloc_last_snoc {A} (l : list A) (x : A) : iloc_last (l ++ [x]) = Ok x.
Proof.
  induction l as [|a l IH]; [reflexivity|].
  cbn [app iloc_last]. rewrite IH. now destruct (l ++ [x]) eqn:E; [destruct l|].
Qed.

Lemma feature_builder_known_snoc (dvs : list (Timestamp * Float)) :
  4 <= length dvs ->
  feature_builder (known dvs)
  = map (feature_at dvs) (seq 3 (length dvs - 4)) ++ [feature_at dvs (length dvs - 1)].
Proof.
  intro H. rewrite feature_builder_known.
  replace (length dvs - 3) with (S (length dvs - 4)) by lia.
  rewrite seq_S, map_app. cbn [map]. do 3 f_equal. lia.
Qed.

(** The last trainable row is the row of the last historical point, so its
    lags, which seed the recursion, are the values one to three periods
    BEFORE the most recent one. *)
Lemma seed_lags_known (dvs : list (Timestamp * Float)) :
  4 <= length dvs ->
  iloc_last (feature_builder (known dvs)) = Ok (feature_at dvs (length dvs - 1))
  /\ seed_lags (feature_at dvs (length dvs - 1))
     = [value_at dvs (length dvs - 2); value_at dvs (length dvs - 3);
        value_at dvs (length dvs - 4)].
Proof.
  intro H. split.
  - rewrite feature_builder_known_snoc by assumption. apply iloc_last_snoc.
  - unfold seed_lags, feature_at. cbn [f_lag_1 f_lag_2 f_lag_3].
    replace (length dvs - 1 - 1) with (length dvs - 2) by lia.
    replace (length dvs - 1 - 2) with (length dvs - 3) by lia.
    replace (length dvs - 1 - 3) with (length dvs - 4) by lia.
    reflexivity.
Qed.

(** C1, the code evaluated on the Series of values 10, 20, 30, 40 (January
    to April 2024): the recursion is seeded with (30, 20, 10), the lags of the
    last historical row, and not with the three most recent values
    (40, 30, 20); with a regressor that returns the lag-1 feature it is shown,
    the first forecast is 30: the most recent value, 40, never reaches the
    model. *)
Theorem seed_lags_are_one_period_stale :
  exists last_row,
    iloc_last (feature_builder
                 (known [(jan24, Fin 10); (feb24, Fin 20); (mar24, Fin 30); (apr24, Fin 40)]))
    = Ok last_row
    /\ seed_lags last_row = [Fin 30; Fin 20; Fin 10]
    /\ seed_lags last_row <> [Fin 40; Fin 30; Fin 20]
    /\ forecast_engine (C := scenario)
         (feature_builder
            (known [(jan24, Fin 10); (feb24, Fin 20); (mar24, Fin 30); (apr24, Fin 40)])) 1
       = Ok [mkPoint (mkTs 2024 5 1) (Fin 30)].
Proof.
  eexists. split; [reflexivity|]. split; [reflexivity|]. split; [|reflexivity].
  cbn. intro H. discriminate H.
Qed.

(* ================================================================== *)
(** * Forecast Engine: the forecast months *)
(* ================================================================== *)

Lemma next_month_start_spec (t : Timestamp) :
  (1 <= ts_month t <= 12)%Z ->
  month_start (next_month_start t)
  /\ month_index (next_month_start t) = (month_index t + 1)%Z.
Proof.
  intro H. unfold next_month_start, month_start, month_index.
  destruct (Z.eqb_spec (ts_month t) 12); cbn [ts_year ts_month ts_day]; lia.
Qed.

Lemma length_month_starts_from (t : Timestamp) (n : nat) :
  length (month_starts_from t n) = n.
Proof. revert t. induction n as [|n IH]; intro t; simpl; [reflexivity | now rewrite IH]. Qed.

Lemma nth_month_starts_from (n j : nat) (t p : Timestamp) :
  month_start t ->
  nth_error (month_starts_from t n) j = Some p ->
  month_start p /\ month_index p = (month_index t + Z.of_nat j)%Z.
Proof.
  revert t j. induction n as [|n IH]; intros t j Ht; simpl.
  - now destruct j.
  - destruct j as [|j]; simpl.
    + intros [= <-]. split; [assumption | lia].
    + intro H. destruct (next_month_start_spec t (proj1 Ht)) as [Hn Hi].
      destruct (IH _ _ Hn H) as [Hp Hip]. split; [assumption | lia].
Qed.

Section Loop.
Context {C : Collaborators}.

(** With a regressor that predicts, the loop records one point per date. *)
Lemma forecast_loop_total (model : Model) (future_dates : list Timestamp) :
  (forall x, exists v, xgb_predict model x = Ok v) ->
  forall prev_lags, length prev_lags = 3 ->
  exists forecasts,
    forecast_loop model future_dates prev_lags = Ok forecasts
    /\ map p_ds forecasts = future_dates.
Proof.
  intro Hp. induction future_dates as [|date rest IH]; intros prev_lags Hl.
  - now exists [].
  - destruct prev_lags as [|l1 [|l2 [|l3 [|? ?]]]]; try discriminate.
    cbn [forecast_loop item nth_error bind].
    destruct (Hp (mkVec (ts_month date) (ts_year date) l1 l2 l3)) as [pred Hpred].
    rewrite Hpred.
    destruct (IH (pred :: firstn 2 [l1; l2; l3]) eq_refl) as (fs & Hfs & Hds).
    cbn [bind]. rewrite Hfs. exists (mkPoint date pred :: fs). split; [reflexivity|].
    cbn [map p_ds]. now rewrite Hds.
Qed.

(** No trainable row, no forecast: [ts.iloc[-1]] raises unless fitting
    already did. *)
Lemma forecast_engine_empty (forecast_months : Z) :
  exists e, forecast_engine [] forecast_months = Raise e.
Proof.
  unfold forecast_engine. cbn [map]. destruct (xgb_fit [] []) as [model|e]; simpl.
  - eexists. reflexivity.
  - now exists e.
Qed.

End Loop.

Lemma sorted_nth_lt (l : list Timestamp) (d : Timestamp) :
  StronglySorted ts_lt l ->
  forall i j, i < j -> j < length l -> ts_lt (nth i l d) (nth j l d).
Proof.
  induction 1 as [|a l Hs IH Ha]; intros i j Hij Hj; simpl in Hj; [lia|].
  destruct j as [|j]; [lia|]. destruct i as [|i]; simpl.
  - rewrite Forall_forall in Ha. apply Ha, nth_In. lia.
  - apply IH; lia.
Qed.

(** In a strictly increasing Series the latest date is the last one. *)
Lemma max_date_is_last (l : list Timestamp) (d m : Timestamp) :
  StronglySorted ts_lt l -> is_max_date m l -> m = nth (length l - 1) l d.
Proof.
  intros Hs [Hin Hub].
  destruct (In_nth l m d Hin) as (i & Hi & <-).
  destruct (Nat.eq_dec i (length l - 1)) as [->|Hne]; [reflexivity|].
  assert (Hlt : ts_lt (nth i l d) (nth (length l - 1) l d))
    by (apply sorted_nth_lt; [assumption | lia | lia]).
  assert (Hlast : In (nth (length l - 1) l d) l) by (apply nth_In; lia).
  specialize (Hub _ Hlast).
  unfold ts_lt in Hlt. congruence.
Qed.

Lemma date_at_nth (dvs : list (Timestamp * Float)) (i : nat) :
  date_at dvs i = nth i (map fst dvs) (mkTs 0 0 0).
Proof.
  unfold date_at. change (mkTs 0 0 0) with (fst (mkTs 0 0 0, Fin 0)) at 2.
  now rewrite map_nth.
Qed.

(** C2, refuted as worded: a Series of two month starts is non-empty, yet
    the engine, even with collaborators that never fail, returns no forecast
    point at all (it raises). *)
Lemma no_forecast_from_two_points : ~ forecast_months_as_stated.
Proof.
  intro H.
  destruct (H permissive [(jan24, Fin 10); (feb24, Fin 12)] 3%Z feb24) as (fs & Hfs & _).
  - discriminate.
  - repeat constructor.
  - repeat constructor; cbn; lia.
  - split; [right; now left|].
    intros d [<- | [<- | []]]; reflexivity.
  - lia.
  - intros X Y. now exists tt.
  - intros model x. now exists (x_lag_1 x).
  - reflexivity.
  - vm_compute in Hfs. discriminate.
Qed.

Lemma ts_le_trans (a b c : Timestamp) :
  ts_ltb c b = false -> ts_ltb b a = false -> ts_ltb c a = false.
Proof. intros H1 H2. ts_order. Qed.

Lemma ts_max_ge_l (a b : Timestamp) : ts_ltb (ts_max a b) a = false.
Proof.
  unfold ts_max. destruct (ts_ltb a b) eqn:E; [now apply ts_ltb_asym | apply ts_ltb_irrefl].
Qed.

Lemma ts_max_ge_r (a b : Timestamp) : ts_ltb (ts_max a b) b = false.
Proof.
  unfold ts_max. destruct (ts_ltb a b) eqn:E; [apply ts_ltb_irrefl | assumption].
Qed.

(** The fold of [ts_max] is the maximum. *)
Lemma fold_ts_max_spec (l : list Timestamp) (a : Timestamp) :
  is_max_date (fold_left ts_max l a) (a :: l).
Proof.
  revert a. induction l as [|b l IH]; intro a; cbn [fold_left].
  - split; [now left|]. intros d [<- | []]. apply ts_ltb_irrefl.
  - destruct (IH (ts_max a b)) as [Hin Hub]. split.
    + destruct Hin as [Hin | Hin]; [|now right; right].
      rewrite <- Hin. unfold ts_max. destruct (ts_ltb a b); [right|]; now left.
    + assert (Hm := Hub (ts_max a b) (or_introl eq_refl)).
      intros d [<- | [<- | Hd]].
      * apply (ts_le_trans _ (ts_max a b)); [assumption | apply ts_max_ge_l].
      * apply (ts_le_trans _ (ts_max a b)); [assumption | apply ts_max_ge_r].
      * apply Hub. now right.
Qed.

Lemma max_date_unique (l : list Timestamp) (m m' : Timestamp) :
  is_max_date m l -> is_max_date m' l -> m = m'.
Proof.
  intros [Hin Hub] [Hin' Hub']. specialize (Hub m' Hin'). specialize (Hub' m Hin).
  destruct (ts_eqb m m') eqn:E; [now apply ts_eqb_eq|].
  rewrite (ts_ltb_total m m' Hub E) in Hub'. discriminate.
Qed.

Lemma max_ds_spec (ts : list FeatureRow) (dmax : Timestamp) :
  ts <> [] -> is_max_date dmax (map f_ds ts) -> max_ds ts = Some dmax.
Proof.
  intros Hne Hmax. destruct ts as [|r ts]; [contradiction|]. cbn [max_ds]. f_equal.
  apply (max_date_unique (map f_ds (r :: ts))); [apply fold_ts_max_spec | assumption].
Qed.

Lemma iloc_last_nonempty {A} (l : list A) : l <> [] -> exists x, iloc_last l = Ok x.
Proof.
  induction l as [|a l IH]; [contradiction|]. intros _.
  destruct l as [|b l]; [now exists a|].
  destruct IH as [x Hx]; [discriminate|]. now exists x.
Qed.

Section Months.
Context {C : Collaborators}.

(** The engine on any non-empty training frame. *)
Lemma forecast_engine_months (ts : list FeatureRow) (N : Z)
      (dmax : Timestamp) (model : Model) :
  ts <> [] ->
  month_start dmax ->
  is_max_date dmax (map f_ds ts) ->
  (1 <= N)%Z ->
  xgb_fit (map features ts) (map f_y ts) = Ok model ->
  (forall x, exists v, xgb_predict model x = Ok v) ->
  (forall t, month_start t ->
             (month_index dmax < month_index t <= month_index dmax + N)%Z ->
             in_bounds t = true) ->
  exists forecasts,
    forecast_engine ts N = Ok forecasts
    /\ consecutive_months_after dmax (Z.to_nat N) forecasts.
Proof.
  intros Hne Hdm Hmax HN Hfit Hpred Hb.
  destruct (next_month_start_spec dmax (proj1 Hdm)) as [Hn Hi].
  destruct (iloc_last_nonempty ts Hne) as [last_row Hlast].
  unfold forecast_engine. rewrite Hfit. cbn [bind]. rewrite Hlast. cbn [bind].
  unfold forecast_start. rewrite (max_ds_spec ts dmax Hne Hmax).
  unfold add_MonthBegin. rewrite (Hb _ Hn) by lia. cbn [bind].
  unfold date_range.
  assert (Hoff : on_offset (next_month_start dmax) = true).
  { unfold on_offset. now rewrite (proj2 Hn). }
  rewrite Hoff.
  assert (Hall : forallb in_bounds
                   (month_starts_from (next_month_start dmax) (Z.to_nat N)) = true).
  { apply forallb_forall. intros t Ht.
    destruct (In_nth_error _ _ Ht) as [j Hj].
    assert (Hjn : j < Z.to_nat N).
    { rewrite <- (length_month_starts_from (next_month_start dmax) (Z.to_nat N)).
      apply nth_error_Some. congruence. }
    destruct (nth_month_starts_from _ _ _ _ Hn Hj) as [Hst Hidx].
    apply Hb; [assumption | lia]. }
  rewrite Hall. cbn [bind].
  destruct (forecast_loop_total model
              (month_starts_from (next_month_start dmax) (Z.to_nat N)) Hpred
              (seed_lags last_row) eq_refl)
    as (fs & Hfs & Hds).
  exists fs. split; [assumption|]. split.
  - rewrite <- (length_map p_ds), Hds. apply length_month_starts_from.
  - intros j p Hj.
    assert (Hj' : nth_error (month_starts_from (next_month_start dmax) (Z.to_nat N)) j
                  = Some (p_ds p)).
    { rewrite <- Hds, nth_error_map, Hj. reflexivity. }
    destruct (nth_month_starts_from _ _ _ _ Hn Hj') as [Hst Hidx].
    split; [assumption | lia].
Qed.

End Months.

(** The latest date of a sorted Series of at least 4 known points is the
    latest date of its training frame. *)
Lemma max_date_known (dvs : list (Timestamp * Float)) (dmax : Timestamp) :
  4 <= length dvs -> StronglySorted ts_lt (map fst dvs) ->
  is_max_date dmax (map fst dvs) ->
  is_max_date dmax (map f_ds (feature_builder (known dvs))).
Proof.
  intros HL Hs Hmax.
  assert (Hd : dmax = date_at dvs (length dvs - 1)).
  { rewrite date_at_nth, <- (length_map fst dvs). now apply max_date_is_last. }
  rewrite feature_builder_known, map_map. cbn [feature_at f_ds]. split.
  - rewrite Hd. apply in_map_iff. exists (length dvs - 1). split; [reflexivity|].
    apply in_seq. lia.
  - intros d Hin. apply in_map_iff in Hin as (i & <- & Hi). apply in_seq in Hi.
    apply (proj2 Hmax). rewrite date_at_nth. apply nth_In. rewrite length_map. lia.
Qed.

(** C2 (amended): for every positive horizon N, when the regressor fits and
    predicts and the N following months are representable timestamps, the
    engine returns exactly N ForecastPoints, dated on strictly consecutive
    calendar-month starts, the first one calendar month after the maximum
    historical date,
    - for every non-empty training frame (the historical rows left by the
      Feature Builder) whose latest date is a month start, and so
    - for every Series of at least 4 points without missing values, strictly
      increasing in date, whose dates are month starts. *)
Theorem forecast_months_consecutive
        {C : Collaborators} (N : Z) (dmax : Timestamp) (model : Model) :
  (1 <= N)%Z ->
  (forall x, exists v, xgb_predict model x = Ok v) ->
  (forall t, month_start t ->
             (month_index dmax < month_index t <= month_index dmax + N)%Z ->
             in_bounds t = true) ->
  (forall ts : list FeatureRow,
      ts <> [] ->
      Forall month_start (map f_ds ts) ->
      is_max_date dmax (map f_ds ts) ->
      xgb_fit (map features ts) (map f_y ts) = Ok model ->
      exists forecasts,
        forecast_engine ts N = Ok forecasts
        /\ consecutive_months_after dmax (Z.to_nat N) forecasts)
  /\
  (forall dvs : list (Timestamp * Float),
      4 <= length dvs ->
      StronglySorted ts_lt (map fst dvs) ->
      Forall month_start (map fst dvs) ->
      is_max_date dmax (map fst dvs) ->
      xgb_fit (map features (feature_builder (known dvs)))
              (map f_y (feature_builder (known dvs))) = Ok model ->
      exists forecasts,
        forecast_engine (feature_builder (known dvs)) N = Ok forecasts
        /\ consecutive_months_after dmax (Z.to_nat N) forecasts).
Proof.
  intros HN Hpred Hb. split.
  - intros ts Hne Hms Hmax Hfit.
    apply (forecast_engine_months ts N dmax model); auto.
    rewrite Forall_forall in Hms. apply Hms, Hmax.
  - intros dvs HL Hs Hms Hmax Hfit.
    apply (forecast_engine_months _ N dmax model); auto.
    + rewrite feature_builder_known_snoc by assumption.
      intro H. now apply app_eq_nil in H as [_ H].
    + rewrite Forall_forall in Hms. apply Hms, Hmax.
    + now apply max_date_known.
Qed.

Lemma nanosecond_range_years (t : Timestamp) :
  (1678 <= ts_year t <= 2261)%Z -> nanosecond_range t = true.
Proof.
  intro H. unfold nanosecond_range.
  assert (H1 : ts_ltb t (mkTs 1677 9 22) = false) by ts_order.
  assert (H2 : ts_ltb (mkTs 2262 4 11) t = false) by ts_order.
  now rewrite H1, H2.
Qed.

(** Four months to November 2024, horizon 3: December, January, February. *)
Lemma forecast_months_consecutive_witness :
  exists forecasts,
    forecast_engine (C := scenario)
      (feature_builder
         (known [(mkTs 2024 8 1, Fin 1); (mkTs 2024 9 1, Fin 2);
                 (mkTs 2024 10 1, Fin 3); (mkTs 2024 11 1, Fin 4)])) 3
    = Ok forecasts
    /\ consecutive_months_after (mkTs 2024 11 1) 3 forecasts.
Proof.
  assert (Hb : forall t, month_start t ->
                 (month_index (mkTs 2024 11 1) < month_index t
                  <= month_index (mkTs 2024 11 1) + 3)%Z ->
                 in_bounds (Collaborators := scenario) t = true).
  { intros [yr mo dy] [Hm Hdy] Hidx. unfold month_index in Hidx.
    cbn [ts_year ts_month ts_day in_bounds scenario archive] in *.
    apply nanosecond_range_years. cbn [ts_year]. lia. }
  apply (proj2 (forecast_months_consecutive (C := scenario) 3 (mkTs 2024 11 1) tt
                  ltac:(lia) (fun x => ex_intro _ (x_lag_1 x) eq_refl) Hb)).
  - simpl. lia.
  - repeat constructor.
  - repeat constructor; cbn; lia.
  - split; [simpl; tauto|].
    intros d [<- | [<- | [<- | [<- | []]]]]; reflexivity.
  - reflexivity.
Defined.

(* ================================================================== *)
(** * run_forecast_pipeline *)
(* ================================================================== *)

Section PipelineFacts.
Context {C : Collaborators}.
Variables (zip_buffer : list Byte.byte) (country tech zone kpi : str)
          (forecast_months : Z).

(** An error message of [forecast_kpi] is never the empty string, so the
    test [if err:] sees it. *)
Lemma forecast_kpi_error_truthy (df : DataFrame) (msg : str) :
  forecast_kpi df country tech zone kpi forecast_months = (None, None, Some msg) ->
  truthy msg = true.
Proof.
  intro H.
  destruct (forecast_kpi_cases df country tech zone kpi forecast_months)
    as [(f & sm & E) | (msg' & E & [[-> _] | [[-> _] | [detail ->]]])];
    rewrite E in H; try discriminate; now injection H as <-.
Qed.

(** Whatever a stage raises, the handler of line 145 turns it into a
    message. *)
Lemma pipeline_archive_error (e : Exn) :
  unzip_walk zip_buffer = Raise e ->
  run_forecast_pipeline zip_buffer country tech zone kpi forecast_months
  = (None, None, Some (lit "Pipeline error: " ++ exn_str e ++ nl ++ format_exc e)).
Proof. intro H. unfold run_forecast_pipeline. now rewrite H. Qed.

(** Every return of the pipeline. *)
Lemma pipeline_cases :
  (exists plot_json summary,
      run_forecast_pipeline zip_buffer country tech zone kpi forecast_months
      = (Some plot_json, Some summary, None))
  \/ (exists msg,
         run_forecast_pipeline zip_buffer country tech zone kpi forecast_months
         = (None, None, Some msg)).
Proof.
  unfold run_forecast_pipeline.
  destruct (unzip_walk zip_buffer) as [walked|e]; cbn [bind handle];
    [|right; eexists; reflexivity].
  destruct (find_excel_files walked) as [|p ps] eqn:Hfiles;
    [right; eexists; reflexivity|].
  destruct (load_records (p :: ps)) as [|r rs] eqn:Hrec;
    [right; eexists; reflexivity|].
  destruct (forecast_kpi_cases (concat (r :: rs)) country tech zone kpi forecast_months)
    as [(f & sm & E) | (msg & E & _)].
  - rewrite E. cbn [is_err bind].
    destruct (fig_to_json f) as [plot_json|e]; cbn [bind handle].
    + left. now exists plot_json, sm.
    + right. eexists. reflexivity.
  - rewrite E. cbn [is_err].
    rewrite (forecast_kpi_error_truthy _ _ E). right. now exists msg.
Qed.

(** An error of [forecast_kpi] is returned as it is. *)
Lemma pipeline_forwards_error (walked : list (str * str)) (msg : str) :
  unzip_walk zip_buffer = Ok walked ->
  load_records (find_excel_files walked) <> [] ->
  forecast_kpi (concat (load_records (find_excel_files walked)))
               country tech zone kpi forecast_months = (None, None, Some msg) ->
  run_forecast_pipeline zip_buffer country tech zone kpi forecast_months
  = (None, None, Some msg).
Proof.
  intros Hw Hrec Hk. unfold run_forecast_pipeline. rewrite Hw. cbn [bind].
  destruct (find_excel_files walked) as [|p ps] eqn:Hfiles; [now elim Hrec|].
  destruct (load_records (p :: ps)) as [|r rs] eqn:Hr; [now elim Hrec|].
  rewrite Hk. cbn [is_err]. now rewrite (forecast_kpi_error_truthy _ _ Hk).
Qed.

End PipelineFacts.

(** C6: [run_forecast_pipeline] is a total function of its inputs and of
    whatever its collaborators do (every exception raised inside ends in the
    handler of line 145, which returns a triple), and in every triple it
    returns exactly one of chart payload and error message is non-null, the
    summary being non-null exactly when the chart payload is. *)
Theorem pipeline_returns_chart_xor_error
        {C : Collaborators} (zip_buffer : list Byte.byte)
        (country tech zone kpi : str) (forecast_months : Z) :
  exists chart summary err,
    run_forecast_pipeline zip_buffer country tech zone kpi forecast_months
    = (chart, summary, err)
    /\ ((chart <> None /\ err = None) \/ (chart = None /\ err <> None))
    /\ (summary <> None <-> chart <> None).
Proof.
  destruct (pipeline_cases zip_buffer country tech zone kpi forecast_months)
    as [(p & sm & E) | (msg & E)]; rewrite E.
  - exists (Some p), (Some sm), None. split; [reflexivity|]. split.
    + left. split; [discriminate | reflexivity].
    + split; discriminate.
  - exists None, None, (Some msg). split; [reflexivity|]. split.
    + right. split; [reflexivity | discriminate].
    + split; intro H; now elim H.
Qed.

(** C9: whenever the Series extracted for the requested dimensions from the
    files of the archive has only 2 points, the Feature Builder leaves no
    usable row and the pipeline returns no chart, no summary and a message of
    the catch-all "Forecast failed" class (the training set is empty, so
    fitting or [ts.iloc[-1]] raises), not a forecast. *)
Theorem two_point_series_gives_error
        {C : Collaborators} (zip_buffer : list Byte.byte)
        (country tech zone kpi : str) (forecast_months : Z)
        (walked : list (str * str)) (series : Series) :
  unzip_walk zip_buffer = Ok walked ->
  series_extractor (concat (load_records (find_excel_files walked)))
                   country tech zone kpi = Ok (Extract series) ->
  length series = 2 ->
  feature_builder series = []
  /\ exists detail,
       run_forecast_pipeline zip_buffer country tech zone kpi forecast_months
       = (None, None, Some (lit "Forecast failed: " ++ detail)).
Proof.
  intros Hw Hex Hlen.
  assert (Hfb : feature_builder series = [])
    by (apply feature_builder_short; lia).
  split; [assumption|].
  assert (Hrec : load_records (find_excel_files walked) <> []).
  { intro Hnil. rewrite Hnil in Hex. discriminate Hex. }
  destruct (forecast_engine_empty forecast_months) as [e He].
  exists (exn_str e ++ nl ++ format_exc e).
  apply (pipeline_forwards_error zip_buffer country tech zone kpi forecast_months walked);
    try assumption.
  unfold forecast_kpi. rewrite Hex. cbn [bind]. rewrite Hfb, He. reflexivity.
Qed.

(** The archive of [Jan2024.xlsx] and [Feb2024.xlsx] with values 10 and 12
    for (France, 4G, ZoneA, Availability). *)
Lemma two_point_series_gives_error_witness :
  series_extractor (C := scenario)
    (concat (load_records (C := scenario)
               (find_excel_files
                  [(scenario_root, lit "upload.zip");
                   (scenario_root, lit "Jan2024.xlsx");
                   (scenario_root, lit "Feb2024.xlsx")])))
    (lit "France") (lit "4G") (lit "ZoneA") (lit "Availability")
  = Ok (Extract [(jan24, Some (Fin 10)); (feb24, Some (Fin 12))])
  /\ feature_builder [(jan24, Some (Fin 10)); (feb24, Some (Fin 12))] = []
  /\ exists detail,
       run_forecast_pipeline (C := scenario) []
         (lit "France") (lit "4G") (lit "ZoneA") (lit "Availability") 3
       = (None, None, Some (lit "Forecast failed: " ++ detail)).
Proof.
  split; [reflexivity|].
  apply (two_point_series_gives_error (C := scenario) []
           (lit "France") (lit "4G") (lit "ZoneA") (lit "Availability") 3
           [(scenario_root, lit "upload.zip");
            (scenario_root, lit "Jan2024.xlsx");
            (scenario_root, lit "Feb2024.xlsx")]
           [(jan24, Some (Fin 10)); (feb24, Some (Fin 12))]);
    reflexivity.
Defined.

(* ================================================================== *)
(** * Worked examples *)
(* ================================================================== *)

Example resolve_in_directory :
  extract_date_from_filename (lit "/tmp/x/Jan2024.xlsx") = Some (lit "2024-01-01").
Proof. reflexivity. Qed.

(** Only the last extension is split off the stem. *)
Example resolve_inner_dot :
  extract_date_from_filename (lit "kpi_report_dEC1999.v2.xls") = Some (lit "1999-12-01").
Proof. reflexivity. Qed.

(** A leading dot starts no extension, ... *)
Example resolve_dotfile :
  extract_date_from_filename (lit ".Jan2024") = Some (lit "2024-01-01").
Proof. reflexivity. Qed.

(** ... a later one does, and the extension is not searched; nor is the
    directory part. *)
Example resolve_not_in_extension :
  extract_date_from_filename (lit "report.Jan2024") = None
  /\ extract_date_from_filename (lit "Jan2024/report.xlsx") = None.
Proof. split; reflexivity. Qed.

Example resolve_five_digits :
  extract_date_from_filename (lit "Sep20245.xlsx") = Some (lit "2024-09-01").
Proof. reflexivity. Qed.

(** Spreadsheets are recognised by extension in any letter case; the archive
    itself is not one. *)
Example excel_files_of_five_months :
  find_excel_files
    [(scenario_root, lit "upload.zip"); (scenario_root, lit "kpi_May2024.XLS");
     (scenario_root, lit "notes.txt")]
  = [lit "/tmp/tmpk3/kpi_May2024.XLS"].
Proof. reflexivity. Qed.

(** Five monthly files: a chart payload with the two trainable points as the
    actual series, two forecast points for June and July, their summary
    lines, and no error. *)
Example pipeline_five_months :
  run_forecast_pipeline (C := five_months) []
    (lit "France") (lit "4G") (lit "ZoneA") (lit "Availability") 2
  = (Some ([(apr24, Fin 13); (mkTs 2024 5 1, Fin 15)],
           [(mkTs 2024 6 1, Fin 13); (mkTs 2024 7 1, Fin 13)]),
     Some (lit "2024-06-01: 0.00" ++ nl ++ lit "2024-07-01: 0.00"),
     None).
Proof. reflexivity. Qed.

(** A horizon of zero months leaves an empty forecast frame, whose column
    ['ds'] does not exist. *)
Example pipeline_zero_horizon :
  run_forecast_pipeline (C := five_months) []
    (lit "France") (lit "4G") (lit "ZoneA") (lit "Availability") 0
  = (None, None,
     Some (lit "Forecast failed: 'ds'" ++ nl
             ++ lit "Traceback (most recent call last): ...")).
Proof. reflexivity. Qed.

(** So does a negative one: [pd.date_range] gives no date for it. *)
Example pipeline_negative_horizon :
  run_forecast_pipeline (C := five_months) []
    (lit "France") (lit "4G") (lit "ZoneA") (lit "Availability") (-1)
  = (None, None,
     Some (lit "Forecast failed: 'ds'" ++ nl
             ++ lit "Traceback (most recent call last): ...")).
Proof. reflexivity. Qed.

(** Two headers that strip to the same label: the mask cannot be built. *)
Example pipeline_twin_headers :
  run_forecast_pipeline (C := twin_zone) []
    (lit "France") (lit "4G") (lit "ZoneA") (lit "Availability") 2
  = (None, None,
     Some (lit "Forecast failed: cannot reindex on an axis with duplicate labels"
             ++ nl)).
Proof. reflexivity. Qed.

(** A sheet with numbers for headers is skipped. *)
Example pipeline_numbered_headers :
  run_forecast_pipeline (C := numbered_headers) []
    (lit "France") (lit "4G") (lit "ZoneA") (lit "Availability") 2
  = (None, None, Some (lit "No valid data found in Excel files")).
Proof. reflexivity. Qed.

(** Dimension values are compared exactly. *)
Example pipeline_case_sensitive :
  run_forecast_pipeline (C := five_months) []
    (lit "france") (lit "4G") (lit "ZoneA") (lit "Availability") 2
  = (None, None, Some (lit "No data available for the selected inputs")).
Proof. reflexivity. Qed.

(* ================================================================== *)
(** * More on the Forecast Engine *)
(* ================================================================== *)

Section LoopFacts.
Context {C : Collaborators}.

(** The loop records the dates it is given, in order. *)
Lemma forecast_loop_dates (model : Model) (future_dates : list Timestamp) :
  forall prev_lags forecasts,
    forecast_loop model future_dates prev_lags = Ok forecasts ->
    map p_ds forecasts = future_dates.
Proof.
  induction future_dates as [|date rest IH]; intros prev_lags forecasts; cbn [forecast_loop].
  - now intros [= <-].
  - destruct (item prev_lags 0) as [l1|]; [|discriminate].
    destruct (item prev_lags 1) as [l2|]; [|discriminate].
    destruct (item prev_lags 2) as [l3|]; [|discriminate]. cbn [bind].
    destruct (xgb_predict model _) as [pred|]; [|discriminate]. cbn [bind].
    destruct (forecast_loop model rest (pred :: firstn 2 prev_lags)) as [fs|] eqn:E;
      [|discriminate].
    intros [= <-]. cbn [map p_ds]. now rewrite (IH _ _ E).
Qed.

(** X1: the autoregressive feedback of lines 66-78.  Started from the lag
    triple (a, b, c) = (lag1, lag2, lag3), the loop returns one point per
    future date, and the j-th prediction is the regressor's answer for the
    month and year of the j-th date and, as lag1, lag2, lag3, the three values
    that precede it in the sequence c, b, a, prediction 0, prediction 1, ...:
    each prediction becomes lag1 of the next step, lag2 of the one after and
    lag3 of the third. *)
Theorem forecast_loop_feeds_predictions_back
        (model : Model) (future_dates : list Timestamp) (a b c : Float)
        (forecasts : list ForecastPoint) :
  forecast_loop model future_dates [a; b; c] = Ok forecasts ->
  length forecasts = length future_dates
  /\ forall j p,
       nth_error forecasts j = Some p ->
       nth_error future_dates j = Some (p_ds p)
       /\ xgb_predict model
            (mkVec (ts_month (p_ds p)) (ts_year (p_ds p))
                   (nth (j + 2) (lag_history [a; b; c] forecasts) (Fin 0))
                   (nth (j + 1) (lag_history [a; b; c] forecasts) (Fin 0))
                   (nth j (lag_history [a; b; c] forecasts) (Fin 0)))
          = Ok (yhat p).
Proof.
  revert a b c forecasts.
  induction future_dates as [|date rest IH]; intros a b c forecasts;
    cbn [forecast_loop item nth_error bind].
  - intros [= <-]. split; [reflexivity|]. intros [|j] p; discriminate.
  - destruct (xgb_predict model (mkVec (ts_month date) (ts_year date) a b c))
      as [pred|] eqn:Hp; [|discriminate]. cbn [bind firstn].
    destruct (forecast_loop model rest [pred; a; b]) as [fs|] eqn:E; [|discriminate].
    intros [= <-]. destruct (IH pred a b fs E) as [Hlen Hrest]. split.
    + cbn [length]. now rewrite Hlen.
    + intros [|j] p; cbn [nth_error].
      * intros [= <-]. split; [reflexivity|]. exact Hp.
      * intro Hj. destruct (Hrest j p Hj) as [Hd Hx]. split; [assumption|].
        exact Hx.
Qed.

End LoopFacts.

(** Seeds 3, 2, 1 and a regressor that answers with lag1 plus lag3: the
    second prediction, 6, is made from lag1 = 4 (the first prediction),
    lag2 = 3 and lag3 = 2. *)
Lemma forecast_loop_feeds_predictions_back_witness :
  forecast_loop (C := additive) tt [mkTs 2024 5 1; mkTs 2024 6 1] [Fin 3; Fin 2; Fin 1]
  = Ok [mkPoint (mkTs 2024 5 1) (Fin 4); mkPoint (mkTs 2024 6 1) (Fin 6)]
  /\ xgb_predict (Collaborators := additive) tt
                  (mkVec 6 2024 (Fin 4) (Fin 3) (Fin 2)) = Ok (Fin 6).
Proof.
  split; [reflexivity|].
  exact (proj2 (proj2 (forecast_loop_feeds_predictions_back (C := additive) tt
                         [mkTs 2024 5 1; mkTs 2024 6 1] (Fin 3) (Fin 2) (Fin 1)
                         [mkPoint (mkTs 2024 5 1) (Fin 4); mkPoint (mkTs 2024 6 1) (Fin 6)]
                         eq_refl)
                      1 (mkPoint (mkTs 2024 6 1) (Fin 6)) eq_refl)).
Defined.

(* ------------------------------------------------------------------ *)

Lemma ts_lt_next_month_start (t : Timestamp) : ts_lt t (next_month_start t).
Proof.
  unfold next_month_start. destruct (Z.eqb_spec (ts_month t) 12); ts_order.
Qed.

Lemma month_starts_from_after (t u : Timestamp) (n : nat) :
  ts_lt t u -> Forall (ts_lt t) (month_starts_from u n).
Proof.
  revert u. induction n as [|n IH]; intros u Htu; cbn [month_starts_from];
    constructor; [assumption|].
  apply IH. exact (ts_ltb_trans t u _ Htu (ts_lt_next_month_start u)).
Qed.

Lemma month_starts_from_sorted (t : Timestamp) (n : nat) :
  StronglySorted ts_lt (month_starts_from t n).
Proof.
  revert t. induction n as [|n IH]; intro t; cbn [month_starts_from]; constructor.
  - apply IH.
  - apply month_starts_from_after, ts_lt_next_month_start.
Qed.

Lemma month_starts_from_first_day (t : Timestamp) (n : nat) :
  ts_day t = 1%Z -> Forall (fun d => ts_day d = 1%Z) (month_starts_from t n).
Proof.
  revert t. induction n as [|n IH]; intros t Ht; cbn [month_starts_from];
    constructor; [assumption|].
  apply IH. unfold next_month_start. now destruct (ts_month t =? 12)%Z.
Qed.

Lemma next_month_start_first_day (t : Timestamp) : ts_day (next_month_start t) = 1%Z.
Proof. unfold next_month_start. now destruct (ts_month t =? 12)%Z. Qed.

Lemma iloc_last_Ok {A} (l : list A) (x : A) : iloc_last l = Ok x -> l <> [].
Proof. destruct l; [discriminate|]. intros _. discriminate. Qed.

Section EngineFacts.
Context {C : Collaborators}.

(** What a successful run of the engine went through. *)
Lemma forecast_engine_Ok (ts : list FeatureRow) (N : Z) (forecasts : list ForecastPoint) :
  forecast_engine ts N = Ok forecasts ->
  exists model last_row dmax,
    xgb_fit (map features ts) (map f_y ts) = Ok model
    /\ iloc_last ts = Ok last_row
    /\ max_ds ts = Some dmax
    /\ forallb in_bounds (month_starts_from (next_month_start dmax) (Z.to_nat N)) = true
    /\ forecast_loop model (month_starts_from (next_month_start dmax) (Z.to_nat N))
                     (seed_lags last_row) = Ok forecasts.
Proof.
  unfold forecast_engine.
  destruct (xgb_fit (map features ts) (map f_y ts)) as [model|]; [|discriminate].
  cbn [bind]. destruct (iloc_last ts) as [last_row|]; [|discriminate]. cbn [bind].
  unfold forecast_start. destruct (max_ds ts) as [dmax|]; [|discriminate].
  unfold add_MonthBegin. destruct (in_bounds (next_month_start dmax)); [|discriminate].
  cbn [bind]. unfold date_range.
  unfold on_offset. rewrite next_month_start_first_day. cbn [Z.eqb Pos.eqb].
  destruct (forallb in_bounds _) eqn:Hb; [|discriminate]. cbn [bind].
  intro Hloop. exists model, last_row, dmax. repeat split; auto.
Qed.

Lemma forecast_engine_length (ts : list FeatureRow) (N : Z)
      (forecasts : list ForecastPoint) :
  forecast_engine ts N = Ok forecasts ->
  ts <> [] /\ length forecasts = Z.to_nat N.
Proof.
  intro H.
  destruct (forecast_engine_Ok ts N forecasts H)
    as (model & last_row & dmax & _ & Hlast & _ & _ & Hloop).
  apply forecast_loop_dates in Hloop. apply iloc_last_Ok in Hlast.
  split; [assumption|].
  rewrite <- (length_map p_ds), Hloop. apply length_month_starts_from.
Qed.

(** X2: whenever the engine returns, whatever the regressor and the dates
    of the training frame are, it returns exactly [forecast_months] points,
    and none when the horizon is zero or negative ([pd.date_range] then gives
    no date); their dates are first days of a month, each the month after the
    previous one, the first is the month after the latest date of the
    training frame, so they increase strictly and all come after every
    training date; and all are representable timestamps. *)
Theorem forecast_engine_returns_following_months
        (ts : list FeatureRow) (N : Z) (forecasts : list ForecastPoint) :
  forecast_engine ts N = Ok forecasts ->
  exists dmax,
    is_max_date dmax (map f_ds ts)
    /\ length forecasts = Z.to_nat N
    /\ ((N <= 0)%Z -> forecasts = [])
    /\ map p_ds forecasts = month_starts_from (next_month_start dmax) (Z.to_nat N)
    /\ StronglySorted ts_lt (dmax :: map p_ds forecasts)
    /\ Forall (fun p => ts_day (p_ds p) = 1%Z /\ in_bounds (p_ds p) = true) forecasts.
Proof.
  intro H.
  destruct (forecast_engine_Ok ts N forecasts H)
    as (model & last_row & dmax & _ & Hlast & Hmax & Hb & Hloop).
  apply forecast_loop_dates in Hloop.
  assert (Hlen : length forecasts = Z.to_nat N).
  { rewrite <- (length_map p_ds), Hloop. apply length_month_starts_from. }
  exists dmax. split; [|split; [assumption|split; [|split; [assumption|split]]]].
  - destruct ts as [|r ts]; [discriminate|]. injection Hmax as <-.
    apply fold_ts_max_spec.
  - intro HN. apply length_zero_iff_nil. rewrite Hlen. lia.
  - rewrite Hloop. constructor; [apply month_starts_from_sorted|].
    apply month_starts_from_after, ts_lt_next_month_start.
  - apply Forall_forall. intros p Hp.
    assert (Hin : In (p_ds p) (month_starts_from (next_month_start dmax) (Z.to_nat N)))
      by (rewrite <- Hloop; now apply in_map).
    split.
    + pose proof (month_starts_from_first_day (next_month_start dmax) (Z.to_nat N)
                    (next_month_start_first_day dmax)) as Hd.
      rewrite Forall_forall in Hd. now apply Hd.
    + rewrite forallb_forall in Hb. now apply Hb.
Qed.

(** X3: [forecast_kpi] returns a figure only when the horizon is positive
    and the extracted Series has at least four dates; it then comes with a
    summary and no error message.  (A horizon of zero or less leaves an empty
    forecast frame, whose column ['ds'] line 84 then fails to find, and fewer
    than four dates leave no row with all three lags.) *)
Theorem chart_needs_four_dates_and_positive_horizon
        (df : DataFrame) (country tech zone kpi : str) (forecast_months : Z)
        (fig : Fig) (summary err : option str) :
  forecast_kpi df country tech zone kpi forecast_months = (Some fig, summary, err) ->
  (1 <= forecast_months)%Z
  /\ err = None
  /\ (exists text, summary = Some text)
  /\ exists series,
       series_extractor df country tech zone kpi = Ok (Extract series)
       /\ 4 <= length series.
Proof.
  unfold forecast_kpi.
  destruct (series_extractor df country tech zone kpi) as [[msg|series]|e];
    cbn [bind handle]; try discriminate.
  destruct (forecast_engine (feature_builder series) forecast_months)
    as [forecasts|e] eqn:He; cbn [bind handle]; [|discriminate].
  destruct (package (feature_builder series) forecasts country tech zone kpi)
    as [packed|e] eqn:Hp; cbn [bind handle]; [|discriminate].
  intros [= _ <- <-].
  destruct (forecast_engine_length _ _ _ He) as (Hlast & Hlen).
  assert (Hfs : forecasts <> []).
  { intros ->. unfold package in Hp. discriminate. }
  split; [|split; [reflexivity|split; [now eexists|]]].
  - destruct forecasts; [contradiction|]. cbn [length] in Hlen. lia.
  - exists series. split; [reflexivity|].
    destruct (Nat.le_gt_cases 4 (length series)) as [|Hs]; [assumption|].
    elim Hlast. apply feature_builder_short. lia.
Qed.

End EngineFacts.

(** Four months to April 2024, horizon 2: May and June follow. *)
Lemma forecast_engine_returns_following_months_witness :
  exists dmax,
    is_max_date dmax [apr24]
    /\ map p_ds [mkPoint (mkTs 2024 5 1) (Fin 30); mkPoint (mkTs 2024 6 1) (Fin 30)]
       = month_starts_from (next_month_start dmax) 2.
Proof.
  destruct (forecast_engine_returns_following_months (C := scenario)
              (feature_builder
                 (known [(jan24, Fin 10); (feb24, Fin 20); (mar24, Fin 30); (apr24, Fin 40)]))
              2 [mkPoint (mkTs 2024 5 1) (Fin 30); mkPoint (mkTs 2024 6 1) (Fin 30)] eq_refl)
    as (dmax & Hmax & _ & _ & Hdates & _).
  exists dmax. split; assumption.
Defined.

(** Five monthly rows, horizon 2: a figure, and indeed five dates. *)
Lemma chart_needs_four_dates_and_positive_horizon_witness :
  (1 <= 2)%Z
  /\ @None str = None
  /\ (exists text, Some (lit "2024-06-01: 0.00" ++ nl ++ lit "2024-07-01: 0.00")
                   = Some text)
  /\ exists series,
       series_extractor (C := scenario) df_five (lit "France") (lit "4G")
                        (lit "ZoneA") (lit "Availability") = Ok (Extract series)
       /\ 4 <= length series.
Proof.
  exact (chart_needs_four_dates_and_positive_horizon (C := scenario)
           df_five (lit "France") (lit "4G") (lit "ZoneA") (lit "Availability") 2
           ([(apr24, Fin 13); (mkTs 2024 5 1, Fin 15)],
            [(mkTs 2024 6 1, Fin 13); (mkTs 2024 7 1, Fin 13)])
           (Some (lit "2024-06-01: 0.00" ++ nl ++ lit "2024-07-01: 0.00")) None
           eq_refl).
Defined.

(** The points of the training frame are the Series without its first three
    points. *)
Lemma actual_trace_known (dvs : list (Timestamp * Float)) :
  map (fun r => (f_ds r, f_y r)) (feature_builder (known dvs)) = skipn 3 dvs.
Proof.
  rewrite feature_builder_known, map_map. cbn [feature_at f_ds f_y].
  apply (nth_ext _ _ ((fun i => (date_at dvs i, value_at dvs i)) 0) (mkTs 0 0 0, Fin 0)).
  - now rewrite length_map, length_seq, length_skipn.
  - intros n Hn. rewrite length_map, length_seq in Hn.
    rewrite (map_nth (fun i => (date_at dvs i, value_at dvs i))), seq_nth, nth_skipn
      by assumption.
    unfold date_at, value_at. now destruct (nth (3 + n) dvs (mkTs 0 0 0, Fin 0)).
Qed.

(** X4: what the chart and the summary are made of.  When [forecast_kpi]
    succeeds on a Series without missing values, the figure is the one plotly
    builds from, as "Actual" trace, the Series WITHOUT its first three points
    (line 83 plots [ts] after [dropna]) and, as "Forecast" trace, the points
    of the engine; the summary is one line per forecast point, joined by
    newlines. *)
Theorem chart_plots_series_without_first_three
        {C : Collaborators} (df : DataFrame) (country tech zone kpi : str)
        (forecast_months : Z) (dvs : list (Timestamp * Float))
        (fig : Fig) (summary : str) :
  series_extractor df country tech zone kpi = Ok (Extract (known dvs)) ->
  forecast_kpi df country tech zone kpi forecast_months
  = (Some fig, Some summary, None) ->
  exists forecasts,
    forecast_engine (feature_builder (known dvs)) forecast_months = Ok forecasts
    /\ go_figure (skipn 3 dvs) (map (fun p => (p_ds p, yhat p)) forecasts)
                 kpi zone tech country = Ok fig
    /\ summary = join nl (map summary_line forecasts).
Proof.
  intros Hex. unfold forecast_kpi. rewrite Hex. cbn [bind handle].
  destruct (forecast_engine (feature_builder (known dvs)) forecast_months)
    as [forecasts|e]; cbn [bind handle]; [|discriminate].
  unfold package. destruct forecasts as [|p forecasts]; [discriminate|].
  rewrite actual_trace_known.
  destruct (go_figure (skipn 3 dvs) _ kpi zone tech country) as [f|e] eqn:Hf;
    cbn [bind handle fst snd]; [|discriminate].
  intros [= <- <-]. exists (p :: forecasts). repeat split. exact Hf.
Qed.

(** Five monthly values 10, 12, 11, 13, 15: the chart starts at April. *)
Lemma chart_plots_series_without_first_three_witness :
  exists forecasts,
    forecast_engine (C := scenario)
      (feature_builder
         (known [(jan24, Fin 10); (feb24, Fin 12); (mar24, Fin 11); (apr24, Fin 13);
                 (mkTs 2024 5 1, Fin 15)])) 2 = Ok forecasts
    /\ go_figure (Collaborators := scenario)
         [(apr24, Fin 13); (mkTs 2024 5 1, Fin 15)]
         (map (fun p => (p_ds p, yhat p)) forecasts)
         (lit "Availability") (lit "ZoneA") (lit "4G") (lit "France")
       = Ok ([(apr24, Fin 13); (mkTs 2024 5 1, Fin 15)],
             [(mkTs 2024 6 1, Fin 13); (mkTs 2024 7 1, Fin 13)])
    /\ lit "2024-06-01: 0.00" ++ nl ++ lit "2024-07-01: 0.00"
       = join nl (map (summary_line (C := scenario)) forecasts).
Proof.
  exact (chart_plots_series_without_first_three (C := scenario)
           df_five (lit "France") (lit "4G") (lit "ZoneA") (lit "Availability") 2
           [(jan24, Fin 10); (feb24, Fin 12); (mar24, Fin 11); (apr24, Fin 13);
            (mkTs 2024 5 1, Fin 15)]
           ([(apr24, Fin 13); (mkTs 2024 5 1, Fin 15)],
            [(mkTs 2024 6 1, Fin 13); (mkTs 2024 7 1, Fin 13)])
           (lit "2024-06-01: 0.00" ++ nl ++ lit "2024-07-01: 0.00")
           eq_refl eq_refl).
Defined.

(* ================================================================== *)
(** * More on the Series Extractor and the Feature Builder *)
(* ================================================================== *)

(** X5: in a dataset where none of the four dimension labels heads more
    than one column, a missing dimension column never gets as far as the
    no-data or missing-value-column returns: indexing raises [KeyError], and
    [forecast_kpi] returns the catch-all message carrying the quoted name of
    the first missing column in the order Country, Technology, Zone, KPI;
    with all four present the filter does not fail and keeps the rows whose
    four cells equal the requested strings. *)
Theorem missing_dimension_column_is_reported
        {C : Collaborators} (df : DataFrame) (country tech zone kpi : str)
        (forecast_months : Z) :
  (forall c, In c dimension_columns -> duplicated df c = false) ->
  match find (fun c => negb (has_column df c)) dimension_columns with
  | Some col =>
      forecast_kpi df country tech zone kpi forecast_months
      = (None, None,
         Some (lit "Forecast failed: '" ++ col ++ lit "'" ++ nl
                 ++ format_exc (KeyError col)))
  | None =>
      select_dims df country tech zone kpi
      = Ok (filter (matches country tech zone kpi) (rows df))
  end.
Proof.
  intro Hd.
  assert (D1 : duplicated df (lit "Country") = false) by (apply Hd; now left).
  assert (D2 : duplicated df (lit "Technology") = false)
    by (apply Hd; right; now left).
  assert (D3 : duplicated df (lit "Zone") = false)
    by (apply Hd; do 2 right; now left).
  assert (D4 : duplicated df (lit "KPI") = false)
    by (apply Hd; do 3 right; now left).
  unfold dimension_columns. cbn [find].
  destruct (has_column df (lit "Country")) eqn:H1; cbn [negb].
  2:{ unfold forecast_kpi, series_extractor, select_dims.
      rewrite (getitem_absent df _ H1). reflexivity. }
  destruct (has_column df (lit "Technology")) eqn:H2; cbn [negb].
  2:{ unfold forecast_kpi, series_extractor, select_dims.
      rewrite (getitem_single df _ H1 D1), (getitem_absent df _ H2). reflexivity. }
  destruct (has_column df (lit "Zone")) eqn:H3; cbn [negb].
  2:{ unfold forecast_kpi, series_extractor, select_dims.
      rewrite (getitem_single df _ H1 D1), (getitem_single df _ H2 D2),
        (getitem_absent df _ H3). reflexivity. }
  destruct (has_column df (lit "KPI")) eqn:H4; cbn [negb].
  2:{ unfold forecast_kpi, series_extractor, select_dims.
      rewrite (getitem_single df _ H1 D1), (getitem_single df _ H2 D2),
        (getitem_single df _ H3 D3), (getitem_absent df _ H4). reflexivity. }
  now apply select_dims_present.
Qed.

(** Five monthly rows: without the column Zone the message names it; with
    the four columns every row is kept. *)
Lemma missing_dimension_column_is_reported_witness :
  forecast_kpi (C := scenario) df_without_zone
               (lit "France") (lit "4G") (lit "ZoneA") (lit "Availability") 2
  = (None, None,
     Some (lit "Forecast failed: 'Zone'" ++ nl
             ++ lit "Traceback (most recent call last): ..."))
  /\ select_dims df_five (lit "France") (lit "4G") (lit "ZoneA") (lit "Availability")
     = Ok (rows df_five).
Proof.
  split.
  - apply (missing_dimension_column_is_reported (C := scenario) df_without_zone
             (lit "France") (lit "4G") (lit "ZoneA") (lit "Availability") 2).
    intros c [<- | [<- | [<- | [<- | []]]]]; reflexivity.
  - apply (missing_dimension_column_is_reported (C := scenario) df_five
             (lit "France") (lit "4G") (lit "ZoneA") (lit "Availability") 2).
    intros c [<- | [<- | [<- | [<- | []]]]]; reflexivity.
Defined.

(** With two columns labelled Zone the mask cannot be built. *)
Example duplicated_zone_is_refused :
  forecast_kpi (C := scenario) df_zone_twice
               (lit "France") (lit "4G") (lit "ZoneA") (lit "Availability") 2
  = (None, None,
     Some (lit "Forecast failed: cannot reindex on an axis with duplicate labels"
             ++ nl ++ lit "Traceback (most recent call last): ...")).
Proof. reflexivity. Qed.

Lemma existsb_same_elements (d : Timestamp) (l l' : list Timestamp) :
  (forall x, In x l <-> In x l') ->
  existsb (ts_eqb d) l = existsb (ts_eqb d) l'.
Proof.
  intro H. destruct (existsb (ts_eqb d) l') eqn:E.
  - apply existsb_exists in E as (x & Hx & Hd). apply existsb_exists.
    exists x. split; [now apply H | assumption].
  - destruct (existsb (ts_eqb d) l) eqn:E'; [|reflexivity].
    apply existsb_exists in E' as (x & Hx & Hd).
    assert (E2 : existsb (ts_eqb d) l' = true)
      by (apply existsb_exists; exists x; split; [now apply H | assumption]).
    congruence.
Qed.

Lemma insert_key_length (d : Timestamp) (ks : list Timestamp) :
  StronglySorted ts_lt ks ->
  length (insert_key d ks)
  = if existsb (ts_eqb d) ks then length ks else S (length ks).
Proof.
  induction 1 as [|k ks Hs IH Hk]; [reflexivity|]. cbn [insert_key existsb].
  destruct (ts_ltb d k) eqn:Hlt.
  - assert (Hne : ts_eqb d k = false).
    { destruct (ts_eqb d k) eqn:E; [|reflexivity].
      apply ts_eqb_eq in E. subst. now rewrite ts_ltb_irrefl in Hlt. }
    assert (Hno : existsb (ts_eqb d) ks = false).
    { destruct (existsb (ts_eqb d) ks) eqn:E; [|reflexivity].
      apply existsb_exists in E as (x & Hx & Hd). apply ts_eqb_eq in Hd. subst x.
      rewrite Forall_forall in Hk. specialize (Hk d Hx).
      unfold ts_lt in Hk. now rewrite (ts_ltb_asym _ _ Hlt) in Hk. }
    now rewrite Hne, Hno.
  - destruct (ts_eqb d k) eqn:Heq; [reflexivity|]. cbn [orb length].
    rewrite IH. now destruct (existsb (ts_eqb d) ks).
Qed.

Lemma group_keys_length (ds : list Timestamp) :
  length (group_keys ds) = distinct_dates ds.
Proof.
  induction ds as [|d ds IH]; [reflexivity|]. cbn [group_keys fold_right distinct_dates].
  fold (group_keys ds). rewrite insert_key_length by apply group_keys_sorted.
  rewrite (existsb_same_elements d (group_keys ds) ds)
    by (intro x; apply group_keys_In).
  now rewrite IH.
Qed.

(** X6: the Series has as many points as there are distinct dates among the
    rows that match the dimension filter, whatever their number and order;
    and a date carried by a single row whose value cell is a number keeps
    that number unchanged (averaging only touches duplicated dates). *)
Theorem series_length_and_unique_dates
        {C : Collaborators} (df : DataFrame) (country tech zone kpi : str)
        (ts : Series) :
  series_extractor df country tech zone kpi = Ok (Extract ts) ->
  let filtered := filter (matches country tech zone kpi) (rows df) in
  length ts = distinct_dates (map Date filtered)
  /\ forall d v r q,
       In (d, v) ts ->
       filter (fun x => ts_eqb (Date x) d) filtered = [r] ->
       cell value_col r = CNum q ->
       v = Some (Fin q).
Proof.
  intros H filtered. apply series_extractor_Extract in H. fold filtered in H. split.
  - rewrite H, length_map. apply group_keys_length.
  - intros d v r q Hin Hone Hq. rewrite H in Hin.
    apply in_map_iff in Hin as (d' & [= <- <-] & _).
    unfold entries. rewrite Hone. cbn [map]. rewrite Hq. reflexivity.
Qed.

(** Four rows on three dates; February has a single row. *)
Lemma series_length_and_unique_dates_witness :
  length [(jan24, Some (Fin 4)); (feb24, @None Float); (mar24, Some (Fin 8))] = 3
  /\ forall v, In (jan24, v) [(jan24, Some (Fin 4)); (feb24, None);
                              (mar24, Some (Fin 8))] ->
               v = Some (Fin 4).
Proof.
  pose proof (series_length_and_unique_dates (C := scenario)
                df_mixed (lit "France") (lit "4G") (lit "ZoneA") (lit "Availability")
                [(jan24, Some (Fin 4)); (feb24, None); (mar24, Some (Fin 8))] eq_refl)
    as [Hlen Hval].
  split; [exact Hlen|].
  intros v Hv. exact (Hval jan24 v (kpi_row jan24 (CNum 4)) 4%Q Hv eq_refl eq_refl).
Defined.

Lemma dropna_In (l : list TsRow) (r : FeatureRow) :
  In r (dropna l) <-> exists x, In x l /\ complete x = Some r.
Proof.
  induction l as [|x l IH]; cbn [dropna].
  - split; [contradiction | now intros (x & [] & _)].
  - destruct (complete x) as [f|] eqn:E; cbn [In]; rewrite IH; split.
    + intros [<- | (z & Hz & Hc)]; [now exists x; auto | exists z; auto].
    + intros (z & [<- | Hz] & Hc); [left; congruence | right; now exists z].
    + intros (z & Hz & Hc). exists z; auto.
    + intros (z & [<- | Hz] & Hc); [congruence | now exists z].
Qed.

Lemma nth_Some_nth_error (l : list (option Float)) (i : nat) (q : Float) :
  nth i l None = Some q <-> nth_error l i = Some (Some q).
Proof.
  split; intro H.
  - destruct (Nat.lt_ge_cases i (length l)) as [Hi|Hi].
    + rewrite (nth_error_nth' l None Hi). now rewrite H.
    + rewrite nth_overflow in H by assumption. discriminate.
  - now apply nth_error_nth.
Qed.

(** X7: which rows survive [dropna] when the Series has missing values.  A
    FeatureRow is produced exactly for the positions [i >= 3] whose own value
    and three preceding values are all present; its month and year are those
    of its date ([create_features]) and its lags are the values at [i-1],
    [i-2], [i-3].  So one missing value removes up to four rows: its own and
    the three that would use it as a lag. *)
Theorem feature_rows_need_four_known_values (ts : Series) (r : FeatureRow) :
  In r (feature_builder ts)
  <-> exists i d v l1 l2 l3,
        3 <= i
        /\ nth_error ts i = Some (d, Some v)
        /\ nth_error (map snd ts) (i - 1) = Some (Some l1)
        /\ nth_error (map snd ts) (i - 2) = Some (Some l2)
        /\ nth_error (map snd ts) (i - 3) = Some (Some l3)
        /\ r = mkFeatureRow d v (ts_month d) (ts_year d) l1 l2 l3.
Proof.
  rewrite feature_builder_tail, dropna_In. split.
  - intros (x & Hx & Hc). apply in_map_iff in Hx as (i & <- & Hi).
    apply in_seq in Hi. unfold complete, row_at in Hc.
    cbn [y y_lag_1 y_lag_2 y_lag_3 ds month year] in Hc.
    unfold lag_at in Hc.
    assert (H1 : (i <? 1) = false) by (apply Nat.ltb_ge; lia).
    assert (H2 : (i <? 2) = false) by (apply Nat.ltb_ge; lia).
    assert (H3 : (i <? 3) = false) by (apply Nat.ltb_ge; lia).
    rewrite H1, H2, H3 in Hc.
    assert (Hn : nth_error ts i = Some (nth i ts (mkTs 0 0 0, None)))
      by (apply nth_error_nth'; lia).
    destruct (nth i ts (mkTs 0 0 0, None)) as [d [v|]]; cbn [fst snd] in Hc;
      [|discriminate].
    destruct (nth (i - 1) (map snd ts) None) as [l1|] eqn:E1; [|discriminate].
    destruct (nth (i - 2) (map snd ts) None) as [l2|] eqn:E2; [|discriminate].
    destruct (nth (i - 3) (map snd ts) None) as [l3|] eqn:E3; [|discriminate].
    injection Hc as <-. exists i, d, v, l1, l2, l3.
    rewrite <- !nth_Some_nth_error. repeat split; auto; lia.
  - intros (i & d & v & l1 & l2 & l3 & Hi & Hn & E1 & E2 & E3 & ->).
    assert (Hlt : i < length ts) by (apply nth_error_Some; congruence).
    exists (row_at ts i). split.
    + apply in_map, in_seq. lia.
    + unfold complete, row_at. cbn [y y_lag_1 y_lag_2 y_lag_3 ds month year].
      rewrite (nth_error_nth ts i (mkTs 0 0 0, None) Hn). cbn [fst snd].
      unfold lag_at.
      assert (H1 : (i <? 1) = false) by (apply Nat.ltb_ge; lia).
      assert (H2 : (i <? 2) = false) by (apply Nat.ltb_ge; lia).
      assert (H3 : (i <? 3) = false) by (apply Nat.ltb_ge; lia).
      rewrite H1, H2, H3.
      apply nth_Some_nth_error in E1, E2, E3. now rewrite E1, E2, E3.
Qed.

(** Six months with February missing: only the row of June has all of its
    four values. *)
Lemma feature_rows_need_four_known_values_witness :
  feature_builder
    [(jan24, Some (Fin 1)); (feb24, None); (mar24, Some (Fin 3));
     (apr24, Some (Fin 4)); (mkTs 2024 5 1, Some (Fin 5));
     (mkTs 2024 6 1, Some (Fin 6))]
  = [mkFeatureRow (mkTs 2024 6 1) (Fin 6) 6 2024 (Fin 5) (Fin 4) (Fin 3)]
  /\ In (mkFeatureRow (mkTs 2024 6 1) (Fin 6) 6 2024 (Fin 5) (Fin 4) (Fin 3))
        (feature_builder
           [(jan24, Some (Fin 1)); (feb24, None); (mar24, Some (Fin 3));
            (apr24, Some (Fin 4)); (mkTs 2024 5 1, Some (Fin 5));
            (mkTs 2024 6 1, Some (Fin 6))]).
Proof.
  split; [reflexivity|].
  apply (proj2 (feature_rows_need_four_known_values _ _)).
  exists 5, (mkTs 2024 6 1), (Fin 6), (Fin 5), (Fin 4), (Fin 3). repeat split. lia.
Defined.

(* ================================================================== *)
(** * More on the Filename Date Resolver *)
(* ================================================================== *)

Lemma rfind_after (c : ascii) (a b : str) :
  free_of c b -> rfind c (a ++ c :: b) = Some (length a).
Proof. intro H. apply rfind_last. now apply rfind_absent. Qed.

Lemma basename_after_slash (a b : str) :
  free_of "/" b -> basename (a ++ "/"%char :: b) = b.
Proof.
  intro H. unfold basename. rewrite (rfind_after _ a b H).
  change (a ++ "/"%char :: b) with (a ++ ["/"%char] ++ b).
  rewrite app_assoc.
  replace (S (length a)) with (length (a ++ ["/"%char]))
    by (rewrite length_app; cbn; lia).
  rewrite skipn_app, skipn_all, Nat.sub_diag. reflexivity.
Qed.

Lemma endswith_split (p suffix : str) :
  endswith p suffix = true -> exists pre, p = pre ++ suffix.
Proof.
  unfold endswith. intro H. apply andb_prop in H as [_ H]. apply str_eqb_eq in H.
  set (n := length p - length suffix) in H.
  exists (firstn n p). rewrite <- H. symmetry. apply firstn_skipn.
Qed.

Lemma path_join_relative (root : str) (c : ascii) (fn : str) :
  Ascii.eqb c "/" = false ->
  path_join root (c :: fn)
  = match root with
    | [] => c :: fn
    | _ :: _ => if endswith root (lit "/") then root ++ c :: fn
                else root ++ lit "/" ++ c :: fn
    end.
Proof.
  intro Hc. unfold path_join.
  destruct c as [[] [] [] [] [] [] [] []]; try reflexivity. discriminate Hc.
Qed.

(** [os.path.basename] undoes [os.path.join] on a bare file name. *)
Lemma basename_path_join (root fn : str) :
  free_of "/" fn -> basename (path_join root fn) = fn.
Proof.
  intro H. destruct fn as [|c fn].
  - unfold path_join. destruct root as [|r root]; [reflexivity|].
    destruct (endswith (r :: root) (lit "/")) eqn:E.
    + destruct (endswith_split _ _ E) as [pre Hpre]. rewrite app_nil_r, Hpre.
      now apply (basename_after_slash pre []).
    + now apply (basename_after_slash (r :: root) []).
  - assert (Hc : Ascii.eqb c "/" = false).
    { unfold free_of in H. cbn [forallb] in H. apply andb_prop in H as [Hc _].
      now destruct (Ascii.eqb c "/"). }
    rewrite (path_join_relative root c fn Hc). destruct root as [|r root].
    + unfold basename. now rewrite (rfind_absent _ _ H).
    + destruct (endswith (r :: root) (lit "/")) eqn:E.
      * destruct (endswith_split _ _ E) as [pre Hpre]. rewrite Hpre, <- app_assoc.
        now apply basename_after_slash.
      * now apply basename_after_slash.
Qed.

(** X8: the date of a file does not depend on where it was extracted: for a
    bare file name [fn] (no slash, as [os.walk] lists them) and any directory
    [root], the path [os.path.join(root, fn)] has the base name [fn], which is
    what the row's [source_file] records, and resolves to the same date as
    [fn] itself, even when [root] contains a month and year. *)
Theorem resolver_ignores_directory (root fn : str) :
  free_of "/" fn ->
  basename (path_join root fn) = fn
  /\ extract_date_from_filename (path_join root fn) = extract_date_from_filename fn.
Proof.
  intro H. pose proof (basename_path_join root fn H) as Hb. split; [assumption|].
  unfold extract_date_from_filename. rewrite Hb.
  unfold basename. now rewrite (rfind_absent _ _ H).
Qed.

(** An upload directory named after another month. *)
Lemma resolver_ignores_directory_witness :
  basename (path_join (lit "/tmp/Dec1999/") (lit "kpi_Mar2024.xlsx"))
  = lit "kpi_Mar2024.xlsx"
  /\ extract_date_from_filename (path_join (lit "/tmp/Dec1999/") (lit "kpi_Mar2024.xlsx"))
     = extract_date_from_filename (lit "kpi_Mar2024.xlsx").
Proof.
  apply (resolver_ignores_directory (lit "/tmp/Dec1999/") (lit "kpi_Mar2024.xlsx")).
  reflexivity.
Defined.

(* ------------------------------------------------------------------ *)

Lemma lower_lower (c : ascii) : lower (lower c) = lower c.
Proof. each_char c; reflexivity. Qed.

Lemma is_digit_lower (c : ascii) : is_digit (lower c) = is_digit c.
Proof. each_char c; reflexivity. Qed.

Lemma lower_digit (c : ascii) : is_digit c = true -> lower c = c.
Proof. each_char c; intros; congruence. Qed.

Lemma lower_eqb_slash (c : ascii) : Ascii.eqb (lower c) "/" = Ascii.eqb c "/".
Proof. each_char c; reflexivity. Qed.

Lemma lower_eqb_dot (c : ascii) : Ascii.eqb (lower c) "." = Ascii.eqb c ".".
Proof. each_char c; reflexivity. Qed.

Lemma rfind_map_lower (c : ascii) (p : str) :
  (forall x, Ascii.eqb (lower x) c = Ascii.eqb x c) ->
  rfind c (map lower p) = rfind c p.
Proof.
  intro Hc. induction p as [|x p IH]; [reflexivity|].
  cbn [map rfind]. now rewrite IH, Hc.
Qed.

Lemma basename_map_lower (p : str) : basename (map lower p) = map lower (basename p).
Proof.
  unfold basename. rewrite (rfind_map_lower _ _ lower_eqb_slash).
  destruct (rfind "/" p); [apply skipn_map | reflexivity].
Qed.

Lemma existsb_not_dot_lower (p : str) :
  existsb (fun c => negb (Ascii.eqb c ".")) (map lower p)
  = existsb (fun c => negb (Ascii.eqb c ".")) p.
Proof.
  induction p as [|x p IH]; [reflexivity|]. cbn [map existsb].
  now rewrite IH, lower_eqb_dot.
Qed.

Lemma stem_map_lower (p : str) : stem (map lower p) = map lower (stem p).
Proof.
  unfold stem. rewrite basename_map_lower. generalize (basename p) as q. intro q.
  unfold splitext.
  rewrite (rfind_map_lower _ _ lower_eqb_slash), (rfind_map_lower _ _ lower_eqb_dot).
  destruct (rfind "." q) as [dot|]; [|reflexivity].
  destruct (_ <=? dot); [|reflexivity].
  rewrite skipn_map, firstn_map, existsb_not_dot_lower.
  destruct (existsb _ _); [apply firstn_map | reflexivity].
Qed.

Lemma match_at_map_lower (p : str) :
  match_at (map lower p)
  = option_map (fun my => (map lower (fst my), snd my)) (match_at p).
Proof.
  destruct p as [|a [|b [|c [|d1 [|d2 [|d3 [|d4 rest]]]]]]]; try reflexivity.
  cbn [map match_at]. rewrite !is_alpha_lower, !is_digit_lower.
  destruct (is_alpha a), (is_alpha b), (is_alpha c); try reflexivity.
  destruct (is_digit d1) eqn:H1; [|reflexivity].
  destruct (is_digit d2) eqn:H2; [|reflexivity].
  destruct (is_digit d3) eqn:H3; [|reflexivity].
  destruct (is_digit d4) eqn:H4; [|reflexivity].
  cbn [andb option_map fst snd map].
  now rewrite (lower_digit d1 H1), (lower_digit d2 H2), (lower_digit d3 H3),
    (lower_digit d4 H4).
Qed.

Lemma regex_search_map_lower (p : str) :
  regex_search (map lower p)
  = option_map (fun my => (map lower (fst my), snd my)) (regex_search p).
Proof.
  induction p as [|x p IH]; [reflexivity|].
  destruct (match_at (x :: p)) as [r|] eqn:E.
  - rewrite (regex_search_head _ _ E).
    apply regex_search_head. now rewrite match_at_map_lower, E.
  - rewrite (regex_search_step _ _ E). cbn [map].
    rewrite regex_search_step; [exact IH|].
    change (lower x :: map lower p) with (map lower (x :: p)).
    now rewrite match_at_map_lower, E.
Qed.

Lemma month_number_map_lower (m : str) : month_number (map lower m) = month_number m.
Proof.
  unfold month_number. generalize 1. generalize (tl month_abbr) as abbrs.
  induction abbrs as [|a abbrs IH]; intro i; [reflexivity|]. cbn [find_month].
  assert (E : eq_ci (map lower m) a = eq_ci m a).
  { unfold eq_ci. rewrite map_map. f_equal. apply map_ext. apply lower_lower. }
  rewrite E. destruct (eq_ci m a); [reflexivity | apply IH].
Qed.

(** X9: the letter case of a file name does not matter to the resolver:
    lower-casing the whole name (path, stem and extension) leaves the
    resolved date, or its absence, unchanged. *)
Theorem resolver_is_case_insensitive (filename : str) :
  extract_date_from_filename (map lower filename)
  = extract_date_from_filename filename.
Proof.
  destruct (regex_search (stem filename)) as [[m y]|] eqn:E.
  - rewrite (resolve_after_search filename m y E).
    rewrite (resolve_after_search (map lower filename) (map lower m) y).
    + now rewrite month_number_map_lower.
    + now rewrite stem_map_lower, regex_search_map_lower, E.
  - rewrite (resolve_no_match filename E). apply resolve_no_match.
    now rewrite stem_map_lower, regex_search_map_lower, E.
Qed.

(* ------------------------------------------------------------------ *)

Lemma find_month_range (m : str) (abbrs : list str) (k i : nat) :
  find_month m k abbrs = Some i -> k <= i < k + length abbrs.
Proof.
  revert k. induction abbrs as [|a abbrs IH]; intro k; cbn [find_month length].
  - discriminate.
  - destruct (eq_ci m a); [intros [= <-]; lia|].
    intro H. apply IH in H. lia.
Qed.

Lemma month_number_range (m : str) (i : nat) : month_number m = Some i -> 1 <= i <= 12.
Proof.
  intro H. apply find_month_range in H. cbn [length tl month_abbr map] in H. lia.
Qed.

(** The shape of a resolved date string and the date it denotes. *)
Lemma resolved_date_parses (filename date_str : str) :
  extract_date_from_filename filename = Some date_str ->
  exists (y : str) (i : nat),
    length y = 4 /\ forallb is_digit y = true
    /\ 1 <= i <= 12
    /\ date_str = y ++ lit "-" ++ fmt_02d i ++ lit "-01"
    /\ parse_iso_date date_str = Some (mkTs (number y) (Z.of_nat i) 1)
    /\ month_start (mkTs (number y) (Z.of_nat i) 1).
Proof.
  intro H.
  destruct (regex_search (stem filename)) as [[m y]|] eqn:E;
    [|rewrite (resolve_no_match filename E) in H; discriminate].
  rewrite (resolve_after_search filename m y E) in H.
  destruct (month_number m) as [i|] eqn:Hm; [|discriminate].
  injection H as <-.
  destruct (regex_search_Some _ _ E) as [k Hk].
  destruct (match_at_Some _ _ _ Hk) as (rest & _ & _ & Hly & _ & Hdy).
  pose proof (month_number_range m i Hm) as Hi.
  exists y, i. split; [assumption|]. split; [assumption|]. split; [assumption|].
  split; [reflexivity|].
  destruct y as [|d1 [|d2 [|d3 [|d4 [|? ?]]]]]; try discriminate.
  cbn [forallb] in Hdy.
  apply andb_prop in Hdy as [H1 Hdy]. apply andb_prop in Hdy as [H2 Hdy].
  apply andb_prop in Hdy as [H3 Hdy]. apply andb_prop in Hdy as [H4 _].
  assert (Hi' : i = 1 \/ i = 2 \/ i = 3 \/ i = 4 \/ i = 5 \/ i = 6 \/ i = 7
                \/ i = 8 \/ i = 9 \/ i = 10 \/ i = 11 \/ i = 12) by lia.
  unfold month_start_string, month_start. cbn [ts_month ts_day].
  split; [|lia].
  repeat (destruct Hi' as [-> | Hi']); [.. | subst i];
    cbn [app lit list_ascii_of_string fmt_02d parse_iso_date forallb];
    rewrite H1, H2, H3, H4; reflexivity.
Qed.

(** X10: whatever the file name, a date string the resolver returns is
    four digits copied from the name, a two-digit month between 01 and 12 and
    the day 01, separated by hyphens; read as a date it is the first day of
    that month of that year.  So every date a file is tagged with is a
    calendar-month start. *)
Theorem resolved_date_is_a_month_start (filename date_str : str) :
  extract_date_from_filename filename = Some date_str ->
  exists (y : str) (i : nat),
    length y = 4 /\ forallb is_digit y = true
    /\ 1 <= i <= 12
    /\ date_str = y ++ lit "-" ++ fmt_02d i ++ lit "-01"
    /\ parse_iso_date date_str = Some (mkTs (number y) (Z.of_nat i) 1)
    /\ month_start (mkTs (number y) (Z.of_nat i) 1).
Proof. exact (resolved_date_parses filename date_str). Qed.

(** [q3_report_oCt2023.final.xlsx] resolves to the first of October 2023. *)
Lemma resolved_date_is_a_month_start_witness :
  exists (y : str) (i : nat),
    length y = 4 /\ forallb is_digit y = true
    /\ 1 <= i <= 12
    /\ lit "2023-10-01" = y ++ lit "-" ++ fmt_02d i ++ lit "-01"
    /\ parse_iso_date (lit "2023-10-01") = Some (mkTs (number y) (Z.of_nat i) 1)
    /\ month_start (mkTs (number y) (Z.of_nat i) 1).
Proof.
  exact (resolved_date_is_a_month_start (lit "q3_report_oCt2023.final.xlsx")
                                        (lit "2023-10-01") eq_refl).
Defined.

(* ================================================================== *)
(** * Dates as text *)
(* ================================================================== *)

Lemma digit_char_digit (k : nat) :
  k < 10 -> is_digit (digit_char k) = true /\ digit_val (digit_char k) = Z.of_nat k.
Proof.
  intro H. do 10 (destruct k as [|k]; [split; reflexivity|]). lia.
Qed.

Lemma number_two_digits (n : nat) :
  n < 100 -> number (fmt_02d n) = Z.of_nat n.
Proof.
  intro H. unfold fmt_02d, number. cbn [fold_left].
  destruct (digit_char_digit (n / 10)) as [_ Ha];
    [apply Nat.Div0.div_lt_upper_bound; lia|].
  destruct (digit_char_digit (n mod 10)) as [_ Hb];
    [apply Nat.mod_upper_bound; lia|].
  rewrite Ha, Hb. pose proof (Nat.div_mod_eq n 10). lia.
Qed.

Lemma number_four_digits (n : nat) :
  n < 10 * 1000 -> number (fmt_04d n) = Z.of_nat n.
Proof.
  intro H. unfold fmt_04d, number. cbn [fold_left].
  destruct (digit_char_digit (n / 1000)) as [_ Ha];
    [apply Nat.Div0.div_lt_upper_bound; lia|].
  destruct (digit_char_digit ((n / 100) mod 10)) as [_ Hb];
    [apply Nat.mod_upper_bound; lia|].
  destruct (digit_char_digit ((n / 10) mod 10)) as [_ Hc];
    [apply Nat.mod_upper_bound; lia|].
  destruct (digit_char_digit (n mod 10)) as [_ Hd];
    [apply Nat.mod_upper_bound; lia|].
  rewrite Ha, Hb, Hc, Hd.
  pose proof (Nat.div_mod_eq n 10). pose proof (Nat.div_mod_eq (n / 10) 10).
  pose proof (Nat.div_mod_eq (n / 100) 10).
  assert (n / 10 / 10 = n / 100) by (rewrite Nat.Div0.div_div; reflexivity).
  assert (n / 100 / 10 = n / 1000) by (rewrite Nat.Div0.div_div; reflexivity).
  lia.
Qed.

Lemma fmt_02d_digits (n : nat) : n < 100 -> forallb is_digit (fmt_02d n) = true.
Proof.
  intro H. unfold fmt_02d. cbn [forallb].
  destruct (digit_char_digit (n / 10)) as [Ha _];
    [apply Nat.Div0.div_lt_upper_bound; lia|].
  destruct (digit_char_digit (n mod 10)) as [Hb _];
    [apply Nat.mod_upper_bound; lia|].
  now rewrite Ha, Hb.
Qed.

Lemma fmt_04d_digits (n : nat) : n < 10 * 1000 -> forallb is_digit (fmt_04d n) = true.
Proof.
  intro H. unfold fmt_04d. cbn [forallb].
  destruct (digit_char_digit (n / 1000)) as [Ha _];
    [apply Nat.Div0.div_lt_upper_bound; lia|].
  destruct (digit_char_digit ((n / 100) mod 10)) as [Hb _];
    [apply Nat.mod_upper_bound; lia|].
  destruct (digit_char_digit ((n / 10) mod 10)) as [Hc _];
    [apply Nat.mod_upper_bound; lia|].
  destruct (digit_char_digit (n mod 10)) as [Hd _];
    [apply Nat.mod_upper_bound; lia|].
  now rewrite Ha, Hb, Hc, Hd.
Qed.

(** X11: the date text of a summary line reads back as the forecast date:
    for a date whose year has at most four digits, [format_date] gives ten
    characters YYYY-MM-DD, zero-padded, and parsing them returns the date; so
    two forecast points with different dates never print the same date. *)
Theorem summary_date_reads_back (t : Timestamp) :
  printable_date t ->
  length (format_date t) = 10
  /\ parse_iso_date (format_date t) = Some t.
Proof.
  intros (Hy & Hm & Hd). split; [reflexivity|].
  destruct t as [yr mo dy]. cbn [ts_year ts_month ts_day] in *.
  unfold format_date. cbn [ts_year ts_month ts_day].
  pose proof (number_four_digits (Z.to_nat yr) ltac:(lia)) as Ny.
  pose proof (number_two_digits (Z.to_nat mo) ltac:(lia)) as Nm.
  pose proof (number_two_digits (Z.to_nat dy) ltac:(lia)) as Nd.
  pose proof (fmt_04d_digits (Z.to_nat yr) ltac:(lia)) as Dy.
  pose proof (fmt_02d_digits (Z.to_nat mo) ltac:(lia)) as Dm.
  pose proof (fmt_02d_digits (Z.to_nat dy) ltac:(lia)) as Dd.
  unfold fmt_04d, fmt_02d in *.
  cbn [app lit list_ascii_of_string parse_iso_date].
  cbn [forallb] in Dy, Dm, Dd |- *.
  repeat match goal with
         | H : (_ && _)%bool = true |- _ => apply andb_prop in H as [? ?]
         end.
  repeat match goal with
         | H : is_digit _ = true |- _ => rewrite H; clear H
         end.
  cbn [andb]. rewrite Ny, Nm, Nd. f_equal. f_equal; lia.
Qed.

Lemma summary_date_reads_back_witness :
  length (format_date (mkTs 987 3 1)) = 10
  /\ parse_iso_date (format_date (mkTs 987 3 1)) = Some (mkTs 987 3 1).
Proof.
  apply (summary_date_reads_back (mkTs 987 3 1)).
  unfold printable_date. cbn. lia.
Defined.

(* ================================================================== *)
(** * More on the Record Aggregator and the pipeline *)
(* ================================================================== *)

Lemma set_column_has (cols : list str) (c : str) :
  existsb (str_eqb c) (set_column cols c) = true.
Proof.
  unfold set_column. destruct (existsb (str_eqb c) cols) eqn:E; [assumption|].
  rewrite existsb_app. cbn [existsb]. rewrite (proj2 (str_eqb_eq c c) eq_refl).
  now rewrite orb_true_r.
Qed.

Lemma set_column_keeps (cols : list str) (c x : str) :
  existsb (str_eqb x) cols = true -> existsb (str_eqb x) (set_column cols c) = true.
Proof.
  intro H. unfold set_column. destruct (existsb (str_eqb c) cols); [assumption|].
  now rewrite existsb_app, H.
Qed.

Lemma stripped_header_present (c : str) (header : list Header) :
  In (HText c) header -> In (strip c) (present (map str_strip header)).
Proof.
  induction header as [|h hs IH]; [contradiction|].
  intros [-> | H]; cbn [map str_strip present]; [now left|].
  destruct h; cbn [str_strip present]; [right|]; now apply IH.
Qed.

Section AggregatorFacts.
Context {C : Collaborators}.

Lemma to_datetime_Ok (date_str : str) (date : Timestamp) :
  to_datetime date_str = Ok date ->
  parse_iso_date date_str = Some date /\ in_bounds date = true.
Proof.
  unfold to_datetime. destruct (parse_iso_date date_str) as [t|]; [|discriminate].
  destruct (in_bounds t) eqn:E; [|discriminate]. now intros [= <-].
Qed.

(** What [load_file] did when it accepts a file. *)
Lemma load_file_Some (path : str) (df : DataFrame) :
  load_file path = Ok (Some df) ->
  exists raw date_str date,
    read_excel path = Ok raw
    /\ str_accessor (raw_columns raw) = true
    /\ extract_date_from_filename path = Some date_str
    /\ to_datetime date_str = Ok date
    /\ month_start date /\ in_bounds date = true
    /\ has_column df (lit "Date") = true
    /\ has_column df (lit "source_file") = true
    /\ (forall c, In (HText c) (raw_columns raw) -> has_column df (strip c) = true)
    /\ length (rows df) = length (raw_rows raw)
    /\ forall r, In r (rows df) ->
         Date r = date /\ cell (lit "source_file") r = CStr (basename path).
Proof.
  unfold load_file. destruct (read_excel path) as [raw|]; [|discriminate].
  cbn [bind]. unfold strip_columns.
  destruct (str_accessor (raw_columns raw)) eqn:Hacc; [|discriminate]. cbn [bind].
  destruct (extract_date_from_filename path) as [date_str|] eqn:Hx; [|discriminate].
  destruct (truthy date_str); [|discriminate].
  destruct (to_datetime date_str) as [date|] eqn:Ht; [|discriminate]. cbn [bind].
  intros [= <-]. exists raw, date_str, date.
  destruct (to_datetime_Ok _ _ Ht) as [Hparse Hb].
  destruct (resolved_date_parses path date_str Hx)
    as (y & i & _ & _ & _ & _ & Hp & Hms).
  rewrite Hp in Hparse. injection Hparse as <-.
  do 6 (split; [first [reflexivity | assumption]|]).
  split; [unfold has_column; cbn [columns];
          apply set_column_keeps, set_column_has|].
  split; [unfold has_column; cbn [columns]; apply set_column_has|].
  split; [|split].
  - intros c Hc. unfold has_column. cbn [columns].
    do 2 apply set_column_keeps. apply existsb_exists. exists (strip c).
    split; [now apply stripped_header_present | now apply str_eqb_eq].
  - cbn [rows]. apply length_map.
  - intros r Hr. cbn [rows] in Hr. apply in_map_iff in Hr as (x & <- & _).
    split; reflexivity.
Qed.

(** A file is left out of the records exactly for one of the four
    reasons. *)
Lemma contributes_false (path : str) :
  contributes path = false <-> left_out path.
Proof.
  unfold contributes, load_file, strip_columns. split.
  - destruct (read_excel path) as [raw|e] eqn:Hr; cbn [bind];
      [|intros _; now apply (does_not_decode path e)].
    destruct (str_accessor (raw_columns raw)) eqn:Hacc; cbn [bind];
      [|intros _; now apply (header_refused path raw)].
    destruct (extract_date_from_filename path) as [date_str|] eqn:Hx;
      [|intros _; now apply no_date_in_name].
    destruct (resolved_date_parses path date_str Hx)
      as (y & i & _ & _ & _ & _ & Hp & _).
    assert (Ht : truthy date_str = true)
      by (destruct date_str; [discriminate Hp | reflexivity]).
    rewrite Ht. intro H. apply (date_out_of_range path date_str Hx).
    unfold to_datetime in *. rewrite Hp in *.
    now destruct (in_bounds _).
  - intros [e Hr | raw Hr Hacc | Hx | date_str Hx Ht].
    + now rewrite Hr.
    + rewrite Hr. cbn [bind]. now rewrite Hacc.
    + destruct (read_excel path) as [raw|e]; cbn [bind]; [|reflexivity].
      destruct (str_accessor (raw_columns raw)); cbn [bind]; [|reflexivity].
      now rewrite Hx.
    + destruct (read_excel path) as [raw|e]; cbn [bind]; [|reflexivity].
      destruct (str_accessor (raw_columns raw)); cbn [bind]; [|reflexivity].
      rewrite Hx, Ht. now destruct (truthy date_str).
Qed.

(** X12: what a spreadsheet contributes to the unified dataset.  When
    [load_file] accepts a file, the file decoded, its header row was accepted
    by the string accessor, its name resolved to a date and that date is a
    representable calendar-month start; the frame has the columns Date and
    source_file and every textual header of the sheet stripped of surrounding
    whitespace; it has one row per row of the sheet, and every row carries
    that one date and, as source_file, the base name of the path. *)
Theorem loaded_file_is_tagged (path : str) (df : DataFrame) :
  load_file path = Ok (Some df) ->
  exists raw date_str date,
    read_excel path = Ok raw
    /\ str_accessor (raw_columns raw) = true
    /\ extract_date_from_filename path = Some date_str
    /\ to_datetime date_str = Ok date
    /\ month_start date /\ in_bounds date = true
    /\ has_column df (lit "Date") = true
    /\ has_column df (lit "source_file") = true
    /\ (forall c, In (HText c) (raw_columns raw) -> has_column df (strip c) = true)
    /\ length (rows df) = length (raw_rows raw)
    /\ forall r, In r (rows df) ->
         Date r = date /\ cell (lit "source_file") r = CStr (basename path).
Proof. exact (load_file_Some path df). Qed.

Lemma load_records_In (excel_files : list str) (df : DataFrame) :
  In df (load_records excel_files) ->
  exists path, In path excel_files /\ load_file path = Ok (Some df).
Proof.
  induction excel_files as [|p ps IH]; cbn [load_records]; [contradiction|].
  destruct (load_file p) as [[d|]|e] eqn:E.
  - intros [<- | H]; [exists p; split; [now left | assumption]|].
    destruct (IH H) as (q & Hq & Hl). exists q. split; [now right | assumption].
  - intro H. destruct (IH H) as (q & Hq & Hl). exists q. split; [now right | assumption].
  - intro H. destruct (IH H) as (q & Hq & Hl). exists q. split; [now right | assumption].
Qed.

Lemma load_records_nil (excel_files : list str) :
  load_records excel_files = []
  <-> forall p, In p excel_files -> contributes p = false.
Proof.
  unfold contributes. induction excel_files as [|p ps IH]; cbn [load_records].
  - split; [intros _ q [] | reflexivity].
  - destruct (load_file p) as [[d|]|e] eqn:E.
    + split; [discriminate|]. intro H. specialize (H p (or_introl eq_refl)).
      rewrite E in H. discriminate.
    + rewrite IH. split.
      * intros H q [<- | Hq]; [now rewrite E | now apply H].
      * intros H q Hq. apply H. now right.
    + rewrite IH. split.
      * intros H q [<- | Hq]; [now rewrite E | now apply H].
      * intros H q Hq. apply H. now right.
Qed.

(** X13: every date of a Series extracted from the unified dataset of any
    list of files is a representable calendar-month start, and belongs to a
    file that [load_file] accepted. *)
Theorem series_dates_are_month_starts
        (excel_files : list str) (country tech zone kpi : str) (ts : Series) :
  series_extractor (concat (load_records excel_files)) country tech zone kpi
  = Ok (Extract ts) ->
  forall d v, In (d, v) ts ->
    month_start d /\ in_bounds d = true
    /\ exists path date_str,
         In path excel_files
         /\ extract_date_from_filename path = Some date_str
         /\ to_datetime date_str = Ok d.
Proof.
  intros H d v Hin.
  apply series_extractor_Extract in H. rewrite H in Hin.
  apply in_map_iff in Hin as (d' & [= <- _] & Hd).
  apply (proj1 (group_keys_In _ _)) in Hd. apply in_map_iff in Hd as (r & <- & Hr).
  apply filter_In in Hr as [Hr _]. cbn [concat rows] in Hr.
  apply in_flat_map in Hr as (df & Hdf & Hr).
  destruct (load_records_In _ _ Hdf) as (path & Hpath & Hload).
  destruct (load_file_Some path df Hload)
    as (raw & date_str & date & _ & _ & Hx & Ht & Hms & Hb & _ & _ & _ & _ & Hrows).
  destruct (Hrows r Hr) as [-> _].
  split; [assumption|]. split; [assumption|]. now exists path, date_str.
Qed.

End AggregatorFacts.

(** [Jan2024.xlsx] of the scenario: one row, dated 2024-01-01. *)
Lemma loaded_file_is_tagged_witness :
  exists raw date_str date,
    read_excel (Collaborators := scenario) (lit "/tmp/tmpk3/Jan2024.xlsx") = Ok raw
    /\ str_accessor (Collaborators := scenario) (raw_columns raw) = true
    /\ extract_date_from_filename (lit "/tmp/tmpk3/Jan2024.xlsx") = Some date_str
    /\ to_datetime (C := scenario) date_str = Ok date
    /\ month_start date /\ in_bounds (Collaborators := scenario) date = true
    /\ has_column jan_frame (lit "Date") = true
    /\ has_column jan_frame (lit "source_file") = true
    /\ (forall c, In (HText c) (raw_columns raw) ->
                  has_column jan_frame (strip c) = true)
    /\ length (rows jan_frame) = length (raw_rows raw)
    /\ forall r, In r (rows jan_frame) ->
         Date r = date
         /\ cell (lit "source_file") r = CStr (basename (lit "/tmp/tmpk3/Jan2024.xlsx")).
Proof.
  exact (loaded_file_is_tagged (C := scenario) (lit "/tmp/tmpk3/Jan2024.xlsx")
                               jan_frame eq_refl).
Defined.

(** The two dates of the scenario. *)
Lemma series_dates_are_month_starts_witness :
  month_start feb24 /\ in_bounds (Collaborators := scenario) feb24 = true
  /\ exists path date_str,
       In path [lit "/tmp/tmpk3/Jan2024.xlsx"; lit "/tmp/tmpk3/Feb2024.xlsx"]
       /\ extract_date_from_filename path = Some date_str
       /\ to_datetime (C := scenario) date_str = Ok feb24.
Proof.
  apply (series_dates_are_month_starts (C := scenario)
           [lit "/tmp/tmpk3/Jan2024.xlsx"; lit "/tmp/tmpk3/Feb2024.xlsx"]
           (lit "France") (lit "4G") (lit "ZoneA") (lit "Availability")
           [(jan24, Some (Fin 10)); (feb24, Some (Fin 12))] eq_refl feb24
           (Some (Fin 12))).
  right. now left.
Defined.

Section Messages.
Context {C : Collaborators}.
Variables (zip_buffer : list Byte.byte) (country tech zone kpi : str)
          (forecast_months : Z).

(** Every return of the pipeline, with the stage it comes from. *)
Lemma pipeline_stages :
  (exists e,
      unzip_walk zip_buffer = Raise e
      /\ run_forecast_pipeline zip_buffer country tech zone kpi forecast_months
         = (None, None, Some (pipeline_error ++ exn_str e ++ nl ++ format_exc e)))
  \/ (exists walked,
         unzip_walk zip_buffer = Ok walked
         /\ ((find_excel_files walked = []
              /\ run_forecast_pipeline zip_buffer country tech zone kpi forecast_months
                 = (None, None, Some msg_no_excel))
             \/ (find_excel_files walked <> []
                 /\ load_records (find_excel_files walked) = []
                 /\ run_forecast_pipeline zip_buffer country tech zone kpi
                                          forecast_months
                    = (None, None, Some msg_no_valid_data))
             \/ (load_records (find_excel_files walked) <> []
                 /\ ((exists msg,
                         forecast_kpi (concat (load_records (find_excel_files walked)))
                                      country tech zone kpi forecast_months
                         = (None, None, Some msg)
                         /\ run_forecast_pipeline zip_buffer country tech zone kpi
                                                  forecast_months
                            = (None, None, Some msg))
                     \/ (exists fig summary,
                            forecast_kpi (concat (load_records (find_excel_files walked)))
                                         country tech zone kpi forecast_months
                            = (Some fig, Some summary, None)
                            /\ run_forecast_pipeline zip_buffer country tech zone kpi
                                                     forecast_months
                               = match fig_to_json fig with
                                 | Ok plot_json => (Some plot_json, Some summary, None)
                                 | Raise e =>
                                     (None, None,
                                      Some (pipeline_error ++ exn_str e ++ nl
                                              ++ format_exc e))
                                 end))))).
Proof.
  unfold run_forecast_pipeline.
  destruct (unzip_walk zip_buffer) as [walked|e]; cbn [bind handle].
  2:{ left. now exists e. }
  right. exists walked. split; [reflexivity|].
  destruct (find_excel_files walked) as [|p ps] eqn:Hfiles; [left; now split|].
  right.
  destruct (load_records (p :: ps)) as [|r rs] eqn:Hrec.
  { left. split; [discriminate|]. now split. }
  right. split; [discriminate|].
  destruct (forecast_kpi_cases (concat (r :: rs)) country tech zone kpi forecast_months)
    as [(f & sm & E) | (msg & E & _)].
  - right. exists f, sm. split; [assumption|]. rewrite E. cbn [is_err bind].
    now destruct (fig_to_json f).
  - left. exists msg. split; [assumption|]. rewrite E. cbn [is_err].
    now rewrite (forecast_kpi_error_truthy _ _ _ _ _ _ _ E).
Qed.

(** X14: the two messages of the file stage identify it.  The pipeline
    answers "No Excel files found in ZIP archive" exactly when the archive
    unpacks and holds no file whose name ends in .xlsx or .xls (in any letter
    case), and "No valid data found in Excel files" exactly when it holds
    such files but every one of them is left out: it fails to decode, or the
    string accessor of line 123 refuses its header row (as it does a row of
    numbers or of dates), or it has no date in its name, or the date is out
    of the range of timestamps. *)
Theorem file_stage_messages :
  (run_forecast_pipeline zip_buffer country tech zone kpi forecast_months
   = (None, None, Some (lit "No Excel files found in ZIP archive"))
   <-> exists walked,
         unzip_walk zip_buffer = Ok walked /\ find_excel_files walked = [])
  /\
  (run_forecast_pipeline zip_buffer country tech zone kpi forecast_months
   = (None, None, Some (lit "No valid data found in Excel files"))
   <-> exists walked,
         unzip_walk zip_buffer = Ok walked
         /\ find_excel_files walked <> []
         /\ forall p, In p (find_excel_files walked) -> left_out p).
Proof.
  destruct pipeline_stages
    as [(e & Hw & Hr)
       | (walked & Hw & [[Hf Hr] | [(Hf & Hl & Hr) | (Hl & [(msg & Hk & Hr)
                                                           | (f & sm & Hk & Hr)])]])];
    rewrite Hr; clear Hr.
  - split; (split; [discriminate|]); intros (w & Hw' & _); congruence.
  - split; split.
    + intros _. now exists walked.
    + reflexivity.
    + discriminate.
    + intros (w & Hw' & Hne & _). congruence.
  - split; split.
    + discriminate.
    + intros (w & Hw' & Hnil). congruence.
    + intros _. exists walked. split; [assumption|]. split; [assumption|].
      intros p Hp. apply contributes_false. revert p Hp. now apply load_records_nil.
    + reflexivity.
  - assert (Hfiles : find_excel_files walked <> [])
      by (intro E; rewrite E in Hl; now apply Hl).
    assert (Hsome : ~ forall p, In p (find_excel_files walked) -> left_out p).
    { intro H. apply Hl, load_records_nil. intros p Hp.
      now apply contributes_false, H. }
    destruct (forecast_kpi_cases (concat (load_records (find_excel_files walked)))
                country tech zone kpi forecast_months)
      as [(f' & sm' & E) | (msg' & E & [[-> _] | [[-> _] | [detail ->]]])];
      rewrite E in Hk; try discriminate; injection Hk as <-.
    + split; split; try discriminate.
      * intros (w & Hw' & Hnil). congruence.
      * intros (w & Hw' & _ & Hall). assert (w = walked) by congruence. now subst.
    + split; split; try discriminate.
      * intros (w & Hw' & Hnil). congruence.
      * intros (w & Hw' & _ & Hall). assert (w = walked) by congruence. now subst.
    + split; split; try discriminate.
      * intros (w & Hw' & Hnil). congruence.
      * intros (w & Hw' & _ & Hall). assert (w = walked) by congruence. now subst.
  - assert (Hfiles : find_excel_files walked <> [])
      by (intro E; rewrite E in Hl; now apply Hl).
    assert (Hsome : ~ forall p, In p (find_excel_files walked) -> left_out p).
    { intro H. apply Hl, load_records_nil. intros p Hp.
      now apply contributes_false, H. }
    destruct (fig_to_json f); split; split; try discriminate.
    + intros (w & Hw' & Hnil). congruence.
    + intros (w & Hw' & _ & Hall). assert (w = walked) by congruence. now subst.
    + intros (w & Hw' & Hnil). congruence.
    + intros (w & Hw' & _ & Hall). assert (w = walked) by congruence. now subst.
Qed.

(** X15: the pipeline has six kinds of error message and no other: the two
    of the file stage, the two early returns of [forecast_kpi], and the texts
    of the two handlers, which start with "Forecast failed: " and
    "Pipeline error: " and carry the exception's text. *)
Theorem pipeline_error_messages (chart : option Payload) (summary : option str)
        (msg : str) :
  run_forecast_pipeline zip_buffer country tech zone kpi forecast_months
  = (chart, summary, Some msg) ->
  chart = None /\ summary = None
  /\ (msg = lit "No Excel files found in ZIP archive"
      \/ msg = lit "No valid data found in Excel files"
      \/ msg = lit "No data available for the selected inputs"
      \/ msg = lit "Expected column 'Actual Value MAPS Networks' not found"
      \/ (exists detail, msg = lit "Forecast failed: " ++ detail)
      \/ (exists detail, msg = lit "Pipeline error: " ++ detail)).
Proof.
  destruct pipeline_stages
    as [(e & Hw & Hr)
       | (walked & Hw & [[Hf Hr] | [(Hf & Hl & Hr) | (Hl & [(m & Hk & Hr)
                                                           | (f & sm & Hk & Hr)])]])];
    rewrite Hr; clear Hr.
  - intros [= <- <- <-]. do 2 (split; [reflexivity|]). do 5 right. eexists. reflexivity.
  - intros [= <- <- <-]. do 2 (split; [reflexivity|]). now left.
  - intros [= <- <- <-]. do 2 (split; [reflexivity|]). right. now left.
  - intros [= <- <- <-]. do 2 (split; [reflexivity|]).
    destruct (forecast_kpi_cases (concat (load_records (find_excel_files walked)))
                country tech zone kpi forecast_months)
      as [(f' & sm' & E) | (msg' & E & [[-> _] | [[-> _] | [detail ->]]])];
      rewrite E in Hk; try discriminate; injection Hk as <-.
    + do 2 right. now left.
    + do 3 right. now left.
    + do 4 right. left. now exists detail.
  - destruct (fig_to_json f); [discriminate|].
    intros [= <- <- <-]. do 2 (split; [reflexivity|]). do 5 right. eexists. reflexivity.
Qed.

End Messages.

(** An archive with only [readme.txt], one with only [report.xlsx], and one
    whose [Jan2024.xlsx] has numbers for headers. *)
Lemma file_stage_messages_witness :
  run_forecast_pipeline (C := no_sheets) []
    (lit "France") (lit "4G") (lit "ZoneA") (lit "Availability") 3
  = (None, None, Some (lit "No Excel files found in ZIP archive"))
  /\ run_forecast_pipeline (C := undated) []
       (lit "France") (lit "4G") (lit "ZoneA") (lit "Availability") 3
     = (None, None, Some (lit "No valid data found in Excel files"))
  /\ run_forecast_pipeline (C := numbered_headers) []
       (lit "France") (lit "4G") (lit "ZoneA") (lit "Availability") 3
     = (None, None, Some (lit "No valid data found in Excel files")).
Proof.
  split; [|split].
  - apply (proj2 (proj1 (file_stage_messages (C := no_sheets) []
                           (lit "France") (lit "4G") (lit "ZoneA") (lit "Availability") 3))).
    eexists. split; reflexivity.
  - apply (proj2 (proj2 (file_stage_messages (C := undated) []
                           (lit "France") (lit "4G") (lit "ZoneA") (lit "Availability") 3))).
    eexists. split; [reflexivity|]. split; [discriminate|].
    intros p [<- | []]. now apply no_date_in_name.
  - apply (proj2 (proj2 (file_stage_messages (C := numbered_headers) []
                           (lit "France") (lit "4G") (lit "ZoneA") (lit "Availability") 3))).
    eexists. split; [reflexivity|]. split; [discriminate|].
    intros p [<- | []].
    now apply (header_refused (C := numbered_headers) _
                 (mkRaw [HOther; HOther] [[CNum 1; CNum 2]])).
Defined.

(** The scenario of two files ends in the forecast handler. *)
Lemma pipeline_error_messages_witness :
  exists detail,
    lit "Forecast failed: single positional indexer is out-of-bounds" ++ nl
      ++ lit "Traceback (most recent call last): ..."
    = lit "Forecast failed: " ++ detail.
Proof.
  destruct (pipeline_error_messages (C := scenario) []
              (lit "France") (lit "4G") (lit "ZoneA") (lit "Availability") 3
              None None
              (lit "Forecast failed: single positional indexer is out-of-bounds" ++ nl
                 ++ lit "Traceback (most recent call last): ...")
              eq_refl)
    as (_ & _ & [H | [H | [H | [H | [H | [d H]]]]]]); try discriminate H.
  exact H.
Defined.

(* ================================================================== *)
(** * Column names and the union of the files *)
(* ================================================================== *)

Lemma lstrip_split (p : str) :
  exists a, p = a ++ lstrip p /\ forallb is_space a = true.
Proof.
  induction p as [|c p (a & Hp & Ha)]; [now exists []|]. cbn [lstrip].
  destruct (is_space c) eqn:E.
  - exists (c :: a). cbn [app forallb]. rewrite E, Ha. split; [now f_equal | reflexivity].
  - now exists [].
Qed.

Lemma lstrip_head (p : str) (c : ascii) :
  hd_error (lstrip p) = Some c -> is_space c = false.
Proof.
  induction p as [|x p IH]; cbn [lstrip]; [discriminate|].
  destruct (is_space x) eqn:E; [assumption|]. now intros [= <-].
Qed.

Lemma lstrip_fixed (p : str) :
  (forall c, hd_error p = Some c -> is_space c = false) -> lstrip p = p.
Proof.
  destruct p as [|x p]; [reflexivity|]. intro H. cbn [lstrip].
  now rewrite (H x eq_refl).
Qed.

Lemma forallb_rev (f : ascii -> bool) (l : str) :
  forallb f l = true -> forallb f (rev l) = true.
Proof.
  rewrite !forallb_forall. intros H x Hx. apply H. now apply in_rev.
Qed.

(** X16: [str.strip] on a column name removes exactly the whitespace around
    it: the name is some whitespace, the stripped name, some whitespace; the
    stripped name neither starts nor ends with a whitespace character; and
    stripping again changes nothing. *)
Theorem strip_removes_outer_whitespace (p : str) :
  (exists a b,
      p = a ++ strip p ++ b
      /\ forallb is_space a = true /\ forallb is_space b = true)
  /\ (forall c, hd_error (strip p) = Some c -> is_space c = false)
  /\ (forall c, hd_error (rev (strip p)) = Some c -> is_space c = false)
  /\ strip (strip p) = strip p.
Proof.
  unfold strip.
  destruct (lstrip_split p) as (a & Hp & Ha).
  destruct (lstrip_split (rev (lstrip p))) as (b & Hq & Hb).
  set (r := lstrip (rev (lstrip p))) in *.
  assert (Hq' : lstrip p = rev r ++ rev b).
  { rewrite <- (rev_involutive (lstrip p)), Hq. apply rev_app_distr. }
  assert (Hlast : forall c, hd_error r = Some c -> is_space c = false)
    by (intro c; apply lstrip_head).
  assert (Hfirst : forall c, hd_error (rev r) = Some c -> is_space c = false).
  { intros c Hc. apply (lstrip_head p). rewrite Hq'.
    destruct (rev r); [discriminate | exact Hc]. }
  split; [|split; [|split]].
  - exists a, (rev b). split; [|split; [assumption | now apply forallb_rev]].
    now rewrite <- Hq'.
  - exact Hfirst.
  - rewrite rev_involutive. exact Hlast.
  - rewrite (lstrip_fixed (rev r) Hfirst), rev_involutive.
    now rewrite (lstrip_fixed r Hlast).
Qed.

(** A header with a tab in front and two spaces behind. *)
Lemma strip_removes_outer_whitespace_witness :
  strip (ascii_of_nat 9 :: lit "Actual Value MAPS Networks  ") = value_col
  /\ strip (strip (ascii_of_nat 9 :: lit "Actual Value MAPS Networks  "))
     = strip (ascii_of_nat 9 :: lit "Actual Value MAPS Networks  ").
Proof.
  split; [reflexivity|].
  exact (proj2 (proj2 (proj2 (strip_removes_outer_whitespace
                                (ascii_of_nat 9 :: lit "Actual Value MAPS Networks  "))))).
Defined.

Lemma set_column_existsb (cols : list str) (x c : str) :
  existsb (str_eqb c) (set_column cols x) = existsb (str_eqb c) cols || str_eqb c x.
Proof.
  unfold set_column. destruct (existsb (str_eqb x) cols) eqn:E.
  - destruct (str_eqb c x) eqn:Ec; [|now rewrite orb_false_r].
    apply str_eqb_eq in Ec. subst. now rewrite E.
  - rewrite existsb_app. cbn [existsb]. now rewrite orb_false_r.
Qed.

Lemma union_columns_existsb (a b : list str) (c : str) :
  existsb (str_eqb c) (union_columns a b)
  = existsb (str_eqb c) a || existsb (str_eqb c) b.
Proof.
  unfold union_columns. rewrite existsb_app.
  destruct (existsb (str_eqb c) a) eqn:Ea; [reflexivity|]. cbn [orb].
  induction b as [|x b IH]; [reflexivity|]. cbn [filter existsb].
  destruct (existsb (str_eqb x) a) eqn:Ex; cbn [negb existsb]; rewrite IH.
  - destruct (str_eqb c x) eqn:Ec; [|reflexivity].
    apply str_eqb_eq in Ec. subst. congruence.
  - reflexivity.
Qed.

Lemma fold_union_existsb (cs : list (list str)) (acc : list str) (c : str) :
  existsb (str_eqb c) (fold_left union_columns cs acc)
  = existsb (str_eqb c) acc || existsb (fun cols => existsb (str_eqb c) cols) cs.
Proof.
  revert acc. induction cs as [|x cs IH]; intro acc; cbn [fold_left existsb].
  - now rewrite orb_false_r.
  - rewrite IH, union_columns_existsb. now rewrite orb_assoc.
Qed.

(** The missing-column return is taken only without the column. *)
Lemma missing_column_return_inv
      {C : Collaborators} (df : DataFrame) (country tech zone kpi : str)
      (forecast_months : Z) (fig : option Fig) (summary : option str) :
  forecast_kpi df country tech zone kpi forecast_months
  = (fig, summary, Some msg_missing_column) ->
  has_column df value_col = false.
Proof.
  unfold forecast_kpi.
  destruct (series_extractor df country tech zone kpi) as [[msg|series]|e] eqn:E;
    cbn [bind handle].
  - intros [= _ _ ->]. unfold series_extractor in E.
    destruct (select_dims df country tech zone kpi) as [[|r filtered]|e'];
      cbn [bind] in E; try discriminate.
    destruct (has_column df value_col); [|reflexivity]. cbn [negb] in E.
    destruct (groupby_mean (r :: filtered)); discriminate.
  - destruct (forecast_engine (feature_builder series) forecast_months);
      cbn [bind handle]; [|discriminate].
    destruct (package _ _ country tech zone kpi); cbn [bind handle]; discriminate.
  - discriminate.
Qed.

(** X17: the unified dataset has a column exactly when at least one of the
    accepted files has it, and its rows are the rows of the files, file after
    file.  So when any accepted file has the column
    'Actual Value MAPS Networks', [forecast_kpi] on the unified dataset never
    returns the missing-column message, even if other files lack the column
    (their rows read as missing values). *)
Theorem unified_dataset_unites_columns
        {C : Collaborators} (records : list DataFrame)
        (country tech zone kpi : str) (forecast_months : Z) :
  (forall c, has_column (concat records) c
             = existsb (fun df => has_column df c) records)
  /\ rows (concat records) = flat_map rows records
  /\ (existsb (fun df => has_column df (lit "Actual Value MAPS Networks")) records
      = true ->
      forall fig summary,
        forecast_kpi (concat records) country tech zone kpi forecast_months
        <> (fig, summary,
            Some (lit "Expected column 'Actual Value MAPS Networks' not found"))).
Proof.
  assert (Hcol : forall c, has_column (concat records) c
                           = existsb (fun df => has_column df c) records).
  { intro c. unfold has_column, concat. cbn [columns]. rewrite fold_union_existsb.
    cbn [existsb orb]. induction records as [|df rs IH]; [reflexivity|].
    cbn [map existsb]. now rewrite IH. }
  split; [exact Hcol|]. split; [reflexivity|].
  intros Hsome fig summary H. apply missing_column_return_inv in H.
  fold value_col in Hsome. rewrite <- (Hcol value_col) in Hsome. congruence.
Qed.

(** A file with the value column and one without it. *)
Lemma unified_dataset_unites_columns_witness :
  forecast_kpi (C := scenario)
    (concat [dataset [kpi_row jan24 (CNum 10)];
             dataset_without_values [row_without_value feb24]])
    (lit "France") (lit "4G") (lit "ZoneA") (lit "Availability") 3
  <> (None, None,
      Some (lit "Expected column 'Actual Value MAPS Networks' not found")).
Proof.
  apply (proj2 (proj2 (unified_dataset_unites_columns (C := scenario)
                         [dataset [kpi_row jan24 (CNum 10)];
                          dataset_without_values [row_without_value feb24]]
                         (lit "France") (lit "4G") (lit "ZoneA") (lit "Availability") 3))
               eq_refl None None).
Defined.

(* ================================================================== *)
(** * Finding the spreadsheets; failures of the loop *)
(* ================================================================== *)

Lemma endswith_iff (p suffix : str) :
  endswith p suffix = true <-> exists pre, p = pre ++ suffix.
Proof.
  split; [apply endswith_split|]. intros (pre & ->). unfold endswith.
  rewrite length_app. apply andb_true_intro. split.
  - apply Nat.leb_le. lia.
  - replace (length pre + length suffix - length suffix) with (length pre) by lia.
    rewrite skipn_app, skipn_all, Nat.sub_diag. now apply str_eqb_eq.
Qed.

(** X18: which files are read.  A listed file is a spreadsheet exactly when
    its name, lower-cased, ends in ".xlsx" or ".xls" (so [DATA.XLSX] and a
    file named just [.xls] are, [data.xlsx.bak] is not); and for bare file
    names the base names of the paths the pipeline reads are exactly the
    spreadsheet names among the listed ones, in listing order, whatever the
    directories. *)
Theorem excel_files_are_the_listed_spreadsheets (walked : list (str * str)) :
  (forall fn,
      is_excel fn = true
      <-> exists name, map lower fn = name ++ lit ".xlsx"
                       \/ map lower fn = name ++ lit ".xls")
  /\ ((forall root fn, In (root, fn) walked -> free_of "/" fn) ->
      map basename (find_excel_files walked) = filter is_excel (map snd walked)).
Proof.
  split.
  - intro fn. unfold is_excel. rewrite orb_true_iff, !endswith_iff.
    split.
    + intros [(name & H) | (name & H)]; exists name; auto.
    + intros (name & [H | H]); [left | right]; now exists name.
  - intro Hbare. unfold find_excel_files.
    induction walked as [|[root fn] walked IH]; [reflexivity|].
    cbn [filter map snd fst].
    assert (IH' : map basename
                    (map (fun rf => path_join (fst rf) (snd rf))
                         (filter (fun rf => is_excel (snd rf)) walked))
                  = filter is_excel (map snd walked))
      by (apply IH; intros r f Hin; apply (Hbare r f); now right).
    destruct (is_excel fn); [|exact IH'].
    cbn [map fst snd]. rewrite IH'. f_equal.
    apply basename_path_join. apply (Hbare root fn). now left.
Qed.

(** The listing of an archive with a nested folder. *)
Lemma excel_files_are_the_listed_spreadsheets_witness :
  is_excel (lit "DATA.XLSX") = true
  /\ map basename
       (find_excel_files
          [(lit "/tmp/t", lit "upload.zip"); (lit "/tmp/t/2024", lit "Jan2024.xlsx");
           (lit "/tmp/t/2024", lit "Feb2024.xls"); (lit "/tmp/t", lit "notes.xlsx.bak")])
     = [lit "Jan2024.xlsx"; lit "Feb2024.xls"].
Proof.
  split.
  - apply (proj1 (excel_files_are_the_listed_spreadsheets [])).
    exists (lit "data"). now left.
  - apply (proj2 (excel_files_are_the_listed_spreadsheets
                    [(lit "/tmp/t", lit "upload.zip");
                     (lit "/tmp/t/2024", lit "Jan2024.xlsx");
                     (lit "/tmp/t/2024", lit "Feb2024.xls");
                     (lit "/tmp/t", lit "notes.xlsx.bak")])).
    intros root fn [[= <- <-] | [[= <- <-] | [[= <- <-] | [[= <- <-] | []]]]];
      reflexivity.
Defined.

(** X19: started from three lags, the loop can only fail where the regressor
    fails: if it raises, the exception is the one [predict] raised on the
    feature vector of one of the future dates, and no partial forecast is
    returned. *)
Theorem forecast_loop_fails_only_in_predict
        {C : Collaborators} (model : Model) (future_dates : list Timestamp)
        (a b c : Float) (e : Exn) :
  forecast_loop model future_dates [a; b; c] = Raise e ->
  exists date l1 l2 l3,
    In date future_dates
    /\ xgb_predict model (mkVec (ts_month date) (ts_year date) l1 l2 l3) = Raise e.
Proof.
  revert a b c. induction future_dates as [|date rest IH]; intros a b c;
    cbn [forecast_loop item nth_error bind]; [discriminate|].
  destruct (xgb_predict model (mkVec (ts_month date) (ts_year date) a b c))
    as [pred|e'] eqn:Hp; cbn [bind firstn].
  - destruct (forecast_loop model rest [pred; a; b]) as [fs|e'] eqn:E;
      cbn [bind]; [discriminate|].
    intros [= ->]. destruct (IH pred a b E) as (d & l1 & l2 & l3 & Hin & Hx).
    exists d, l1, l2, l3. split; [now right | assumption].
  - intros [= ->]. exists date, a, b, c. split; [now left | assumption].
Qed.

(** December 2024 is predicted, January 2025 is refused: the loop raises. *)
Lemma forecast_loop_fails_only_in_predict_witness :
  exists date l1 l2 l3,
    In date [mkTs 2024 12 1; mkTs 2025 1 1]
    /\ xgb_predict (Collaborators := refusing_2025) tt
         (mkVec (ts_month date) (ts_year date) l1 l2 l3)
       = Raise (External (lit "bad input")).
Proof.
  exact (forecast_loop_fails_only_in_predict (C := refusing_2025) tt
           [mkTs 2024 12 1; mkTs 2025 1 1] (Fin 3) (Fin 2) (Fin 1)
           (External (lit "bad input")) eq_refl).
Defined.
